(** * ADGM Corporate Agent

    A shallow embedding of the Gradio front end ([ADGMCorporateAgent] in
    [app.py]), of the Document Processing and Q&A pages of
    [streamlit_app.py], and of the launch code of [app.py] and [run.py],
    with the properties of batch processing, session statistics, question
    answering, display and launch proved about it.

    - Python values: a [str] is the [string] of its UTF-8 encoding, [int]
      counters are [nat], scores (Python floats) are rationals [Q]. A total
      accumulated with [+=] is folded from the left in the order Python
      adds; the built-in [sum] is a parameter ([py_sum]) about which
      nothing is assumed, since its result on floats depends on the
      interpreter. The equalities proved between sums are syntactic and do
      not depend on the arithmetic of the carrier.
    - A Python [dict] is an insertion-ordered association list ([PyDict]).
    - Code that may raise runs in the error monad [Exc]; [try_except] is the
      [try: ... except Exception as e: ...] block. State is passed
      explicitly: a method takes the agent and returns it with its result.
      Calls to the logger are left out.
    - The objects that the front ends import from the [src] package and only
      call (document processor, RAG system, compliance checker, red-flag
      detector), and Python's [:.2f] and [os.path.basename], are the
      [Variable]s of the sections. The compliance analysis engine behind
      them is modelled from its specification in [Engine] and [RedFlags]. *)

From Stdlib Require Import String Ascii List Bool Arith ZArith QArith Qround Lia.
From Stdlib Require Import Sorting.Sorted Sorting.Permutation.
From stdpp Require Import base strings pretty.
Import ListNotations.

Local Open Scope list_scope.
Local Open Scope string_scope.

(** ** Strings *)

Definition nl : string := String (ascii_of_nat 10) EmptyString.

(** [sep.join(items)] *)
Fixpoint join (sep : string) (items : list string) : string :=
  match items with
  | [] => ""
  | [x] => x
  | x :: rest => x ++ sep ++ join sep rest
  end.

Fixpoint is_prefix (p s : string) : bool :=
  match p, s with
  | EmptyString, _ => true
  | String a p', String b s' => if ascii_dec a b then is_prefix p' s' else false
  | String _ _, EmptyString => false
  end.

(** [p in s] on strings *)
Fixpoint is_infix (p s : string) : bool :=
  is_prefix p s ||
  match s with
  | EmptyString => false
  | String _ s' => is_infix p s'
  end.

(** A [str] is held as the UTF-8 encoding of its text. The characters
    that [str.strip()] removes are those of Python's [str.isspace]: in
    ASCII, U+0009 to U+000D and U+001C to U+0020; *)
Definition is_py_space (c : ascii) : bool :=
  let n := nat_of_ascii c in
  ((9 <=? n)%nat && (n <=? 13)%nat) || ((28 <=? n)%nat && (n <=? 32)%nat).

(** in two bytes, U+0085 (C2 85) and U+00A0 (C2 A0); *)
Definition is_py_space2 (c d : ascii) : bool :=
  let c := nat_of_ascii c in
  let d := nat_of_ascii d in
  (c =? 194)%nat && ((d =? 133)%nat || (d =? 160)%nat).

(** in three bytes, U+1680 (E1 9A 80), U+2000 to U+200A (E2 80 80 to
    E2 80 8A), U+2028, U+2029 and U+202F (E2 80 A8, A9, AF), U+205F
    (E2 81 9F) and U+3000 (E3 80 80). *)
Definition is_py_space3 (c d e : ascii) : bool :=
  let c := nat_of_ascii c in
  let d := nat_of_ascii d in
  let e := nat_of_ascii e in
  ((c =? 225)%nat && (d =? 154)%nat && (e =? 128)%nat)
  || ((c =? 226)%nat && (d =? 128)%nat
      && (((128 <=? e)%nat && (e <=? 138)%nat)
          || (e =? 168)%nat || (e =? 169)%nat || (e =? 175)%nat))
  || ((c =? 226)%nat && (d =? 129)%nat && (e =? 159)%nat)
  || ((c =? 227)%nat && (d =? 128)%nat && (e =? 128)%nat).

(** [not s.strip()]: the string has nothing but white space. *)
Fixpoint is_blank (s : string) : bool :=
  match s with
  | EmptyString => true
  | String c s1 =>
      if is_py_space c then is_blank s1
      else
        match s1 with
        | EmptyString => false
        | String d s2 =>
            if is_py_space2 c d then is_blank s2
            else
              match s2 with
              | EmptyString => false
              | String e s3 => is_py_space3 c d e && is_blank s3
              end
        end
  end.

(** The string with the given bytes. *)
Definition utf8 (bytes : list nat) : string :=
  string_of_list_ascii (map ascii_of_nat bytes).

Definition string_eqb (a b : string) : bool := bool_decide (a = b).

(** [x in xs] on a list of strings *)
Definition str_in (x : string) (xs : list string) : bool :=
  existsb (string_eqb x) xs.

(** ** Exceptions and the error monad *)

Inductive PyException : Type :=
| AttributeError (cls attr : string)
| KeyError (key : string)
| TypeError (msg : string)
| ValueError (msg : string)
| RuntimeError (msg : string).

(** [str(e)] *)
Definition str_exc (e : PyException) : string :=
  match e with
  | AttributeError cls attr =>
      "'" ++ cls ++ "' object has no attribute '" ++ attr ++ "'"
  | KeyError key => "'" ++ key ++ "'"
  | TypeError msg => msg
  | ValueError msg => msg
  | RuntimeError msg => msg
  end.

Inductive Exc (A : Type) : Type :=
| Ok (a : A)
| Raise (e : PyException).
Arguments Ok {A} a.
Arguments Raise {A} e.

Definition bind {A B} (c : Exc A) (k : A -> Exc B) : Exc B :=
  match c with
  | Ok a => k a
  | Raise e => Raise e
  end.

Declare Scope exc_scope.
Delimit Scope exc_scope with exc.
Notation "'let*' x ':=' c 'in' k" := (bind c (fun x => k))
  (at level 10, x pattern, c at level 100, k at level 200) : exc_scope.
Local Open Scope exc_scope.

(** [try: body  except Exception as e: handler(e)] *)
Definition try_except {A} (body : Exc A) (handler : PyException -> Exc A)
  : Exc A :=
  match body with
  | Ok a => Ok a
  | Raise e => handler e
  end.

(** Monadic traversal of a list, left to right, stopping at the first raise
    (a [for] loop whose body may raise and is not guarded). *)
Fixpoint fold_exc {A B} (f : A -> B -> Exc A) (l : list B) (a : A) : Exc A :=
  match l with
  | [] => Ok a
  | b :: l' => bind (f a b) (fold_exc f l')
  end.

(** ** Insertion-ordered dictionaries *)

Module PyDict.
Definition t (V : Type) : Type := list (string * V).

Definition empty {V} : t V := [].

Fixpoint get {V} (k : string) (d : t V) : option V :=
  match d with
  | [] => None
  | (k', v) :: d' => if string_eqb k k' then Some v else get k d'
  end.

(** [d[k] = v]: an existing key keeps its place, a new one goes last. *)
Fixpoint set {V} (k : string) (v : V) (d : t V) : t V :=
  match d with
  | [] => [(k, v)]
  | (k', v') :: d' =>
      if string_eqb k k' then (k', v) :: d' else (k', v') :: set k v d'
  end.

(** [d[k]] *)
Definition item {V} (k : string) (d : t V) : Exc V :=
  match get k d with
  | Some v => Ok v
  | None => Raise (KeyError k)
  end.

Definition keys {V} (d : t V) : list string := map fst d.
Definition values {V} (d : t V) : list V := map snd d.
Definition items {V} (d : t V) : list (string * V) := d.

(** [not d] *)
Definition is_empty {V} (d : t V) : bool :=
  match d with [] => true | _ :: _ => false end.

(** [d.update(pairs)]: the assignments of [pairs], one after the other. *)
Definition update {V} (pairs : list (string * V)) (d : t V) : t V :=
  fold_left (fun acc kv => set (fst kv) (snd kv) acc) pairs d.
End PyDict.

(** ** Data of the collaborators *)

(** What [src.document_processor] hands back: the attributes and keys of
    [DocumentMetadata], [DocumentSection] and of the analysis dictionary
    that the application reads. *)
Module Doc.
Record DocumentMetadata : Type := {
  filename : string;
  document_type : string;
  confidence_score : Q;
  word_count : nat
}.

Record DocumentSection : Type := {
  title : string;
  compliance_status : string;
  legal_importance : string
}.

(** The analysis dictionary; a key that is absent is [None]. *)
Record Analysis : Type := {
  overall_compliance_score : option Q;
  critical_issues_count : option nat
}.
End Doc.

(** What [src.rag_system] hands back. *)
Module RAG.
Record Source : Type := {
  source : string;
  relevance_score : Q
}.

Record RAGResponse : Type := {
  answer : string;
  confidence_score : Q;
  adgm_references : list string;
  related_topics : list string;
  sources : list Source
}.
End RAG.

(** ** Session state of [ADGMCorporateAgent] *)

(** [current_session['documents'][doc_id]] *)
Record DocumentEntry : Type := {
  metadata : Doc.DocumentMetadata;
  sections : list Doc.DocumentSection;
  analysis : Doc.Analysis;
  file_path : string
}.

(** [current_session['compliance_reports'][doc_id]] *)
Record ComplianceEntry : Type := {
  compliance_score : Q;
  issues_count : nat
}.

(** [self.current_session] *)
Record Session : Type := {
  documents : PyDict.t DocumentEntry;
  analysis_results : PyDict.t Doc.Analysis;
  compliance_reports : PyDict.t ComplianceEntry;
  session_id : string
}.

(** One dictionary of the [results] list of [process_uploaded_documents];
    the key ['error'] is present only in the rows of failed files. *)
Record ResultRow : Type := {
  r_document : string;
  r_type : string;
  r_confidence : Q;
  r_compliance_score : Q;
  r_issues_count : nat;
  r_error : option string
}.

(** The local variables of the loop of [process_uploaded_documents],
    together with the session the loop writes to. *)
Record LoopState : Type := {
  results : list ResultRow;
  total_issues : nat;
  total_compliance_score : Q;
  processed_docs : nat;
  loop_session : Session
}.

(** [dict.get(key, default)] on a key of the analysis dictionary *)
Definition get_default {A} (o : option A) (default : A) : A :=
  match o with
  | Some a => a
  | None => default
  end.

(** [f"doc_{n}"] *)
Definition doc_id_of (n : nat) : string := "doc_" ++ pretty n.

(** The value of [total] after [total = 0] and [total += x] for the
    elements of [xs] in turn. *)
Definition running_total (xs : list Q) : Q := fold_left Qplus xs 0%Q.

(** [sum(xs) / len(xs) if xs else 0]. The built-in [sum] is the argument
    [py_sum]: on a list of floats its result is not fixed by the list
    alone (CPython adds from the left up to version 3.11 and uses a
    compensated summation from 3.12 on), so it is not identified with
    [running_total]. *)
Definition mean (py_sum : list Q -> Q) (xs : list Q) : Q :=
  match xs with
  | [] => 0%Q
  | _ :: _ => (py_sum xs / inject_Z (Z.of_nat (length xs)))%Q
  end.

(** [total / n if n > 0 else 0] for the running total [total] and the
    number [n] of the scores [xs]. *)
Definition running_mean (xs : list Q) : Q :=
  match xs with
  | [] => 0%Q
  | _ :: _ => (running_total xs / inject_Z (Z.of_nat (length xs)))%Q
  end.

(** [str.title()] on ASCII text: the first letter of every run of letters
    in upper case, the others in lower case. *)
Definition is_upper (c : ascii) : bool :=
  let n := nat_of_ascii c in (65 <=? n)%nat && (n <=? 90)%nat.
Definition is_lower (c : ascii) : bool :=
  let n := nat_of_ascii c in (97 <=? n)%nat && (n <=? 122)%nat.
Definition to_upper (c : ascii) : ascii :=
  if is_lower c then ascii_of_nat (nat_of_ascii c - 32) else c.
Definition to_lower (c : ascii) : ascii :=
  if is_upper c then ascii_of_nat (nat_of_ascii c + 32) else c.

Fixpoint title_from (inside_word : bool) (s : string) : string :=
  match s with
  | EmptyString => EmptyString
  | String c s' =>
      let letter := is_upper c || is_lower c in
      String (if inside_word then to_lower c else to_upper c)
             (title_from letter s')
  end.
Definition title (s : string) : string := title_from false s.

(** [s.lower()] on ASCII text *)
Fixpoint lower (s : string) : string :=
  match s with
  | EmptyString => EmptyString
  | String c s' => String (to_lower c) (lower s')
  end.

(** What [src.analytics_engine] and [src.export_manager] would hand back to
    [generate_analytics_dashboard] and [export_results]. *)
Module Analytics.
Record SummaryStats : Type := {
  total_documents : option nat;
  average_compliance_score : option Q;
  total_issues : option nat;
  critical_issues : option nat
}.

Definition no_stats : SummaryStats :=
  {| total_documents := None; average_compliance_score := None;
     total_issues := None; critical_issues := None |}.

Record t : Type := {
  summary_stats : option SummaryStats;
  document_type_counts : PyDict.t nat;
  severity_distribution : PyDict.t nat;
  performance_metrics : PyDict.t Q
}.
End Analytics.

Record AnalyticsEngine : Type := {
  engine_generate_analytics_dashboard : Session -> Exc Analytics.t;
  engine_generate_insights : Session -> Exc (list string)
}.

Record ExportManager : Type := {
  export_processed_documents : Session -> string -> Exc (string * string)
}.

(** The instance attributes of [ADGMCorporateAgent]. An attribute that the
    instance does not have is [None]; reading it raises [AttributeError].
    [document_processor] and [rag_system] are the collaborators of
    [Section Agent]; [supported_document_types] is a constant table. *)
Record ADGMCorporateAgent : Type := {
  openai_api_key : string;
  current_session : Session;
  analytics_engine : option AnalyticsEngine;
  export_manager : option ExportManager
}.

Definition supported_document_types : PyDict.t string :=
  [ ("Articles of Association", "articles_of_association");
    ("Memorandum of Association", "memorandum_of_association");
    ("UBO Declaration Form", "ubo_declaration");
    ("Board Resolution", "board_resolution");
    ("Incorporation Application", "incorporation_application");
    ("Register of Members", "register_of_members");
    ("Register of Directors", "register_of_directors");
    ("Shareholder Resolution", "shareholder_resolution") ].

(** [self.<attr>] for an attribute that may be missing *)
Definition getattr {A} (attr : string) (o : option A) : Exc A :=
  match o with
  | Some a => Ok a
  | None => Raise (AttributeError "ADGMCorporateAgent" attr)
  end.

(** [_generate_session_id]; the argument is
    [datetime.now().strftime('%Y%m%d_%H%M%S')]. *)
Definition _generate_session_id (now : string) : string := "session_" ++ now.

(** [ADGMCorporateAgent.__init__]; [env_key] is
    [os.getenv('OPENAI_API_KEY')]. Only the attributes assigned here exist
    on the instance. *)
Definition __init__ (env_key : option string) (now : string)
  : Exc ADGMCorporateAgent :=
  match env_key with
  | None | Some EmptyString =>
      Raise (ValueError "OPENAI_API_KEY not found in environment variables")
  | Some key =>
      Ok {| openai_api_key := key;
            current_session :=
              {| documents := PyDict.empty;
                 analysis_results := PyDict.empty;
                 compliance_reports := PyDict.empty;
                 session_id := _generate_session_id now |};
            analytics_engine := None;
            export_manager := None |}
  end.

Definition with_session (a : ADGMCorporateAgent) (s : Session)
  : ADGMCorporateAgent :=
  {| openai_api_key := openai_api_key a;
     current_session := s;
     analytics_engine := analytics_engine a;
     export_manager := export_manager a |}.

(** ** The methods of [ADGMCorporateAgent] *)

Definition required_docs : list string :=
  [ "Articles of Association"; "Memorandum of Association";
    "UBO Declaration Form" ].

(** The data from which [_generate_recommendations] writes its text. *)
Record Recommendations : Type := {
  rec_total_issues : nat;
  rec_avg_compliance : Q;
  rec_missing_docs : list string
}.

Section Agent.

(** [self.document_processor.process_document(file_path)] *)
Variable process_document :
  string ->
  Exc (Doc.DocumentMetadata * list Doc.DocumentSection * Doc.Analysis).
(** [self.rag_system.retrieve_relevant_context(question, k)] *)
Variable retrieve_relevant_context : string -> nat -> Exc (list RAG.Source).
(** [self.rag_system.generate_response(question, context)] *)
Variable generate_response :
  string -> list RAG.Source -> Exc RAG.RAGResponse.
(** [f"{x:.2f}"] *)
Variable fmt2f : Q -> string.
(** [os.path.basename] *)
Variable basename : string -> string.
(** The built-in [sum] on a list of scores; nothing is assumed about it. *)
Variable py_sum : list Q -> Q.

(** *** [process_uploaded_documents] *)

(** The body of [for file_path in files]. The only call that can raise
    inside the inner [try] is [process_document]: the remaining statements
    read attributes and keys of the values it returned. *)
Definition process_file (st : LoopState) (path : string) : LoopState :=
  match process_document path with
  | Ok (md, secs, an) =>
      let s := loop_session st in
      let doc_id := doc_id_of (processed_docs st + 1) in
      let docs' :=
        PyDict.set doc_id
          {| metadata := md; sections := secs; analysis := an;
             file_path := path |} (documents s) in
      let score := get_default (Doc.overall_compliance_score an) 0%Q in
      let issues := get_default (Doc.critical_issues_count an) 0 in
      let reports' :=
        PyDict.set doc_id
          {| compliance_score := score; issues_count := issues |}
          (compliance_reports s) in
      {| results :=
           (results st ++
           [ {| r_document := Doc.filename md;
                r_type := Doc.document_type md;
                r_confidence := Doc.confidence_score md;
                r_compliance_score := score;
                r_issues_count := issues;
                r_error := None |} ])%list;
         total_issues := total_issues st + issues;
         total_compliance_score := (total_compliance_score st + score)%Q;
         processed_docs := processed_docs st + 1;
         loop_session :=
           {| documents := docs';
              analysis_results := analysis_results s;
              compliance_reports := reports';
              session_id := session_id s |} |}
  | Raise e =>
      {| results :=
           (results st ++
           [ {| r_document := basename path;
                r_type := "Error";
                r_confidence := 0%Q;
                r_compliance_score := 0%Q;
                r_issues_count := 0;
                r_error := Some (str_exc e) |} ])%list;
         total_issues := total_issues st;
         total_compliance_score := total_compliance_score st;
         processed_docs := processed_docs st;
         loop_session := loop_session st |}
  end.

Definition loop_start (s : Session) : LoopState :=
  {| results := []; total_issues := 0; total_compliance_score := 0%Q;
     processed_docs := 0; loop_session := s |}.

Definition process_loop (files : list string) (s : Session) : LoopState :=
  fold_left process_file files (loop_start s).

(** [total_compliance_score / processed_docs if processed_docs > 0 else 0] *)
Definition avg_compliance (st : LoopState) : Q :=
  if (0 <? processed_docs st)%nat
  then (total_compliance_score st
        / inject_Z (Z.of_nat (processed_docs st)))%Q
  else 0%Q.

Definition summary_header (st : LoopState) : string :=
  nl ++ "## Document Processing Summary" ++ nl ++ nl ++
  "**Documents Processed:** " ++ pretty (processed_docs st) ++ nl ++
  "**Average Compliance Score:** " ++ fmt2f (avg_compliance st) ++ "/1.0"
    ++ nl ++
  "**Total Issues Found:** " ++ pretty (total_issues st) ++ nl ++
  "**Session ID:** " ++ session_id (loop_session st) ++ nl ++ nl ++
  "### Document Details:" ++ nl.

Definition summary_line (r : ResultRow) : string :=
  match r_error r with
  | None =>
      nl ++ "- **" ++ r_document r ++ "**" ++ nl ++
      "  - Type: " ++ r_type r ++ " (Confidence: " ++ fmt2f (r_confidence r)
        ++ ")" ++ nl ++
      "  - Compliance Score: " ++ fmt2f (r_compliance_score r) ++ nl ++
      "  - Issues: " ++ pretty (r_issues_count r) ++ nl
  | Some err =>
      nl ++ "- **" ++ r_document r ++ "** - ERROR: " ++ err ++ nl
  end.

Definition render_summary (st : LoopState) : string :=
  fold_left (fun acc r => acc ++ summary_line r) (results st)
            (summary_header st).

(** *** [_generate_detailed_analysis] *)

Definition section_line (sec : Doc.DocumentSection) : string :=
  "- " ++ Doc.title sec ++ ": " ++ Doc.compliance_status sec ++ " ("
    ++ Doc.legal_importance sec ++ ")" ++ nl.

Definition detailed_entry (d : DocumentEntry) (c : ComplianceEntry)
  : string :=
  "### " ++ Doc.filename (metadata d) ++ nl ++ nl ++
  "**Document Type:** " ++ Doc.document_type (metadata d) ++ nl ++
  "**Word Count:** " ++ pretty (Doc.word_count (metadata d)) ++ nl ++
  "**Sections:** " ++ pretty (length (sections d)) ++ nl ++
  "**Compliance Score:** " ++ fmt2f (compliance_score c) ++ nl ++ nl ++
  match sections d with
  | [] => ""
  | _ :: _ =>
      "**Section Analysis:**" ++ nl ++
      fold_left (fun acc sec => acc ++ section_line sec)
                (firstn 5 (sections d)) "" ++
      (if (5 <? length (sections d))%nat
       then "- ... and " ++ pretty (length (sections d) - 5)
            ++ " more sections" ++ nl
       else "") ++
      nl
  end ++
  (if (0 <? issues_count c)%nat
   then "**Issues Found:** " ++ pretty (issues_count c) ++ nl ++ nl
   else "") ++
  "---" ++ nl ++ nl.

Definition _generate_detailed_analysis (s : Session) : Exc string :=
  if PyDict.is_empty (documents s) then Ok "No documents processed yet."
  else
    fold_exc
      (fun acc (it : string * DocumentEntry) =>
         let* c := PyDict.item (fst it) (compliance_reports s) in
         Ok (acc ++ detailed_entry (snd it) c))
      (PyDict.items (documents s))
      ("## Detailed Document Analysis" ++ nl ++ nl).

(** *** [_generate_recommendations] *)

(** The loop that collects [all_compliance_scores] and [total_issues]. *)
Definition collect_compliance (s : Session) : Exc (list Q * nat) :=
  fold_exc
    (fun (acc : list Q * nat) (it : string * DocumentEntry) =>
       let* c := PyDict.item (fst it) (compliance_reports s) in
       Ok ((fst acc ++ [compliance_score c])%list,
           snd acc + issues_count c))
    (PyDict.items (documents s))
    ([], 0).

Definition doc_types (s : Session) : list string :=
  map (fun d => Doc.document_type (metadata d))
      (PyDict.values (documents s)).

(** [[doc for doc in required_docs if doc not in doc_types]] *)
Definition missing_docs (s : Session) : list string :=
  List.filter (fun doc => negb (str_in doc (doc_types s))) required_docs.

(** [None] is the early return on a session without documents. *)
Definition recommendations_of (s : Session) : Exc (option Recommendations) :=
  if PyDict.is_empty (documents s) then Ok None
  else
    let* acc := collect_compliance s in
    Ok (Some {| rec_total_issues := snd acc;
                rec_avg_compliance := mean py_sum (fst acc);
                rec_missing_docs := missing_docs s |}).

Definition render_recommendations (r : option Recommendations) : string :=
  match r with
  | None => "No documents processed yet."
  | Some r =>
      "## Recommendations" ++ nl ++ nl ++
      "### Priority Actions" ++ nl ++ nl ++
      (if (0 <? rec_total_issues r)%nat
       then "1. **Address " ++ pretty (rec_total_issues r)
            ++ " Issues Found**" ++ nl ++
            "   - Review all flagged sections for compliance" ++ nl ++ nl
       else "") ++
      (if Qlt_le_dec (rec_avg_compliance r) (7 # 10)
       then "2. **Improve Overall Compliance**" ++ nl ++
            "   - Current average compliance score is below recommended threshold"
            ++ nl ++
            "   - Focus on jurisdiction clauses and required sections"
            ++ nl ++ nl
       else "") ++
      (match rec_missing_docs r with
       | [] => ""
       | _ :: _ =>
           "3. **Complete Required Documents**" ++ nl ++
           "   - Missing: " ++ join ", " (rec_missing_docs r) ++ nl ++ nl
       end) ++
      "### General Recommendations" ++ nl ++ nl ++
      "- Ensure all jurisdiction clauses specify ADGM Courts" ++ nl ++
      "- Verify all documents are signed and dated" ++ nl ++
      "- Review beneficial ownership declarations for completeness" ++ nl ++
      "- Confirm registered office address is within ADGM" ++ nl
  end.

Definition _generate_recommendations (s : Session) : Exc string :=
  let* r := recommendations_of s in
  Ok (render_recommendations r).

(** The whole method. [files] is [None] when the caller passes [None]
    (no upload); the loop has already written to the session when one of
    the two report generators raises and the outer handler answers. *)
Definition process_uploaded_documents
    (a : ADGMCorporateAgent) (files : option (list string))
  : Exc (string * string * string) * ADGMCorporateAgent :=
  match files with
  | None | Some [] => (Ok ("No files uploaded", "", ""), a)
  | Some fs =>
      let st := process_loop fs (current_session a) in
      let s' := loop_session st in
      (try_except
         (let* detailed := _generate_detailed_analysis s' in
          let* recs := _generate_recommendations s' in
          Ok (render_summary st, detailed, recs))
         (fun e =>
            Ok ("Error processing documents: " ++ str_exc e, "", "")),
       with_session a s')
  end.

(** *** [ask_adgm_question] *)

Definition no_information_message : string :=
  "I couldn't find relevant information in the ADGM knowledge base. Please try rephrasing your question.".

(** [chr(10).join(f(x) for x in xs) if xs else fallback] *)
Definition bullet_block {A} (f : A -> string) (xs shown : list A)
    (fallback : string) : string :=
  match xs with
  | [] => fallback
  | _ :: _ => join nl (map f shown)
  end.

Definition format_response (question : string) (r : RAG.RAGResponse)
  : string :=
  nl ++ "## " ++ question ++ nl ++ nl ++
  "**Answer:** " ++ RAG.answer r ++ nl ++ nl ++
  "**Confidence:** " ++ fmt2f (RAG.confidence_score r) ++ nl ++ nl ++
  "**ADGM References:**" ++ nl ++
  bullet_block (fun ref => "- " ++ ref)
    (RAG.adgm_references r) (RAG.adgm_references r)
    "- No specific references found" ++ nl ++ nl ++
  "**Related Topics:**" ++ nl ++
  bullet_block (fun topic => "- " ++ topic)
    (RAG.related_topics r) (RAG.related_topics r)
    "- None identified" ++ nl ++ nl ++
  "**Sources Used:**" ++ nl ++
  bullet_block
    (fun src => "- " ++ RAG.source src ++ " (Relevance: "
                ++ fmt2f (RAG.relevance_score src) ++ ")")
    (RAG.sources r) (firstn 3 (RAG.sources r))
    "- No sources available" ++ nl.

Definition ask_adgm_question (question : string) : Exc string :=
  try_except
    (if is_blank question
     then Ok "Please enter a question about ADGM compliance or regulations."
     else
       let* context := retrieve_relevant_context question 5 in
       match context with
       | [] => Ok no_information_message
       | _ :: _ =>
           let* response := generate_response question context in
           Ok (format_response question response)
       end)
    (fun e => Ok ("Error processing question: " ++ str_exc e)).

(** *** [generate_analytics_dashboard] *)

Definition format_analytics (an : Analytics.t) : string :=
  let summary := get_default (Analytics.summary_stats an) Analytics.no_stats in
  "## Analytics Dashboard" ++ nl ++ nl ++
  "**Total Documents:** "
    ++ pretty (get_default (Analytics.total_documents summary) 0) ++ nl ++
  "**Average Compliance Score:** "
    ++ fmt2f (get_default (Analytics.average_compliance_score summary) 0%Q)
    ++ nl ++
  "**Total Issues:** "
    ++ pretty (get_default (Analytics.total_issues summary) 0) ++ nl ++
  "**Critical Issues:** "
    ++ pretty (get_default (Analytics.critical_issues summary) 0)
    ++ nl ++ nl ++
  (match Analytics.document_type_counts an with
   | [] => ""
   | _ :: _ =>
       "**Document Types:**" ++ nl ++
       fold_left
         (fun acc (it : string * nat) =>
            acc ++ "- " ++ fst it ++ ": " ++ pretty (snd it) ++ nl)
         (PyDict.items (Analytics.document_type_counts an)) "" ++
       nl
   end) ++
  (if existsb (fun c => (0 <? c)%nat)
              (PyDict.values (Analytics.severity_distribution an))
   then
     "**Issues by Severity:**" ++ nl ++
     fold_left
       (fun acc (it : string * nat) =>
          if (0 <? snd it)%nat
          then acc ++ "- " ++ title (fst it) ++ ": " ++ pretty (snd it) ++ nl
          else acc)
       (PyDict.items (Analytics.severity_distribution an)) "" ++
     nl
   else "") ++
  (match Analytics.performance_metrics an with
   | [] => ""
   | _ :: _ =>
       let metric k :=
         fmt2f (get_default
                  (PyDict.get k (Analytics.performance_metrics an)) 0%Q) in
       "**Performance Metrics:**" ++ nl ++
       "- Quality Score: " ++ metric "quality_score" ++ nl ++
       "- Compliance Rate: " ++ metric "compliance_rate" ++ nl ++
       "- High Confidence Rate: " ++ metric "high_confidence_rate"
         ++ nl ++ nl
   end).

Definition format_insights (insights : list string) : string :=
  "## Key Insights" ++ nl ++ nl ++
  match insights with
  | [] => "No specific insights generated." ++ nl
  | _ :: _ =>
      fold_left (fun acc insight => acc ++ "- " ++ insight ++ nl) insights ""
  end.

Definition generate_analytics_dashboard (a : ADGMCorporateAgent)
  : Exc (string * string) :=
  try_except
    (if PyDict.is_empty (documents (current_session a))
     then Ok ("No documents processed yet.", "")
     else
       let* engine := getattr "analytics_engine" (analytics_engine a) in
       let* analytics :=
         engine_generate_analytics_dashboard engine (current_session a) in
       let* insights :=
         engine_generate_insights engine (current_session a) in
       Ok (format_analytics analytics, format_insights insights))
    (fun e => Ok ("Error generating analytics: " ++ str_exc e, "")).

(** *** [export_results] *)

Definition export_results (a : ADGMCorporateAgent) (export_format : string)
  : Exc (string * string) :=
  try_except
    (if PyDict.is_empty (documents (current_session a))
     then Ok ("", "No documents to export")
     else
       let* manager := getattr "export_manager" (export_manager a) in
       let* res :=
         export_processed_documents manager (current_session a)
                                    export_format in
       Ok (fst res, snd res))
    (fun e => Ok ("", "Export failed: " ++ str_exc e)).

End Agent.

(** ** The Document Processing page of [streamlit_app.py] *)

Module Streamlit.

(** A red-flag dictionary, read with [flag.get(key, ...)] *)
Record RedFlag : Type := {
  severity : option string;
  description : option string;
  location : option string;
  suggestion : option string
}.

(** The dictionary returned by [check_compliance] *)
Record ComplianceReport : Type := {
  overall_score : option Q
}.

(** [st.session_state.compliance_reports[doc_id]] *)
Record ReportEntry : Type := {
  compliance_report : ComplianceReport;
  red_flags : list RedFlag
}.

Record Row : Type := {
  filename : string;
  doc_type : string;
  confidence : Q;
  compliance_score : Q;
  issues_count : nat;
  critical_issues : nat
}.

(** An uploaded file: its name and the temporary file it was saved to. *)
Record Upload : Type := {
  name : string;
  temp_file : string
}.

(** [st.session_state], the [results] of the run and the messages shown
    with [st.error]. *)
Record PageState : Type := {
  documents : PyDict.t DocumentEntry;
  compliance_reports : PyDict.t ReportEntry;
  results : list Row;
  errors : list string
}.

Section Page.
Variable process_document :
  string ->
  Exc (Doc.DocumentMetadata * list Doc.DocumentSection * Doc.Analysis).
(** [compliance_checker.check_compliance(metadata, sections, analysis)] *)
Variable check_compliance :
  Doc.DocumentMetadata -> list Doc.DocumentSection -> Doc.Analysis ->
  Exc ComplianceReport.
(** [red_flag_detector.detect_red_flags(metadata, sections, analysis)] *)
Variable detect_red_flags :
  Doc.DocumentMetadata -> list Doc.DocumentSection -> Doc.Analysis ->
  Exc (list RedFlag).

(** [sum(1 for flag in red_flags if flag.get('severity') == 'critical')] *)
Definition count_critical (flags : list RedFlag) : nat :=
  length
    (List.filter (fun flag =>
               match severity flag with
               | Some s => string_eqb s "critical"
               | None => false
               end) flags).

(** The handler of the inner [try]: only a message is shown. *)
Definition report_error (st : PageState) (f : Upload) (e : PyException)
  : PageState :=
  {| documents := documents st;
     compliance_reports := compliance_reports st;
     results := results st;
     errors :=
       (errors st ++
        [("Error processing " ++ name f ++ ": " ++ str_exc e)%string])%list
  |}.

(** The body of [for i, temp_file in enumerate(temp_files)]; what was
    written before a raise stays written. *)
Definition process_file (st : PageState) (i : nat) (f : Upload)
  : PageState :=
  match process_document (temp_file f) with
  | Raise e => report_error st f e
  | Ok (md, secs, an) =>
      let doc_id := doc_id_of (i + 1) in
      let st1 :=
        {| documents :=
             PyDict.set doc_id
               {| metadata := md; sections := secs; analysis := an;
                  file_path := temp_file f |} (documents st);
           compliance_reports := compliance_reports st;
           results := results st;
           errors := errors st |} in
      match check_compliance md secs an with
      | Raise e => report_error st1 f e
      | Ok report =>
          match detect_red_flags md secs an with
          | Raise e => report_error st1 f e
          | Ok flags =>
              {| documents := documents st1;
                 compliance_reports :=
                   PyDict.set doc_id
                     {| compliance_report := report; red_flags := flags |}
                     (compliance_reports st1);
                 results :=
                   (results st1 ++
                    [ {| filename := name f;
                         doc_type := Doc.document_type md;
                         confidence := Doc.confidence_score md;
                         compliance_score :=
                           get_default (overall_score report) 0%Q;
                         issues_count := length flags;
                         critical_issues := count_critical flags |} ])%list;
                 errors := errors st1 |}
          end
      end
  end.

Fixpoint process_from (i : nat) (files : list Upload) (st : PageState)
  : PageState :=
  match files with
  | [] => st
  | f :: rest => process_from (S i) rest (process_file st i f)
  end.

(** One press of the Process Documents button: [results] starts empty,
    the session dictionaries are the ones of the previous runs. *)
Definition process_documents (files : list Upload) (st : PageState)
  : PageState :=
  process_from 0 files
    {| documents := documents st;
       compliance_reports := compliance_reports st;
       results := [];
       errors := [] |}.

(** The three calls of the loop body all return for this file. *)
Definition succeeded (f : Upload) : bool :=
  match process_document (temp_file f) with
  | Raise _ => false
  | Ok (md, secs, an) =>
      match check_compliance md secs an, detect_red_flags md secs an with
      | Ok _, Ok _ => true
      | _, _ => false
      end
  end.
End Page.

(** What the ADGM Q&A page shows after the Ask Question button: a warning
    ([st.warning]), the widgets of an answer (text, confidence metric,
    references, topics, sources), or an error ([st.error]). *)
Inductive Shown : Type :=
| Warning (msg : string)
| Answer (response : RAG.RAGResponse)
| Error (msg : string).

Section QuestionPage.
Variable retrieve_relevant_context : string -> nat -> Exc (list RAG.Source).
Variable generate_response :
  string -> list RAG.Source -> Exc RAG.RAGResponse.

Definition ask_page (question : string) : Shown :=
  if is_blank question then Warning "⚠️ Please enter a question."
  else
    match retrieve_relevant_context question 5 with
    | Raise e => Error ("❌ Error processing question: " ++ str_exc e)
    | Ok [] =>
        Warning "⚠️ No relevant information found. Please try rephrasing your question."
    | Ok (c :: ctx) =>
        match generate_response question (c :: ctx) with
        | Raise e => Error ("❌ Error processing question: " ++ str_exc e)
        | Ok response => Answer response
        end
    end.
End QuestionPage.

End Streamlit.

(** ** The compliance analysis engine

    [src/compliance_checker.py], [src/red_flag_detector.py] and
    [src/document_processor.py] are imported by the two front ends but are
    not among the sources at hand; the engine is modelled from sections 3
    and 4 of the specification. *)

Module Engine.

Inductive Severity : Type := Critical | High | Medium | Low.

Inductive Importance : Type :=
| CriticalTier | ImportantTier | StandardTier | InformationalTier.

Inductive RuleStatus : Type :=
| Unchecked | Satisfied | Violated | NotApplicable.

Definition severity_eqb (a b : Severity) : bool :=
  match a, b with
  | Critical, Critical | High, High | Medium, Medium | Low, Low => true
  | _, _ => false
  end.

(** Modelled from the spec: the Section of the data model (section 3): a
    title, a body text, a position index, an importance tier and the
    semantic label given by the classifier. *)
Record ClassifiedSection : Type := {
  sec_title : string;
  sec_text : string;
  sec_position : nat;
  sec_importance : Importance;
  sec_label : string
}.

(** Modelled from the spec: the Rule of the Rule Catalog (section 3): an
    identifier, the applicable document types, the required pattern, the
    severity if violated and the remediation text. *)
Record Rule : Type := {
  rule_id : string;
  rule_document_types : list string;
  rule_pattern : string;
  rule_severity : Severity;
  rule_remediation : string
}.

(** Case-insensitive containment *)
Definition contains_ci (text pattern : string) : bool :=
  is_infix (lower pattern) (lower text).

(** The concatenated text of all sections *)
Definition document_text (secs : list ClassifiedSection) : string :=
  fold_right (fun sec acc => sec_text sec ++ nl ++ acc) "" secs.

(** Modelled from the spec: one rule evaluation of the Compliance Scorer
    (section 4.2), from Unchecked to Satisfied, Violated or NotApplicable:
    not applicable when the document type does not match, otherwise the
    required pattern is looked up in the concatenated text. *)
Definition evaluate_rule (document_type text : string) (r : Rule)
  : RuleStatus :=
  if str_in document_type (rule_document_types r)
  then if contains_ci text (rule_pattern r) then Satisfied else Violated
  else NotApplicable.

(** The counters the scorer keeps while it walks the catalog. *)
Record Tally : Type := {
  n_satisfied : nat;
  n_violated : nat;
  violated_ids : list string;
  n_critical : nat
}.

Definition tally_start : Tally :=
  {| n_satisfied := 0; n_violated := 0; violated_ids := []; n_critical := 0 |}.

Definition tally_rule (document_type text : string) (t : Tally) (r : Rule)
  : Tally :=
  match evaluate_rule document_type text r with
  | Satisfied =>
      {| n_satisfied := S (n_satisfied t); n_violated := n_violated t;
         violated_ids := violated_ids t; n_critical := n_critical t |}
  | Violated =>
      {| n_satisfied := n_satisfied t; n_violated := S (n_violated t);
         violated_ids := (violated_ids t ++ [rule_id r])%list;
         n_critical :=
           if severity_eqb (rule_severity r) Critical
           then S (n_critical t) else n_critical t |}
  | Unchecked | NotApplicable => t
  end.

Record ComplianceReport : Type := {
  overall_score : Q;
  violated_rules : list string;
  critical_issues_count : nat
}.

(** Modelled from the spec: the overall score of section 4.2, the count
    of Satisfied rules over the count of Satisfied plus Violated rules,
    1.0 when no rule applies. *)
Definition score_of (t : Tally) : Q :=
  if (n_satisfied t + n_violated t =? 0)%nat then 1%Q
  else (inject_Z (Z.of_nat (n_satisfied t))
        / inject_Z (Z.of_nat (n_satisfied t + n_violated t)))%Q.

(** Modelled from the spec: [score(document_type, classified_sections)]
    of section 4.2 over a rule catalog. *)
Definition score (catalog : list Rule) (document_type : string)
    (secs : list ClassifiedSection) : ComplianceReport :=
  let t :=
    fold_left (tally_rule document_type (document_text secs)) catalog
              tally_start in
  {| overall_score := score_of t;
     violated_rules := violated_ids t;
     critical_issues_count := n_critical t |}.

(** Modelled from the spec: the per-document analysis record of section
    4.4, with the two keys that [process_uploaded_documents] reads. *)
Definition analysis_of (rep : ComplianceReport) : Doc.Analysis :=
  {| Doc.overall_compliance_score := Some (overall_score rep);
     Doc.critical_issues_count := Some (critical_issues_count rep) |}.

Definition status_eqb (a b : RuleStatus) : bool :=
  match a, b with
  | Unchecked, Unchecked | Satisfied, Satisfied
  | Violated, Violated | NotApplicable, NotApplicable => true
  | _, _ => false
  end.

(** The rules of the catalog that evaluate to a given status. *)
Definition rules_with (status : RuleStatus) (catalog : list Rule)
    (document_type : string) (secs : list ClassifiedSection) : list Rule :=
  List.filter
    (fun r =>
       status_eqb (evaluate_rule document_type (document_text secs) r)
                  status)
    catalog.

(** The rules of the catalog that are violated with severity Critical. *)
Definition critical_violations (catalog : list Rule)
    (document_type : string) (secs : list ClassifiedSection) : list Rule :=
  List.filter
    (fun r =>
       match evaluate_rule document_type (document_text secs) r with
       | Violated => severity_eqb (rule_severity r) Critical
       | _ => false
       end) catalog.

End Engine.

Module RedFlags.
Import Engine.

Inductive Category : Type :=
| JurisdictionMismatch
| AmbiguousLanguage
| MissingRequiredSection
| IncompleteOwnership
| MissingSignature.

(** A section index or the document as a whole *)
Inductive Location : Type :=
| AtSection (position : nat)
| DocumentLevel.

(** Modelled from the spec: the RedFlag of the data model (section 3). *)
Record RedFlag : Type := {
  flag_severity : Severity;
  flag_category : Category;
  flag_location : Location;
  flag_description : string
}.

(** Critical first. *)
Definition severity_rank (s : Severity) : nat :=
  match s with
  | Critical => 3
  | High => 2
  | Medium => 1
  | Low => 0
  end.

(** Positions ascend; a document-level finding has no section position
    and comes after the located ones of its severity. *)
Definition location_leb (a b : Location) : bool :=
  match a, b with
  | AtSection p, AtSection q => (p <=? q)%nat
  | AtSection _, DocumentLevel => true
  | DocumentLevel, AtSection _ => false
  | DocumentLevel, DocumentLevel => true
  end.

(** [a] may stand before [b]: higher severity, or the same severity and
    a position that is not later. *)
Definition flag_leb (a b : RedFlag) : bool :=
  let ra := severity_rank (flag_severity a) in
  let rb := severity_rank (flag_severity b) in
  (rb <? ra)%nat || ((ra =? rb)%nat && location_leb (flag_location a)
                                                    (flag_location b)).

(** Stable insertion: the new flag goes before the first flag that must
    come after it. *)
Fixpoint insert_flag (x : RedFlag) (l : list RedFlag) : list RedFlag :=
  match l with
  | [] => [x]
  | y :: l' => if flag_leb y x then y :: insert_flag x l' else x :: y :: l'
  end.

Definition sort_flags (l : list RedFlag) : list RedFlag :=
  fold_left (fun acc x => insert_flag x acc) l [].

Section Detector.
(** The pattern tables of the detector (section 9 keeps them as data):
    the named foreign court systems, the phrase naming the regulator's
    courts, the hedging phrases, the section labels each document type
    must have, the document types that declare beneficial owners, the
    label of a beneficial-owner entry and the markers of a signature
    block. *)
Variable foreign_courts : list string.
Variable regulator_courts : string.
Variable hedging_phrases : list string.
Variable required_sections : string -> list string.
Variable ubo_document_types : list string.
Variable owner_entry_label : string.
Variable signature_markers : list string.

Definition owner_fields : list string :=
  ["name"; "percentage"; "nationality"].

Definition mentions_any (text : string) (phrases : list string) : bool :=
  existsb (contains_ci text) phrases.

Definition flag (s : Severity) (c : Category) (loc : Location)
    (d : string) : RedFlag :=
  {| flag_severity := s; flag_category := c; flag_location := loc;
     flag_description := d |}.

(** Modelled from the spec: jurisdiction mismatch (section 4.3), a
    section that names a foreign court system and not the regulator's
    courts; Critical. *)
Definition detect_jurisdiction (secs : list ClassifiedSection)
  : list RedFlag :=
  flat_map
    (fun sec =>
       if mentions_any (sec_text sec) foreign_courts
          && negb (contains_ci (sec_text sec) regulator_courts)
       then [flag Critical JurisdictionMismatch
                  (AtSection (sec_position sec))
                  "Jurisdiction mismatch"]
       else [])
    secs.

(** Modelled from the spec: ambiguous or non-binding language (section
    4.3), a hedging phrase inside a section of Critical importance;
    Medium. *)
Definition detect_ambiguous (secs : list ClassifiedSection)
  : list RedFlag :=
  flat_map
    (fun sec =>
       match sec_importance sec with
       | CriticalTier =>
           if mentions_any (sec_text sec) hedging_phrases
           then [flag Medium AmbiguousLanguage
                      (AtSection (sec_position sec))
                      "Ambiguous or non-binding language"]
           else []
       | _ => []
       end)
    secs.

(** Modelled from the spec: missing required section (section 4.3), a
    section type mandated for the document type and absent from the
    document; High, at document level. *)
Definition detect_missing_sections (document_type : string)
    (secs : list ClassifiedSection) : list RedFlag :=
  flat_map
    (fun label =>
       if str_in label (map sec_label secs) then []
       else [flag High MissingRequiredSection DocumentLevel
                  ("Missing required section: " ++ label)])
    (required_sections document_type).

(** Modelled from the spec: incomplete ownership disclosure (section
    4.3), in a UBO-type document a beneficial-owner entry that lacks one
    of the required fields; one Critical flag at the entry. *)
Definition detect_ownership (document_type : string)
    (secs : list ClassifiedSection) : list RedFlag :=
  if str_in document_type ubo_document_types
  then
    flat_map
      (fun sec =>
         if string_eqb (sec_label sec) owner_entry_label
            && negb (forallb (contains_ci (sec_text sec)) owner_fields)
         then [flag Critical IncompleteOwnership
                    (AtSection (sec_position sec))
                    "Incomplete ownership disclosure"]
         else [])
      secs
  else [].

(** Modelled from the spec: missing signature or execution block
    (section 4.3), no section with a signature marker; High, at
    document level. *)
Definition detect_signature (secs : list ClassifiedSection)
  : list RedFlag :=
  if existsb (fun sec => mentions_any (sec_text sec) signature_markers)
             secs
  then []
  else [flag High MissingSignature DocumentLevel
             "Missing signature or execution block"].

(** The findings of the five detectors, each evaluated on its own. *)
Definition findings (document_type : string)
    (secs : list ClassifiedSection) : list RedFlag :=
  (detect_jurisdiction secs ++
   detect_ambiguous secs ++
   detect_missing_sections document_type secs ++
   detect_ownership document_type secs ++
   detect_signature secs)%list.

(** Modelled from the spec: [detect(document_type, classified_sections)]
    of section 4.3, the findings ordered by descending severity and then
    by ascending section position. *)
Definition detect (document_type : string)
    (secs : list ClassifiedSection) : list RedFlag :=
  sort_flags (findings document_type secs).
End Detector.

(** [a] may stand before [b] in the sorted list. *)
Definition before (a b : RedFlag) : Prop := flag_leb a b = true.

(** What must hold between a flag and any later flag of the list: the
    severity does not rise, and at equal severity the section position does
    not fall. *)
Definition in_order (a b : RedFlag) : Prop :=
  (severity_rank (flag_severity b) <= severity_rank (flag_severity a))%nat /\
  (severity_rank (flag_severity a) = severity_rank (flag_severity b) ->
   forall p q,
     flag_location a = AtSection p -> flag_location b = AtSection q ->
     (p <= q)%nat).

End RedFlags.

(** ** The rest of [app.py]: the export button and the launch *)

(** [export_with_file_output], the function behind the Export Results
    button in [create_gradio_interface]:
    [return message, file_path if file_path else None]. *)
Definition export_with_file_output (a : ADGMCorporateAgent)
    (format_choice : string) : Exc (string * option string) :=
  let* res := export_results a format_choice in
  Ok (snd res,
      match fst res with
      | EmptyString => None
      | String _ _ => Some (fst res)
      end).

(** What [create_gradio_interface] builds: the one-function interface that
    only reports the missing key, or the tabs wired to the agent. *)
Inductive GradioInterface : Type :=
| ConfigurationRequired (message : string)
| AgentInterface (agent : ADGMCorporateAgent).

(** [os.getenv(key)] on an environment; [os.environ[key] = value] is
    [PyDict.set]. *)
Definition getenv (env : PyDict.t string) (key : string) : option string :=
  PyDict.get key env.

(** The agent is built inside [try: ... except ValueError]; no other
    exception is handled there. *)
Definition create_gradio_interface (env : PyDict.t string) (now : string)
  : Exc GradioInterface :=
  match __init__ (getenv env "OPENAI_API_KEY") now with
  | Ok agent => Ok (AgentInterface agent)
  | Raise (ValueError _) =>
      Ok (ConfigurationRequired
            "Error: OpenAI API key not found. Please set OPENAI_API_KEY in your .env file.")
  | Raise e => Raise e
  end.

(** The [launch_config] dictionary of [main]. *)
Record LaunchConfig : Type := {
  server_name : string;
  server_port : Z;
  share : bool;
  debug : bool;
  show_error : bool;
  quiet : bool
}.

Section Launch.

(** Python's [int] on a string *)
Variable py_int : string -> Exc Z.
(** [interface.launch], called with the configuration as keyword
    arguments *)
Variable launch : GradioInterface -> LaunchConfig -> Exc unit.

(** [int(os.getenv('GRADIO_PORT', 7860))] and
    [os.getenv('DEBUG_MODE', 'False').lower() == 'true'] *)
Definition launch_config (env : PyDict.t string) : Exc LaunchConfig :=
  let* port :=
    match getenv env "GRADIO_PORT" with
    | Some text => py_int text
    | None => Ok 7860%Z
    end in
  Ok {| server_name := "0.0.0.0";
        server_port := port;
        share := false;
        debug :=
          string_eqb (lower (get_default (getenv env "DEBUG_MODE") "False"))
                     "true";
        show_error := true;
        quiet := false |}.

(** The interface and the configuration that [main] launches, or the
    exception that keeps it from launching. *)
Definition main_launch (env : PyDict.t string) (now : string)
  : Exc (GradioInterface * LaunchConfig) :=
  let* interface := create_gradio_interface env now in
  let* config := launch_config env in
  Ok (interface, config).

(** [main] of [app.py]: everything runs inside one [try]; the handler
    prints and returns. *)
Definition app_main (env : PyDict.t string) (now : string) : Exc unit :=
  try_except
    (let* started := main_launch env now in
     launch (fst started) (snd started))
    (fun e => Ok tt).

End Launch.

(** ** [run.py] *)

Module Run.

Inductive Interface : Type := Gradio | StreamlitUI | Cli.

(** The parsed command line of [main]. *)
Record Args : Type := {
  interface : Interface;
  port : option Z;
  share : bool;
  debug : bool;
  setup_only : bool
}.

(** What [main] started, with the arguments of the call. *)
Inductive Started : Type :=
| StartedGradio (port : option Z) (share debug : bool)
| StartedStreamlit (port : option Z)
| StartedCli.

(** [str(port)] on a port that is an [int] or [None] *)
Definition str_port (port : option Z) : string :=
  match port with
  | Some p => pretty p
  | None => "None"
  end.

(** [check_api_key]: the key is set and not empty. *)
Definition check_api_key (env : PyDict.t string) : bool :=
  match getenv env "OPENAI_API_KEY" with
  | Some (String _ _) => true
  | Some EmptyString | None => false
  end.

(** The environment after the assignments of [run_gradio_app]. *)
Definition gradio_environment (env : PyDict.t string) (port : option Z)
    (debug : bool) : PyDict.t string :=
  let env1 := PyDict.set "GRADIO_PORT" (str_port port) env in
  if debug then PyDict.set "DEBUG_MODE" "True" env1 else env1.

Section Main.

(** [setup_directories]: the [mkdir] calls may raise. *)
Variable setup_directories : Exc unit.
(** [check_requirements]: [True] when the five imports succeed. *)
Variable check_requirements : bool.
(** [main] of [app.py], called with the environment of the process. *)
Variable gradio_main : PyDict.t string -> Exc unit.
(** [subprocess.run] on the Streamlit command line. *)
Variable subprocess_run : list string -> Exc unit.
Variable sys_executable : string.
(** The body of the [try] of [run_cli_mode]. *)
Variable cli_session : Exc unit.

(** The parameter [share] is not used in the body. *)
Definition run_gradio_app (env : PyDict.t string) (port : option Z)
    (share debug : bool) : Exc unit :=
  try_except (gradio_main (gradio_environment env port debug))
             (fun e => Ok tt).

Definition run_streamlit_app (port : option Z) : Exc unit :=
  try_except
    (subprocess_run
       [ sys_executable; "-m"; "streamlit"; "run"; "streamlit_app.py";
         "--server.port"; str_port port; "--server.address"; "0.0.0.0" ])
    (fun e => Ok tt).

Definition run_cli_mode : Exc unit :=
  try_except cli_session (fun e => Ok tt).

(** The port that [main] determines; [None] only for the command-line
    mode without [--port]. *)
Definition chosen_port (args : Args) : option Z :=
  match port args with
  | None =>
      match interface args with
      | Gradio => Some 7860%Z
      | StreamlitUI => Some 8501%Z
      | Cli => None
      end
  | Some p => Some p
  end.

(** [main]: the exit code, and what was started. *)
Definition main (env : PyDict.t string) (args : Args)
  : Exc Z * option Started :=
  match setup_directories with
  | Raise e => (Raise e, None)
  | Ok _ =>
      if negb check_requirements then (Ok 1%Z, None)
      else if negb (check_api_key env) then (Ok 1%Z, None)
      else if setup_only args then (Ok 0%Z, None)
      else
        let p := chosen_port args in
        match interface args with
        | Gradio =>
            (try_except
               (let* _ := run_gradio_app env p (share args) (debug args) in
                Ok 0%Z)
               (fun e => Ok 1%Z),
             Some (StartedGradio p (share args) (debug args)))
        | StreamlitUI =>
            (try_except (let* _ := run_streamlit_app p in Ok 0%Z)
                        (fun e => Ok 1%Z),
             Some (StartedStreamlit p))
        | Cli =>
            (try_except (let* _ := run_cli_mode in Ok 0%Z)
                        (fun e => Ok 1%Z),
             Some StartedCli)
        end
  end.

End Main.

End Run.

(** ** [streamlit_app.py]: what the page shows after the loop *)

Module StreamlitView.
Import Streamlit.

(** The icon looked up for [flag.get('severity', 'low')], with the
    fallback of the lookup. *)
Definition severity_color (flag : RedFlag) : string :=
  let sev := get_default (severity flag) "low" in
  if string_eqb sev "critical" then "🔴"
  else if string_eqb sev "high" then "🟠"
  else if string_eqb sev "medium" then "🟡"
  else if string_eqb sev "low" then "🟢"
  else "⚪".

(** The four [st.write] calls for one flag. *)
Definition flag_lines (flag : RedFlag) : list string :=
  [ severity_color flag ++ " **"
      ++ get_default (description flag) "Unknown issue" ++ "**";
    "   📍 Location: " ++ get_default (location flag) "Unknown";
    "   💡 Suggestion: " ++ get_default (suggestion flag) "No suggestion";
    "" ].

(** One expander: its title, the five metrics, and what is written under
    them. *)
Record Detail : Type := {
  expander : string;
  metrics : list (string * string);
  written : list string
}.

(** [sum(len(report.get('red_flags', [])) for report in ...values())],
    shown in the sidebar when the session has documents. *)
Definition sidebar_total_issues (st : PageState) : option nat :=
  match documents st with
  | [] => None
  | _ :: _ =>
      Some (fold_left Nat.add
              (map (fun entry => length (red_flags entry))
                   (PyDict.values (compliance_reports st))) 0)
  end.

Section View.
Variable fmt2f : Q -> string.

Definition metrics_of (r : Row) : list (string * string) :=
  [ ("Document Type", doc_type r);
    ("Confidence", fmt2f (confidence r));
    ("Compliance Score", fmt2f (compliance_score r));
    ("Total Issues", pretty (issues_count r));
    ("Critical Issues", pretty (critical_issues r)) ].

(** The expander of a row with what is written under its metrics. *)
Definition shown_detail (r : Row) (written : list string) : Detail :=
  {| expander := "📄 " ++ filename r;
     metrics := metrics_of r;
     written := written |}.

(** The body of an expander once the red flags were looked up: the first
    five flags, or the message that there is none. *)
Definition written_for (flags : list RedFlag) : list string :=
  match flags with
  | [] => ["✅ No issues found in this document!"]
  | _ :: _ => "**Issues Found:**" :: flat_map flag_lines (firstn 5 flags)
  end.

(** [for i, result in enumerate(results)]: the expander of row [i] shows
    the metrics of the row, then looks the red flags up under the key
    [doc_{i+1}]. When the lookup raises, the expanders shown so far stay on
    the page and the loop is left. *)
Fixpoint show_details (i : nat) (rows : list Row)
    (reports : PyDict.t ReportEntry) : list Detail * Exc unit :=
  match rows with
  | [] => ([], Ok tt)
  | r :: rest =>
      match PyDict.item (doc_id_of (i + 1)) reports with
      | Raise e =>
          ([ {| expander := "📄 " ++ filename r; metrics := metrics_of r;
                written := [] |} ],
           Raise e)
      | Ok entry =>
          let next := show_details (S i) rest reports in
          ({| expander := "📄 " ++ filename r; metrics := metrics_of r;
              written := written_for (red_flags entry) |} :: fst next,
           snd next)
      end
  end.

(** The display after the loop ([if results:]), and the message of the
    outer handler when it raised. *)
Definition show_results (st : PageState) : list Detail * option string :=
  let shown := show_details 0 (results st) (compliance_reports st) in
  (fst shown,
   match snd shown with
   | Ok _ => None
   | Raise e => Some ("❌ Error processing documents: " ++ str_exc e)
   end).
End View.

End StreamlitView.

(** ** Notions used in the statements *)

Section AgentNotions.

Variable process_document :
  string ->
  Exc (Doc.DocumentMetadata * list Doc.DocumentSection * Doc.Analysis).
Variable fmt2f : Q -> string.
Variable basename : string -> string.
Variable py_sum : list Q -> Q.

(** The row that the loop appends for one file. *)
Definition row_of (path : string) : ResultRow :=
  match process_document path with
  | Ok (md, _, an) =>
      {| r_document := Doc.filename md;
         r_type := Doc.document_type md;
         r_confidence := Doc.confidence_score md;
         r_compliance_score :=
           get_default (Doc.overall_compliance_score an) 0%Q;
         r_issues_count := get_default (Doc.critical_issues_count an) 0;
         r_error := None |}
  | Raise e =>
      {| r_document := basename path;
         r_type := "Error";
         r_confidence := 0%Q;
         r_compliance_score := 0%Q;
         r_issues_count := 0;
         r_error := Some (str_exc e) |}
  end.

(** The files of a batch that the document processor accepts. *)
Definition accepted (path : string) : bool :=
  match process_document path with
  | Ok _ => true
  | Raise _ => false
  end.

(** What the loop stores for an accepted file. *)
Definition stored_of (path : string)
  : option (DocumentEntry * ComplianceEntry) :=
  match process_document path with
  | Ok (md, secs, an) =>
      Some ({| metadata := md; sections := secs; analysis := an;
               file_path := path |},
            {| compliance_score :=
                 get_default (Doc.overall_compliance_score an) 0%Q;
               issues_count :=
                 get_default (Doc.critical_issues_count an) 0 |})
  | Raise _ => None
  end.

(** The writes of a batch, in order, when [n] documents were accepted
    before: key, document entry, compliance entry. *)
Fixpoint writes_from (n : nat) (files : list string)
  : list (string * (DocumentEntry * ComplianceEntry)) :=
  match files with
  | [] => []
  | path :: rest =>
      match stored_of path with
      | Some w => (doc_id_of (n + 1), w) :: writes_from (n + 1) rest
      | None => writes_from n rest
      end
  end.

Definition apply_write (s : Session)
    (w : string * (DocumentEntry * ComplianceEntry)) : Session :=
  {| documents := PyDict.set (fst w) (fst (snd w)) (documents s);
     analysis_results := analysis_results s;
     compliance_reports :=
       PyDict.set (fst w) (snd (snd w)) (compliance_reports s);
     session_id := session_id s |}.

Definition write_score (w : string * (DocumentEntry * ComplianceEntry))
  : Q :=
  compliance_score (snd (snd w)).

Definition write_issues (w : string * (DocumentEntry * ComplianceEntry))
  : nat :=
  issues_count (snd (snd w)).

Definition document_pairs
    (ws : list (string * (DocumentEntry * ComplianceEntry)))
  : list (string * DocumentEntry) :=
  map (fun w => (fst w, fst (snd w))) ws.

Definition report_pairs
    (ws : list (string * (DocumentEntry * ComplianceEntry)))
  : list (string * ComplianceEntry) :=
  map (fun w => (fst w, snd (snd w))) ws.

(** Every stored document has its compliance report. *)
Definition consistent (s : Session) : Prop :=
  forall k, In k (PyDict.keys (documents s)) ->
            exists c, PyDict.get k (compliance_reports s) = Some c.

(** The agents that the program can hold: built by [__init__], then any
    number of calls of [process_uploaded_documents] (the other methods do
    not write to the agent). *)
Inductive reachable : ADGMCorporateAgent -> Prop :=
| reachable_init env_key now a :
    __init__ env_key now = Ok a -> reachable a
| reachable_process a files :
    reachable a ->
    reachable
      (snd (process_uploaded_documents process_document fmt2f basename
                                       py_sum a files)).

(** The document types named after [Missing:] in the recommendations
    generated for a session; none when the text has no such line. *)
Definition listed_missing (s : Session) : list string :=
  match recommendations_of py_sum s with
  | Ok (Some r) => rec_missing_docs r
  | Ok None | Raise _ => []
  end.

End AgentNotions.

(** The answer text shows the confidence figure [c]. *)
Definition reports_confidence (c : string) (out : string) : bool :=
  is_infix ("**Confidence:** " ++ c) out.

(** ** A concrete instance of the collaborators, for examples *)

Module Demo.

Definition meta (file type : string) : Doc.DocumentMetadata :=
  {| Doc.filename := file; Doc.document_type := type;
     Doc.confidence_score := 9 # 10; Doc.word_count := 120 |}.

Definition clause : Doc.DocumentSection :=
  {| Doc.title := "Jurisdiction"; Doc.compliance_status := "compliant";
     Doc.legal_importance := "critical" |}.

Definition process_document (path : string)
  : Exc (Doc.DocumentMetadata * list Doc.DocumentSection * Doc.Analysis) :=
  if string_eqb path "articles.docx" then
    Ok (meta path "Articles of Association", [clause],
        {| Doc.overall_compliance_score := Some 1%Q;
           Doc.critical_issues_count := Some 0 |})
  else if string_eqb path "articles2.docx" then
    Ok (meta path "Articles of Association", [clause],
        {| Doc.overall_compliance_score := Some 1%Q;
           Doc.critical_issues_count := Some 0 |})
  else if string_eqb path "board.docx" then
    Ok (meta path "Board Resolution", [],
        {| Doc.overall_compliance_score := Some 0%Q;
           Doc.critical_issues_count := Some 2 |})
  else Raise (RuntimeError "Package not found").

(** Two decimals, rounding half to even, as [:.2f] does on a value that is
    represented exactly. *)
Definition fmt2f (q : Q) : string :=
  let scaled := (q * 100)%Q in
  let low := Qfloor scaled in
  let rest := (scaled - inject_Z low)%Q in
  let n :=
    match (rest ?= 1 # 2)%Q with
    | Lt => low
    | Gt => (low + 1)%Z
    | Eq => if Z.even low then low else (low + 1)%Z
    end in
  let cents := Z.abs n in
  (if (n <? 0)%Z then "-" else "") ++
  pretty (cents / 100)%Z ++ "." ++
  pretty ((cents mod 100) / 10)%Z ++ pretty (cents mod 10)%Z.

Definition basename (path : string) : string := path.

(** The built-in [sum] of an interpreter that adds from the left. The
    scores of the demo are 0 and 1, whose sums are exact in floating point,
    so a compensated summation returns the same numbers. *)
Definition py_sum (xs : list Q) : Q := fold_left Qplus xs 0%Q.

Definition retrieve_nothing (question : string) (k : nat)
  : Exc (list RAG.Source) := Ok [].

Definition generate_response (question : string) (ctx : list RAG.Source)
  : Exc RAG.RAGResponse :=
  Ok {| RAG.answer := "See the Companies Regulations.";
        RAG.confidence_score := 8 # 10;
        RAG.adgm_references := ["ADGM Companies Regulations 2020"];
        RAG.related_topics := [];
        RAG.sources := ctx |}.

Definition fresh_session : Session :=
  {| documents := PyDict.empty; analysis_results := PyDict.empty;
     compliance_reports := PyDict.empty;
     session_id := _generate_session_id "20250811_101500" |}.

Definition agent : ADGMCorporateAgent :=
  {| openai_api_key := "sk-demo"; current_session := fresh_session;
     analytics_engine := None; export_manager := None |}.

Definition process (a : ADGMCorporateAgent) (files : list string)
  : Exc (string * string * string) * ADGMCorporateAgent :=
  process_uploaded_documents process_document fmt2f basename py_sum a
                             (Some files).

(** A compliance checker that has no rules for board resolutions and
    raises on them, and a detector that finds nothing. *)
Definition check_compliance (md : Doc.DocumentMetadata)
    (secs : list Doc.DocumentSection) (an : Doc.Analysis)
  : Exc Streamlit.ComplianceReport :=
  if string_eqb (Doc.document_type md) "Board Resolution"
  then Raise (KeyError "Board Resolution")
  else Ok {| Streamlit.overall_score := Doc.overall_compliance_score an |}.

Definition detect_red_flags (md : Doc.DocumentMetadata)
    (secs : list Doc.DocumentSection) (an : Doc.Analysis)
  : Exc (list Streamlit.RedFlag) := Ok [].

Definition upload (file : string) : Streamlit.Upload :=
  {| Streamlit.name := file; Streamlit.temp_file := file |}.

Definition fresh_page : Streamlit.PageState :=
  {| Streamlit.documents := PyDict.empty;
     Streamlit.compliance_reports := PyDict.empty;
     Streamlit.results := [];
     Streamlit.errors := [] |}.

(** A catalog with two rules for articles of association, and a board
    resolution to score against it. *)
Definition catalog : list Engine.Rule :=
  [ {| Engine.rule_id := "AOA-JURISDICTION";
       Engine.rule_document_types := ["Articles of Association"];
       Engine.rule_pattern := "ADGM Courts";
       Engine.rule_severity := Engine.Critical;
       Engine.rule_remediation := "Name the ADGM Courts." |};
    {| Engine.rule_id := "AOA-REGISTERED-OFFICE";
       Engine.rule_document_types :=
         ["Articles of Association"; "Memorandum of Association"];
       Engine.rule_pattern := "registered office";
       Engine.rule_severity := Engine.High;
       Engine.rule_remediation := "State the registered office." |} ].

Definition resolution_sections : list Engine.ClassifiedSection :=
  [ {| Engine.sec_title := "Resolution";
       Engine.sec_text := "It is resolved that the director be appointed.";
       Engine.sec_position := 0;
       Engine.sec_importance := Engine.StandardTier;
       Engine.sec_label := "General" |} ].

(** Pattern tables for the red-flag detector, and the sections of a set of
    articles that names two foreign court systems. *)
Definition foreign_courts : list string :=
  ["Dubai Courts"; "DIFC Courts"; "federal courts"].
Definition regulator_courts : string := "ADGM Courts".
Definition hedging_phrases : list string :=
  ["may"; "at its discretion"; "if applicable"].
Definition required_sections (document_type : string) : list string :=
  if string_eqb document_type "Articles of Association"
  then ["Share Capital"; "Registered Office"]
  else [].
Definition ubo_document_types : list string := ["UBO Declaration Form"].
Definition owner_entry_label : string := "Beneficial Owner".
Definition signature_markers : list string :=
  ["signed by"; "signature"; "witness"].

Definition section_at (position : nat) (label text : string)
    (importance : Engine.Importance) : Engine.ClassifiedSection :=
  {| Engine.sec_title := label; Engine.sec_text := text;
     Engine.sec_position := position; Engine.sec_importance := importance;
     Engine.sec_label := label |}.

Definition articles_sections : list Engine.ClassifiedSection :=
  [ section_at 0 "Objects"
      "The company may at its discretion carry on any business."
      Engine.CriticalTier;
    section_at 1 "Governing Law"
      "The DIFC Courts shall have exclusive jurisdiction."
      Engine.CriticalTier;
    section_at 2 "Registered Office"
      "The Registered Office of the company is in Abu Dhabi; the registered office may be moved."
      Engine.ImportantTier;
    section_at 3 "Disputes"
      "Disputes are subject to the Dubai Courts."
      Engine.StandardTier ].

Definition detect : string -> list Engine.ClassifiedSection ->
                    list RedFlags.RedFlag :=
  RedFlags.detect foreign_courts regulator_courts hedging_phrases
                  required_sections ubo_document_types owner_entry_label
                  signature_markers.

Definition process_page (files : list string) : Streamlit.PageState :=
  Streamlit.process_documents process_document check_compliance
    detect_red_flags (map upload files) fresh_page.

End Demo.

(** ** Notions for the Streamlit page *)

Section PageNotions.

Variable process_document :
  string ->
  Exc (Doc.DocumentMetadata * list Doc.DocumentSection * Doc.Analysis).
Variable check_compliance :
  Doc.DocumentMetadata -> list Doc.DocumentSection -> Doc.Analysis ->
  Exc Streamlit.ComplianceReport.
Variable detect_red_flags :
  Doc.DocumentMetadata -> list Doc.DocumentSection -> Doc.Analysis ->
  Exc (list Streamlit.RedFlag).

(** The report entry that the page loop stores for an upload whose three
    calls return. *)
Definition report_of (f : Streamlit.Upload) : option Streamlit.ReportEntry :=
  match process_document (Streamlit.temp_file f) with
  | Raise _ => None
  | Ok (md, secs, an) =>
      match check_compliance md secs an, detect_red_flags md secs an with
      | Ok report, Ok flags =>
          Some {| Streamlit.compliance_report := report;
                  Streamlit.red_flags := flags |}
      | _, _ => None
      end
  end.

End PageNotions.

(** A page of the demo: the compliance check raises on the board
    resolution, the articles go through. *)
Definition demo_show (files : list string)
  : list StreamlitView.Detail * option string :=
  StreamlitView.show_results Demo.fmt2f (Demo.process_page files).

(** * Properties *)

(** ** The embedding on concrete inputs *)

Example join_names : join ", " ["a"; "b"; "c"] = "a, b, c".
Proof. reflexivity. Qed.

Example doc_id_of_twelve : doc_id_of 12 = "doc_12".
Proof. reflexivity. Qed.

Example title_severity : title "critical" = "Critical".
Proof. reflexivity. Qed.

Example blank_question : is_blank ("  " ++ nl) = true.
Proof. reflexivity. Qed.

(** The white space outside ASCII, as [str.strip()] knows it: U+0085,
    U+00A0, U+1680, U+2000 to U+200A, U+2028, U+2029, U+202F, U+205F and
    U+3000 are removed; U+0084, U+200B (zero width space) and U+2060 are
    not. *)
Example unicode_white_space :
  forallb is_blank
    (map utf8
       [ [194; 133]; [194; 160]; [225; 154; 128];
         [226; 128; 128]; [226; 128; 129]; [226; 128; 130];
         [226; 128; 131]; [226; 128; 132]; [226; 128; 133];
         [226; 128; 134]; [226; 128; 135]; [226; 128; 136];
         [226; 128; 137]; [226; 128; 138]; [226; 128; 168];
         [226; 128; 169]; [226; 128; 175]; [226; 129; 159];
         [227; 128; 128] ]) = true /\
  is_blank (" " ++ utf8 [194; 160] ++ nl ++ utf8 [227; 128; 128]) = true /\
  existsb is_blank
    (map utf8 [ [194; 132]; [226; 128; 139]; [226; 129; 160]; [194];
                [226; 128]; [195; 160]; [32; 194; 160; 97] ]) = false.
Proof. repeat split; reflexivity. Qed.

Example fmt2f_values :
  (Demo.fmt2f (2 # 3), Demo.fmt2f (1 # 8), Demo.fmt2f 1) = ("0.67", "0.12", "1.00").
Proof. reflexivity. Qed.

Example str_attribute_error :
  str_exc (AttributeError "ADGMCorporateAgent" "export_manager")
  = "'ADGMCorporateAgent' object has no attribute 'export_manager'".
Proof. reflexivity. Qed.

(** A batch of a board resolution and a file that cannot be opened, on a
    new session: the three texts that the method returns. *)
Example demo_batch :
  fst (Demo.process Demo.agent ["board.docx"; "corrupt.docx"])
  = Ok ("
## Document Processing Summary

**Documents Processed:** 1
**Average Compliance Score:** 0.00/1.0
**Total Issues Found:** 2
**Session ID:** session_20250811_101500

### Document Details:

- **board.docx**
  - Type: Board Resolution (Confidence: 0.90)
  - Compliance Score: 0.00
  - Issues: 2

- **corrupt.docx** - ERROR: Package not found
",
        "## Detailed Document Analysis

### board.docx

**Document Type:** Board Resolution
**Word Count:** 120
**Sections:** 0
**Compliance Score:** 0.00

**Issues Found:** 2

---

",
        "## Recommendations

### Priority Actions

1. **Address 2 Issues Found**
   - Review all flagged sections for compliance

2. **Improve Overall Compliance**
   - Current average compliance score is below recommended threshold
   - Focus on jurisdiction clauses and required sections

3. **Complete Required Documents**
   - Missing: Articles of Association, Memorandum of Association, UBO Declaration Form

### General Recommendations

- Ensure all jurisdiction clauses specify ADGM Courts
- Verify all documents are signed and dated
- Review beneficial ownership declarations for completeness
- Confirm registered office address is within ADGM
").
Proof. vm_compute. reflexivity. Qed.

Example demo_answer :
  ask_adgm_question
    (fun _ _ =>
       Ok [ {| RAG.source := "companies_regulations.pdf";
               RAG.relevance_score := 87 # 100 |} ])
    Demo.generate_response Demo.fmt2f "What is a UBO?"
  = Ok "
## What is a UBO?

**Answer:** See the Companies Regulations.

**Confidence:** 0.80

**ADGM References:**
- ADGM Companies Regulations 2020

**Related Topics:**
- None identified

**Sources Used:**
- companies_regulations.pdf (Relevance: 0.87)
".
Proof. vm_compute. reflexivity. Qed.

(** The articles of the demo against the demo catalog: the pattern of the
    registered-office rule occurs twice and satisfies the rule once, the
    jurisdiction rule is violated and Critical. *)
Example demo_score :
  let report :=
    Engine.score Demo.catalog "Articles of Association"
                 Demo.articles_sections in
  Engine.overall_score report = (1 # 2)%Q /\
  Engine.violated_rules report = ["AOA-JURISDICTION"] /\
  Engine.critical_issues_count report = 1.
Proof. repeat split; reflexivity. Qed.

(** The flags of the same articles: the two Critical jurisdiction flags in
    the order of their sections, then the two High document-level flags,
    then the Medium flag of the first section. *)
Example demo_detect :
  map (fun f => (RedFlags.flag_severity f, RedFlags.flag_category f,
                 RedFlags.flag_location f))
      (Demo.detect "Articles of Association" Demo.articles_sections)
  = [ (Engine.Critical, RedFlags.JurisdictionMismatch, RedFlags.AtSection 1);
      (Engine.Critical, RedFlags.JurisdictionMismatch, RedFlags.AtSection 3);
      (Engine.High, RedFlags.MissingRequiredSection, RedFlags.DocumentLevel);
      (Engine.High, RedFlags.MissingSignature, RedFlags.DocumentLevel);
      (Engine.Medium, RedFlags.AmbiguousLanguage, RedFlags.AtSection 0) ].
Proof. reflexivity. Qed.

(** ** Booleans *)

(** Turns the boolean tests on numbers, in the goal and the hypotheses,
    into the propositions that [lia] knows. *)
Ltac bool_to_arith :=
  rewrite ?orb_true_iff, ?orb_false_iff, ?andb_true_iff, ?andb_false_iff,
    ?Nat.ltb_lt, ?Nat.ltb_ge, ?Nat.eqb_eq, ?Nat.eqb_neq,
    ?Nat.leb_le, ?Nat.leb_gt in *.

(** ** Strings *)

Lemma is_prefix_app (p t : string) : is_prefix p (p ++ t) = true.
Proof.
  induction p as [|c p IH]; simpl; [reflexivity|].
  destruct (ascii_dec c c); [exact IH | congruence].
Qed.

Lemma is_prefix_refl (p : string) : is_prefix p p = true.
Proof.
  induction p as [|c p IH]; simpl; [reflexivity|].
  destruct (ascii_dec c c); [exact IH | congruence].
Qed.

Lemma is_prefix_app_l (p s t : string) :
  is_prefix p s = true -> is_prefix p (s ++ t) = true.
Proof.
  revert s; induction p as [|c p IH]; intros s H; [reflexivity|].
  destruct s as [|b s]; simpl in *; [discriminate|].
  destruct (ascii_dec c b); [auto | discriminate].
Qed.

Lemma is_infix_of_prefix (p s : string) :
  is_prefix p s = true -> is_infix p s = true.
Proof. intros H. destruct s; simpl; rewrite H; reflexivity. Qed.

Lemma is_infix_app_r (t p s : string) :
  is_infix p s = true -> is_infix p (t ++ s) = true.
Proof.
  intros H. induction t as [|c t IH]; simpl; [exact H|].
  rewrite IH. apply orb_true_r.
Qed.

Lemma is_infix_app_l (p s t : string) :
  is_infix p s = true -> is_infix p (s ++ t) = true.
Proof.
  induction s as [|c s IH]; simpl; intros H.
  - rewrite orb_false_r in H. destruct p; [|discriminate].
    destruct t; reflexivity.
  - apply orb_true_iff in H. destruct H as [H|H].
    + change (String c (s ++ t)) with (String c s ++ t).
      rewrite (is_prefix_app_l _ _ _ H). reflexivity.
    + rewrite (IH H). apply orb_true_r.
Qed.

Lemma is_infix_middle (a p b : string) : is_infix p (a ++ p ++ b) = true.
Proof.
  apply is_infix_app_r, is_infix_of_prefix, is_prefix_app.
Qed.

Lemma append_cons (x : ascii) (a b : string) :
  String x a ++ b = String x (a ++ b).
Proof. reflexivity. Qed.

Lemma append_nil_r (a : string) : a ++ "" = a.
Proof.
  induction a as [|x a IH]; [reflexivity|].
  rewrite append_cons, IH. reflexivity.
Qed.

Lemma append_assoc (a b c : string) : (a ++ b) ++ c = a ++ (b ++ c).
Proof.
  induction a as [|x a IH]; [reflexivity|].
  rewrite !append_cons, IH. reflexivity.
Qed.

Lemma fold_append {A} (f : A -> string) (l : list A) : forall start,
  fold_left (fun acc x => acc ++ f x) l start
  = start ++ fold_right (fun x acc => f x ++ acc) "" l.
Proof.
  induction l as [|x l IH]; intros start; simpl.
  - symmetry. apply append_nil_r.
  - rewrite IH. apply append_assoc.
Qed.

Lemma fold_right_append_app {A} (f : A -> string) (l1 l2 : list A) :
  fold_right (fun x acc => f x ++ acc) "" (l1 ++ l2)
  = fold_right (fun x acc => f x ++ acc) "" l1
    ++ fold_right (fun x acc => f x ++ acc) "" l2.
Proof.
  induction l1 as [|x l1 IH]; simpl; [reflexivity|].
  rewrite IH. symmetry. apply append_assoc.
Qed.

Lemma string_eqb_eq (a b : string) : string_eqb a b = true <-> a = b.
Proof. unfold string_eqb. apply bool_decide_eq_true. Qed.

Lemma string_eqb_refl (a : string) : string_eqb a a = true.
Proof. apply string_eqb_eq. reflexivity. Qed.

Lemma string_eqb_neq (a b : string) : a <> b -> string_eqb a b = false.
Proof. intros H. unfold string_eqb. apply bool_decide_eq_false. exact H. Qed.

Lemma str_in_In (x : string) (xs : list string) :
  str_in x xs = true <-> In x xs.
Proof.
  unfold str_in. rewrite existsb_exists. split.
  - intros [y [Hy Heq]]. apply string_eqb_eq in Heq. subst. exact Hy.
  - intros H. exists x. split; [exact H | apply string_eqb_refl].
Qed.

Lemma doc_id_of_inj (n m : nat) : doc_id_of n = doc_id_of m -> n = m.
Proof.
  unfold doc_id_of. intros H.
  apply (inj (String.app "doc_")) in H.
  apply (inj pretty) in H. exact H.
Qed.

(** ** Dictionaries *)

Module PyDictFacts.
Import PyDict.

Section Facts.
Context {V : Type}.
Implicit Types (d : t V) (k : string) (v : V).

Lemma get_set_eq k v d : get k (set k v d) = Some v.
Proof.
  induction d as [|[k' v'] d IH]; simpl.
  - rewrite string_eqb_refl. reflexivity.
  - destruct (string_eqb k k') eqn:E; simpl; rewrite E; auto.
Qed.

Lemma get_set_ne k k' v d : k <> k' -> get k' (set k v d) = get k' d.
Proof.
  intros Hne. induction d as [|[k0 v0] d IH]; simpl.
  - rewrite string_eqb_neq; auto.
  - destruct (string_eqb k k0) eqn:E; simpl.
    + apply string_eqb_eq in E. subst k0.
      rewrite string_eqb_neq; auto.
    + rewrite IH. reflexivity.
Qed.

Lemma set_same k v d : get k d = Some v -> set k v d = d.
Proof.
  induction d as [|[k' v'] d IH]; simpl; [discriminate|].
  destruct (string_eqb k k') eqn:E.
  - intros [= ->]. reflexivity.
  - intros H. rewrite (IH H). reflexivity.
Qed.

Lemma get_None_keys k d : get k d = None <-> ~ In k (keys d).
Proof.
  induction d as [|[k' v'] d IH]; simpl.
  - split; [intros _ [] | reflexivity].
  - destruct (string_eqb k k') eqn:E.
    + apply string_eqb_eq in E. subst. split; [discriminate | tauto].
    + rewrite IH. split.
      * intros H [Heq|Hin]; [|tauto].
        subst. rewrite string_eqb_refl in E. discriminate.
      * tauto.
Qed.

Lemma get_Some_keys k d : (exists v, get k d = Some v) <-> In k (keys d).
Proof.
  destruct (get k d) eqn:E.
  - split; [intros _ | eauto].
    destruct (in_dec string_dec k (keys d)) as [H|H]; [exact H|].
    apply get_None_keys in H. congruence.
  - split; [intros [v Hv]; discriminate|].
    intros H. apply get_None_keys in E. contradiction.
Qed.

(** A new key goes to the end. *)
Lemma set_fresh k v d : ~ In k (keys d) -> set k v d = (d ++ [(k, v)])%list.
Proof.
  induction d as [|[k' v'] d IH]; simpl; intros H; [reflexivity|].
  rewrite string_eqb_neq by (intro; subst; tauto).
  rewrite IH by tauto. reflexivity.
Qed.

Lemma keys_set k v d :
  keys (set k v d)
  = if str_in k (keys d) then keys d else (keys d ++ [k])%list.
Proof.
  induction d as [|[k' v'] d IH]; simpl; [reflexivity|].
  unfold str_in in *. simpl.
  destruct (string_eqb k k') eqn:E; simpl; [reflexivity|].
  unfold keys in *. rewrite IH.
  destruct (existsb (string_eqb k) (map fst d)); reflexivity.
Qed.

Lemma in_keys_set k k' v d :
  In k' (keys (set k v d)) <-> k' = k \/ In k' (keys d).
Proof.
  rewrite keys_set. destruct (str_in k (keys d)) eqn:E.
  - apply str_in_In in E. split; [tauto|].
    intros [->|H]; assumption.
  - rewrite in_app_iff. simpl. split; intros H; intuition.
Qed.

Lemma is_empty_set k v d : is_empty (set k v d) = false.
Proof.
  destruct d as [|[k' v'] d]; simpl; [reflexivity|].
  destruct (string_eqb k k'); reflexivity.
Qed.

Lemma is_empty_nil d : is_empty d = true <-> d = [].
Proof. destruct d; simpl; split; congruence. Qed.

Lemma get_update_notin k (l : list (string * V)) : forall d,
  ~ In k (map fst l) -> get k (update l d) = get k d.
Proof.
  induction l as [|[k0 v0] l IH]; intros d H; simpl in *; [reflexivity|].
  unfold update in *. simpl. rewrite IH by tauto.
  apply get_set_ne. intros ->. tauto.
Qed.

Lemma get_update_in k v (l : list (string * V)) : forall d,
  List.NoDup (map fst l) -> In (k, v) l -> get k (update l d) = Some v.
Proof.
  induction l as [|[k0 v0] l IH]; intros d Hnd Hin; simpl in *; [tauto|].
  inversion Hnd as [|? ? Hnotin Hnd']; subst.
  unfold update in *. simpl. destruct Hin as [[= -> ->]|Hin].
  - change (get k (update l (set k v d)) = Some v).
    rewrite get_update_notin by exact Hnotin. apply get_set_eq.
  - apply IH; assumption.
Qed.

Lemma update_same (l : list (string * V)) : forall d,
  (forall k v, In (k, v) l -> get k d = Some v) -> update l d = d.
Proof.
  induction l as [|[k0 v0] l IH]; intros d H; [reflexivity|].
  unfold update in *. simpl.
  rewrite (set_same k0 v0 d) by (apply H; left; reflexivity).
  apply IH. intros k v Hin. apply H. right. exact Hin.
Qed.

(** Assigning the same pairs a second time changes nothing. *)
Lemma update_idempotent (l : list (string * V)) d :
  List.NoDup (map fst l) -> update l (update l d) = update l d.
Proof.
  intros Hnd. apply update_same. intros k v Hin.
  apply get_update_in; assumption.
Qed.

Lemma in_keys_update k (l : list (string * V)) : forall d,
  In k (keys (update l d)) <-> In k (keys d) \/ In k (map fst l).
Proof.
  induction l as [|[k0 v0] l IH]; intros d; simpl; [tauto|].
  unfold update in *. simpl. rewrite IH, in_keys_set. simpl.
  split; intros H; intuition.
Qed.

(** On an empty dictionary the pairs are stored as they come. *)
Lemma update_fresh (l : list (string * V)) : forall d,
  List.NoDup (map fst l) ->
  (forall k, In k (map fst l) -> ~ In k (keys d)) ->
  update l d = (d ++ l)%list.
Proof.
  induction l as [|[k0 v0] l IH]; intros d Hnd Hfresh; simpl in *.
  - rewrite app_nil_r. reflexivity.
  - inversion Hnd as [|? ? Hnotin Hnd']; subst.
    unfold update in *. simpl.
    rewrite set_fresh by (apply Hfresh; left; reflexivity).
    rewrite IH; [rewrite <- app_assoc; reflexivity | exact Hnd' |].
    intros k Hk. unfold keys. rewrite map_app, in_app_iff. simpl.
    intros [H|[H|[]]].
    + apply (Hfresh k); [right; exact Hk | exact H].
    + subst. contradiction.
Qed.

Lemma update_empty (l : list (string * V)) :
  List.NoDup (map fst l) -> update l empty = l.
Proof.
  intros Hnd. rewrite update_fresh; [reflexivity | exact Hnd |].
  intros k _ [].
Qed.
End Facts.
End PyDictFacts.

(** ** The loop of [process_uploaded_documents] *)

Section LoopFacts.

Variable process_document :
  string ->
  Exc (Doc.DocumentMetadata * list Doc.DocumentSection * Doc.Analysis).
Variable basename : string -> string.
Variable py_sum : list Q -> Q.

Local Abbreviation step := (process_file process_document basename).
Local Abbreviation row := (row_of process_document basename).
Local Abbreviation stored := (stored_of process_document).
Local Abbreviation writes := (writes_from process_document).

Lemma step_accepted st path md secs an :
  process_document path = Ok (md, secs, an) ->
  exists w,
    stored path = Some w /\
    step st path
    = {| results := (results st ++ [row path])%list;
         total_issues := total_issues st + issues_count (snd w);
         total_compliance_score :=
           (total_compliance_score st + compliance_score (snd w))%Q;
         processed_docs := processed_docs st + 1;
         loop_session :=
           apply_write (loop_session st)
                       (doc_id_of (processed_docs st + 1), w) |}.
Proof.
  intros H. unfold stored_of, process_file, row_of. rewrite H.
  eexists. split; [reflexivity|]. reflexivity.
Qed.

Lemma step_rejected st path e :
  process_document path = Raise e ->
  stored path = None /\
  step st path
  = {| results := (results st ++ [row path])%list;
       total_issues := total_issues st;
       total_compliance_score := total_compliance_score st;
       processed_docs := processed_docs st;
       loop_session := loop_session st |}.
Proof.
  intros H. unfold stored_of, process_file, row_of. rewrite H. split; reflexivity.
Qed.

(** The loop in closed form: one row per file, and the writes of the
    accepted files, numbered in the order they were accepted. *)
Lemma fold_process_file files : forall st,
  let st' := fold_left step files st in
  let ws := writes (processed_docs st) files in
  results st' = (results st ++ map row files)%list /\
  processed_docs st' = processed_docs st + length ws /\
  loop_session st' = fold_left apply_write ws (loop_session st) /\
  total_compliance_score st'
  = fold_left Qplus (map write_score ws) (total_compliance_score st) /\
  total_issues st'
  = fold_left Nat.add (map write_issues ws) (total_issues st).
Proof.
  induction files as [|path files IH]; intros st; simpl.
  - rewrite app_nil_r, Nat.add_0_r. repeat split; reflexivity.
  - destruct (process_document path) as [[[md secs] an]|e] eqn:E.
    + destruct (step_accepted st path md secs an E) as [w [Hw Hst]].
      rewrite Hw, Hst. specialize (IH
        {| results := (results st ++ [row path])%list;
           total_issues := total_issues st + issues_count (snd w);
           total_compliance_score :=
             (total_compliance_score st + compliance_score (snd w))%Q;
           processed_docs := processed_docs st + 1;
           loop_session :=
             apply_write (loop_session st)
                         (doc_id_of (processed_docs st + 1), w) |}).
      simpl in IH. destruct IH as (H1 & H2 & H3 & H4 & H5).
      rewrite H1, H2, H3, H4, H5. simpl.
      rewrite <- app_assoc. simpl. repeat split; try reflexivity. lia.
    + destruct (step_rejected st path e E) as [Hw Hst].
      rewrite Hw, Hst. specialize (IH
        {| results := (results st ++ [row path])%list;
           total_issues := total_issues st;
           total_compliance_score := total_compliance_score st;
           processed_docs := processed_docs st;
           loop_session := loop_session st |}).
      simpl in IH. destruct IH as (H1 & H2 & H3 & H4 & H5).
      rewrite H1, H2, H3, H4, H5. rewrite <- app_assoc.
      repeat split; reflexivity.
Qed.

Lemma keys_writes_from files : forall n,
  map fst (writes n files)
  = map doc_id_of (seq (n + 1) (length (writes n files))).
Proof.
  induction files as [|path files IH]; intros n; simpl; [reflexivity|].
  destruct (stored path); simpl; [|apply IH].
  rewrite IH. replace (n + 1 + 1) with (S (n + 1)) by lia. reflexivity.
Qed.

Lemma NoDup_keys_writes_from n files :
  List.NoDup (map fst (writes n files)).
Proof.
  rewrite keys_writes_from.
  apply Finite.Injective_map_NoDup; [|apply seq_NoDup].
  intros a b. apply doc_id_of_inj.
Qed.

(** A rejected file leaves no trace in the writes. *)
Lemma writes_from_accepted files : forall n,
  writes n (List.filter (accepted process_document) files)
  = writes n files.
Proof.
  induction files as [|path files IH]; intros n; simpl; [reflexivity|].
  unfold accepted at 1, stored_of.
  destruct (process_document path) as [[[md secs] an]|e] eqn:E; simpl.
  - unfold stored_of. rewrite E, IH. reflexivity.
  - apply IH.
Qed.

Lemma writes_from_app files1 files2 : forall n,
  writes n (files1 ++ files2)
  = (writes n files1 ++
     writes (n + length (writes n files1)) files2)%list.
Proof.
  induction files1 as [|path files IH]; intros n; simpl.
  - rewrite Nat.add_0_r. reflexivity.
  - destruct (stored path); simpl.
    + rewrite IH. do 3 f_equal. lia.
    + apply IH.
Qed.

End LoopFacts.

(** ** Sessions *)

Section SessionFacts.

Variable py_sum : list Q -> Q.

Implicit Types (s : Session)
  (ws : list (string * (DocumentEntry * ComplianceEntry))).

Lemma keys_document_pairs ws : map fst (document_pairs ws) = map fst ws.
Proof. unfold document_pairs. rewrite map_map. reflexivity. Qed.

Lemma keys_report_pairs ws : map fst (report_pairs ws) = map fst ws.
Proof. unfold report_pairs. rewrite map_map. reflexivity. Qed.

Lemma fold_apply_write ws : forall s,
  fold_left apply_write ws s
  = {| documents := PyDict.update (document_pairs ws) (documents s);
       analysis_results := analysis_results s;
       compliance_reports :=
         PyDict.update (report_pairs ws) (compliance_reports s);
       session_id := session_id s |}.
Proof.
  induction ws as [|w ws IH]; intros s; simpl.
  - destruct s; reflexivity.
  - rewrite IH. reflexivity.
Qed.

(** Writing the same batch again leaves the session as it is. *)
Lemma apply_writes_idempotent ws s :
  List.NoDup (map fst ws) ->
  fold_left apply_write ws (fold_left apply_write ws s)
  = fold_left apply_write ws s.
Proof.
  intros Hnd. rewrite !fold_apply_write. simpl.
  rewrite !PyDictFacts.update_idempotent; [reflexivity | |].
  - rewrite keys_report_pairs. exact Hnd.
  - rewrite keys_document_pairs. exact Hnd.
Qed.

Lemma consistent_apply_writes ws s :
  consistent s -> consistent (fold_left apply_write ws s).
Proof.
  intros Hs k. rewrite fold_apply_write. simpl. intros Hk.
  apply PyDictFacts.get_Some_keys.
  apply PyDictFacts.in_keys_update.
  apply PyDictFacts.in_keys_update in Hk.
  rewrite keys_report_pairs. rewrite keys_document_pairs in Hk.
  destruct Hk as [Hk|Hk]; [left | right; exact Hk].
  apply PyDictFacts.get_Some_keys. apply Hs. exact Hk.
Qed.

Lemma consistent_empty s : documents s = [] -> consistent s.
Proof. intros H k. rewrite H. intros []. Qed.

(** The two loops over [documents.items()] do not raise on a consistent
    session. *)
Lemma fold_exc_items_ok {A} (reports : PyDict.t ComplianceEntry)
    (g : A -> DocumentEntry -> ComplianceEntry -> A)
    (l : list (string * DocumentEntry)) : forall acc,
  (forall k, In k (map fst l) -> exists c, PyDict.get k reports = Some c) ->
  exists acc',
    fold_exc
      (fun acc (it : string * DocumentEntry) =>
         let* c := PyDict.item (fst it) reports in
         Ok (g acc (snd it) c)) l acc
    = Ok acc'.
Proof.
  induction l as [|[k d] l IH]; intros acc H; simpl.
  - eauto.
  - destruct (H k) as [c Hc]; [left; reflexivity|].
    unfold PyDict.item at 1. simpl. rewrite Hc. simpl.
    apply IH. intros k' Hk'. apply H. right. exact Hk'.
Qed.

Lemma collect_compliance_ok s :
  consistent s -> exists acc, collect_compliance s = Ok acc.
Proof.
  intros Hs. unfold collect_compliance.
  apply (fold_exc_items_ok (compliance_reports s)
           (fun acc _ c =>
              ((fst acc ++ [compliance_score c])%list,
               snd acc + issues_count c))).
  exact Hs.
Qed.

Lemma detailed_analysis_ok fmt2f s :
  consistent s -> exists text, _generate_detailed_analysis fmt2f s = Ok text.
Proof.
  intros Hs. unfold _generate_detailed_analysis.
  destruct (PyDict.is_empty (documents s)); [eauto|].
  apply (fold_exc_items_ok (compliance_reports s)
           (fun acc d c => acc ++ detailed_entry fmt2f d c)).
  exact Hs.
Qed.

Lemma recommendations_ok s :
  consistent s -> PyDict.is_empty (documents s) = false ->
  exists acc,
    collect_compliance s = Ok acc /\
    recommendations_of py_sum s
    = Ok (Some {| rec_total_issues := snd acc;
                  rec_avg_compliance := mean py_sum (fst acc);
                  rec_missing_docs := missing_docs s |}).
Proof.
  intros Hs Hne. destruct (collect_compliance_ok s Hs) as [acc Hacc].
  exists acc. split; [exact Hacc|].
  unfold recommendations_of. rewrite Hne, Hacc. reflexivity.
Qed.

(** When every stored document finds the report written with it, the
    collecting loop gathers the scores in the order of the writes. *)
Lemma collect_over_writes (reports : PyDict.t ComplianceEntry) ws :
  forall acc,
  (forall w, In w ws -> PyDict.get (fst w) reports = Some (snd (snd w))) ->
  fold_exc
    (fun (acc : list Q * nat) (it : string * DocumentEntry) =>
       let* c := PyDict.item (fst it) reports in
       Ok ((fst acc ++ [compliance_score c])%list,
           snd acc + issues_count c))
    (document_pairs ws) acc
  = Ok ((fst acc ++ map write_score ws)%list,
        fold_left Nat.add (map write_issues ws) (snd acc)).
Proof.
  induction ws as [|w ws IH]; intros acc H; simpl.
  - rewrite app_nil_r. destruct acc; reflexivity.
  - unfold PyDict.item at 1. simpl.
    rewrite (H w) by (left; reflexivity). simpl.
    rewrite IH by (intros w' Hw'; apply H; right; exact Hw').
    simpl. rewrite <- app_assoc. reflexivity.
Qed.

End SessionFacts.

(** ** The agent *)

Section AgentFacts.

Variable process_document :
  string ->
  Exc (Doc.DocumentMetadata * list Doc.DocumentSection * Doc.Analysis).
Variable fmt2f : Q -> string.
Variable basename : string -> string.
Variable py_sum : list Q -> Q.

Local Abbreviation process :=
  (process_uploaded_documents process_document fmt2f basename py_sum).
Local Abbreviation loop := (process_loop process_document basename).
Local Abbreviation row := (row_of process_document basename).
Local Abbreviation writes := (writes_from process_document).
Local Abbreviation reach := (reachable process_document fmt2f basename py_sum).

Lemma loop_closed_form files s :
  let st := loop files s in
  results st = map row files /\
  processed_docs st = length (writes 0 files) /\
  loop_session st = fold_left apply_write (writes 0 files) s /\
  total_compliance_score st
  = running_total (map write_score (writes 0 files)) /\
  total_issues st = fold_left Nat.add (map write_issues (writes 0 files)) 0.
Proof.
  unfold process_loop.
  destruct (fold_process_file process_document basename files (loop_start s))
    as (H1 & H2 & H3 & H4 & H5).
  simpl in *. repeat split; assumption.
Qed.

Lemma process_nonempty a f fs :
  process a (Some (f :: fs))
  = (try_except
       (let* detailed :=
          _generate_detailed_analysis fmt2f
            (loop_session (loop (f :: fs) (current_session a))) in
        let* recs :=
          _generate_recommendations py_sum
            (loop_session (loop (f :: fs) (current_session a))) in
        Ok (render_summary fmt2f (loop (f :: fs) (current_session a)),
            detailed, recs))
       (fun e => Ok ("Error processing documents: " ++ str_exc e, "", "")),
     with_session a (loop_session (loop (f :: fs) (current_session a)))).
Proof. reflexivity. Qed.

(** What holds of every agent the program can hold: the stored documents
    all have their report, and the two attributes that [__init__] does not
    assign are still missing. *)
Lemma reachable_invariant a :
  reach a ->
  consistent (current_session a) /\
  analytics_engine a = None /\ export_manager a = None.
Proof.
  induction 1 as [env_key now a Hinit | a files Hr IH].
  - unfold __init__ in Hinit.
    destruct env_key as [[|c key]|]; try discriminate.
    injection Hinit as <-. simpl. repeat split.
    apply consistent_empty. reflexivity.
  - destruct IH as (Hc & Ha & He).
    destruct files as [[|f fs]|]; simpl; try (repeat split; assumption).
    repeat split; try assumption.
    destruct (loop_closed_form (f :: fs) (current_session a))
      as (_ & _ & Hs & _).
    rewrite Hs. apply consistent_apply_writes. exact Hc.
Qed.

Lemma generate_recommendations_ok s :
  consistent s -> exists text, _generate_recommendations py_sum s = Ok text.
Proof.
  intros Hs. unfold _generate_recommendations.
  destruct (PyDict.is_empty (documents s)) eqn:E.
  - unfold recommendations_of. rewrite E. simpl. eauto.
  - destruct (recommendations_ok py_sum s Hs E) as [acc [_ Hr]].
    rewrite Hr. simpl. eauto.
Qed.

(** On a consistent session the outer handler is not needed: the method
    returns the summary of the loop and the two generated texts. *)
Lemma process_returns_summary a f fs :
  consistent (current_session a) ->
  let st := loop (f :: fs) (current_session a) in
  exists detailed recs,
    _generate_detailed_analysis fmt2f (loop_session st) = Ok detailed /\
    _generate_recommendations py_sum (loop_session st) = Ok recs /\
    process a (Some (f :: fs))
    = (Ok (render_summary fmt2f st, detailed, recs),
       with_session a (loop_session st)).
Proof.
  intros Hc st.
  assert (Hc' : consistent (loop_session st)).
  { destruct (loop_closed_form (f :: fs) (current_session a))
      as (_ & _ & Hs & _).
    unfold st. rewrite Hs. apply consistent_apply_writes. exact Hc. }
  destruct (detailed_analysis_ok fmt2f _ Hc') as [detailed Hd].
  destruct (generate_recommendations_ok _ Hc') as [recs Hr].
  exists detailed, recs. repeat split; try assumption.
  rewrite process_nonempty. fold st. rewrite Hd, Hr. reflexivity.
Qed.

End AgentFacts.

(** ** The checklist of required documents *)

Lemma str_in_single_type (d : string) (types : list string) :
  (forall t, In t types -> t = "Board Resolution") ->
  d <> "Board Resolution" -> str_in d types = false.
Proof.
  intros Hall Hd. destruct (str_in d types) eqn:E; [|reflexivity].
  apply str_in_In in E. apply Hall in E. contradiction.
Qed.

Lemma in_doc_types (s : Session) (d : string) :
  In d (doc_types s) <->
  exists e, In e (PyDict.values (documents s)) /\
            Doc.document_type (metadata e) = d.
Proof.
  unfold doc_types. rewrite in_map_iff. split; intros [e [H1 H2]]; eauto.
Qed.

Lemma in_missing_docs (s : Session) (d : string) :
  In d (missing_docs s) <->
  In d required_docs /\
  forall e, In e (PyDict.values (documents s)) ->
            Doc.document_type (metadata e) <> d.
Proof.
  unfold missing_docs. rewrite filter_In, negb_true_iff. split.
  - intros [Hreq Hno]. split; [exact Hreq|]. intros e He Heq.
    assert (Hin : str_in d (doc_types s) = true).
    { apply str_in_In, in_doc_types. eauto. }
    congruence.
  - intros [Hreq Hno]. split; [exact Hreq|].
    destruct (str_in d (doc_types s)) eqn:E; [|reflexivity].
    apply str_in_In, in_doc_types in E. destruct E as [e [He Heq]].
    exfalso. exact (Hno e He Heq).
Qed.

(** A non-empty missing list is written on the "Missing:" line. *)
Lemma missing_line_in_recommendations (r : Recommendations) :
  rec_missing_docs r <> [] ->
  is_infix ("   - Missing: " ++ join ", " (rec_missing_docs r) ++ nl ++ nl)
           (render_recommendations (Some r)) = true.
Proof.
  intros H. unfold render_recommendations.
  destruct (rec_missing_docs r) as [|d ds] eqn:E; [contradiction|].
  do 8 apply is_infix_app_r. apply is_infix_app_l.
  do 2 apply is_infix_app_r. apply is_infix_of_prefix, is_prefix_refl.
Qed.

Section Checklist.

Variable process_document :
  string ->
  Exc (Doc.DocumentMetadata * list Doc.DocumentSection * Doc.Analysis).
Variable fmt2f : Q -> string.
Variable basename : string -> string.
Variable py_sum : list Q -> Q.

Local Abbreviation reach := (reachable process_document fmt2f basename py_sum).

(** C1, as amended: for every session the agent can hold that has at
    least one stored document, the recommendations are generated from a
    record whose missing list is written on the "Missing:" line of the
    text; a required document type is in that list if and only if no
    document stored in the session has the type, nothing but required types
    is listed, and a session whose documents are all of type Board
    Resolution lists exactly the three required types. *)
Theorem missing_documents_listed (a : ADGMCorporateAgent) :
  reach a ->
  PyDict.is_empty (documents (current_session a)) = false ->
  let s := current_session a in
  (exists r,
      recommendations_of py_sum s = Ok (Some r) /\
      _generate_recommendations py_sum s
      = Ok (render_recommendations (Some r)) /\
      rec_missing_docs r = listed_missing py_sum s /\
      (listed_missing py_sum s <> [] ->
       is_infix ("   - Missing: "
                 ++ join ", " (listed_missing py_sum s) ++ nl ++ nl)
                (render_recommendations (Some r)) = true)) /\
  (forall d, In d required_docs ->
     (In d (listed_missing py_sum s) <->
      forall e, In e (PyDict.values (documents s)) ->
                Doc.document_type (metadata e) <> d)) /\
  (forall d, In d (listed_missing py_sum s) -> In d required_docs) /\
  ((forall e, In e (PyDict.values (documents s)) ->
              Doc.document_type (metadata e) = "Board Resolution") ->
   listed_missing py_sum s
   = ["Articles of Association"; "Memorandum of Association";
      "UBO Declaration Form"]).
Proof.
  intros Hr Hne s.
  destruct (reachable_invariant _ _ _ _ a Hr) as (Hc & _ & _).
  destruct (recommendations_ok py_sum s Hc Hne) as [acc [Hacc Hrec]].
  assert (Hl : listed_missing py_sum s = missing_docs s).
  { unfold listed_missing. rewrite Hrec. reflexivity. }
  split; [|split; [|split]].
  - eexists. split; [exact Hrec|]. split; [|split].
    + unfold _generate_recommendations. rewrite Hrec. reflexivity.
    + simpl. symmetry. exact Hl.
    + intros Hm. rewrite Hl in *.
      apply (missing_line_in_recommendations
               {| rec_total_issues := snd acc;
                  rec_avg_compliance := mean py_sum (fst acc);
                  rec_missing_docs := missing_docs s |}).
      exact Hm.
  - intros d Hd. rewrite Hl, in_missing_docs. tauto.
  - intros d. rewrite Hl, in_missing_docs. tauto.
  - intros Hall. rewrite Hl. unfold missing_docs, required_docs.
    assert (Ht : forall t, In t (doc_types s) -> t = "Board Resolution").
    { intros t Ht. apply in_doc_types in Ht.
      destruct Ht as [e [He <-]]. apply Hall. exact He. }
    simpl.
    rewrite !(str_in_single_type _ _ Ht) by discriminate.
    reflexivity.
Qed.

End Checklist.

(** A batch of Board Resolution documents on the demo agent. *)
Lemma missing_documents_listed_witness :
  let a := snd (Demo.process Demo.agent ["board.docx"; "board.docx"]) in
  let s := current_session a in
  reachable Demo.process_document Demo.fmt2f Demo.basename Demo.py_sum a /\
  PyDict.is_empty (documents s) = false /\
  (forall e, In e (PyDict.values (documents s)) ->
             Doc.document_type (metadata e) = "Board Resolution") /\
  listed_missing Demo.py_sum s <> [] /\
  listed_missing Demo.py_sum s
  = ["Articles of Association"; "Memorandum of Association";
     "UBO Declaration Form"] /\
  (exists r,
      _generate_recommendations Demo.py_sum s
      = Ok (render_recommendations (Some r)) /\
      is_infix ("   - Missing: "
                ++ join ", " (listed_missing Demo.py_sum s) ++ nl ++ nl)
               (render_recommendations (Some r)) = true).
Proof.
  assert (Hr : reachable Demo.process_document Demo.fmt2f Demo.basename
                         Demo.py_sum
                 (snd (Demo.process Demo.agent ["board.docx"; "board.docx"]))).
  { apply reachable_process.
    apply (reachable_init _ _ _ _ (Some "sk-demo") "20250811_101500").
    reflexivity. }
  assert (Hall : forall e,
             In e (PyDict.values
                     (documents
                        (current_session
                           (snd (Demo.process Demo.agent
                                   ["board.docx"; "board.docx"]))))) ->
             Doc.document_type (metadata e) = "Board Resolution").
  { vm_compute. intros e [<-|[<-|[]]]; reflexivity. }
  assert (Hne : listed_missing Demo.py_sum
                  (current_session
                     (snd (Demo.process Demo.agent
                             ["board.docx"; "board.docx"]))) <> []).
  { vm_compute. discriminate. }
  destruct (missing_documents_listed
              Demo.process_document Demo.fmt2f Demo.basename Demo.py_sum
              (snd (Demo.process Demo.agent ["board.docx"; "board.docx"]))
              Hr eq_refl)
    as ((r & _ & Hgen & _ & Hline) & _ & _ & Hboard).
  split; [exact Hr|]. split; [reflexivity|]. split; [exact Hall|].
  split; [exact Hne|]. split; [exact (Hboard Hall)|].
  exists r. split; [exact Hgen | exact (Hline Hne)].
Defined.

(** C1, as stated, fails on a session without documents: after a batch
    whose only file is rejected, the recommendations are the text of the
    early return and name no missing document, although no stored document
    has any of the required types. *)
Lemma missing_documents_not_listed_without_documents :
  let out := Demo.process Demo.agent ["corrupt.docx"] in
  let s := current_session (snd out) in
  reachable Demo.process_document Demo.fmt2f Demo.basename
            Demo.py_sum (snd out) /\
  (exists summary,
      fst out = Ok (summary, "No documents processed yet.",
                    "No documents processed yet.")) /\
  listed_missing Demo.py_sum s = [] /\
  ~ (forall d, In d required_docs ->
       (In d (listed_missing Demo.py_sum s) <->
        forall e, In e (PyDict.values (documents s)) ->
                  Doc.document_type (metadata e) <> d)).
Proof.
  split; [|split; [|split]].
  - apply reachable_process.
    apply (reachable_init _ _ _ _ (Some "sk-demo") "20250811_101500").
    reflexivity.
  - eexists. vm_compute. reflexivity.
  - reflexivity.
  - intros H.
    specialize (H "Articles of Association" (or_introl eq_refl)).
    destruct H as [_ H]. apply H. intros e [].
Qed.

(** A document of an earlier batch that a later batch overwrites (the keys
    restart at doc_1 with every call) is no longer stored, and its type is
    listed as missing again. *)
Lemma overwritten_document_is_listed_missing :
  let first := Demo.process Demo.agent ["articles.docx"] in
  let second := Demo.process (snd first) ["board.docx"] in
  doc_types (current_session (snd first)) = ["Articles of Association"] /\
  listed_missing Demo.py_sum (current_session (snd first))
  = ["Memorandum of Association"; "UBO Declaration Form"] /\
  doc_types (current_session (snd second)) = ["Board Resolution"] /\
  listed_missing Demo.py_sum (current_session (snd second))
  = ["Articles of Association"; "Memorandum of Association";
     "UBO Declaration Form"].
Proof. repeat split; reflexivity. Qed.

(** ** Calls without files, and the two methods without their engine *)

Section Methods.

Variable process_document :
  string ->
  Exc (Doc.DocumentMetadata * list Doc.DocumentSection * Doc.Analysis).
Variable fmt2f : Q -> string.
Variable basename : string -> string.
Variable py_sum : list Q -> Q.

Local Abbreviation process :=
  (process_uploaded_documents process_document fmt2f basename py_sum).
Local Abbreviation reach := (reachable process_document fmt2f basename py_sum).

(** C10: with [None] or with an empty list of files,
    [process_uploaded_documents] returns the triple
    ("No files uploaded", "", "") and the agent it was called on, so that
    the documents, the analysis results, the compliance reports and the
    session id are the ones from before the call. *)
Theorem process_without_files (a : ADGMCorporateAgent) :
  let unchanged (a' : ADGMCorporateAgent) :=
    a' = a /\
    documents (current_session a') = documents (current_session a) /\
    analysis_results (current_session a')
    = analysis_results (current_session a) /\
    compliance_reports (current_session a')
    = compliance_reports (current_session a) /\
    session_id (current_session a') = session_id (current_session a) in
  fst (process a None) = Ok ("No files uploaded", "", "") /\
  unchanged (snd (process a None)) /\
  fst (process a (Some [])) = Ok ("No files uploaded", "", "") /\
  unchanged (snd (process a (Some []))).
Proof. simpl. repeat split; reflexivity. Qed.

(** C4: on every agent the program can hold whose session has a
    document, [generate_analytics_dashboard] returns the error text for
    the missing attribute [analytics_engine] with an empty second
    component, and [export_results] returns an empty file path with the
    error text for the missing attribute [export_manager]: neither the
    dashboard nor a file path is ever returned. *)
Theorem analytics_and_export_fail
    (a : ADGMCorporateAgent) (export_format : string) :
  reach a ->
  PyDict.is_empty (documents (current_session a)) = false ->
  generate_analytics_dashboard fmt2f a
  = Ok ("Error generating analytics: 'ADGMCorporateAgent' object has no attribute 'analytics_engine'",
        "") /\
  export_results a export_format
  = Ok ("",
        "Export failed: 'ADGMCorporateAgent' object has no attribute 'export_manager'").
Proof.
  intros Hr Hne.
  destruct (reachable_invariant _ _ _ _ a Hr) as (_ & Ha & He).
  unfold generate_analytics_dashboard, export_results.
  rewrite Hne, Ha, He. split; reflexivity.
Qed.

End Methods.

Lemma analytics_and_export_fail_witness :
  let a := snd (Demo.process Demo.agent ["articles.docx"]) in
  reachable Demo.process_document Demo.fmt2f Demo.basename Demo.py_sum a /\
  PyDict.is_empty (documents (current_session a)) = false /\
  generate_analytics_dashboard Demo.fmt2f a
  = Ok ("Error generating analytics: 'ADGMCorporateAgent' object has no attribute 'analytics_engine'",
        "") /\
  export_results a "zip"
  = Ok ("",
        "Export failed: 'ADGMCorporateAgent' object has no attribute 'export_manager'").
Proof.
  assert (Hr : reachable Demo.process_document Demo.fmt2f Demo.basename
                         Demo.py_sum
                 (snd (Demo.process Demo.agent ["articles.docx"]))).
  { apply reachable_process.
    apply (reachable_init _ _ _ _ (Some "sk-demo") "20250811_101500").
    reflexivity. }
  split; [exact Hr|]. split; [reflexivity|].
  apply (analytics_and_export_fail _ _ _ _ _ "zip" Hr). reflexivity.
Defined.

(** ** Batches: averages, failures, repetition *)

Section Batches.

Variable process_document :
  string ->
  Exc (Doc.DocumentMetadata * list Doc.DocumentSection * Doc.Analysis).
Variable fmt2f : Q -> string.
Variable basename : string -> string.
Variable py_sum : list Q -> Q.

Local Abbreviation process :=
  (process_uploaded_documents process_document fmt2f basename py_sum).
Local Abbreviation loop := (process_loop process_document basename).
Local Abbreviation writes := (writes_from process_document).
Local Abbreviation reach := (reachable process_document fmt2f basename py_sum).

Lemma loop_state_eta (st : LoopState) :
  st = {| results := results st; total_issues := total_issues st;
          total_compliance_score := total_compliance_score st;
          processed_docs := processed_docs st;
          loop_session := loop_session st |}.
Proof. destruct st; reflexivity. Qed.

(** The loop depends on the session only through the session it leaves. *)
Lemma loop_determined files s s' :
  fold_left apply_write (writes 0 files) s
  = fold_left apply_write (writes 0 files) s' ->
  loop files s = loop files s'.
Proof.
  intros H.
  destruct (loop_closed_form process_document basename files s)
    as (H1 & H2 & H3 & H4 & H5).
  destruct (loop_closed_form process_document basename files s')
    as (H1' & H2' & H3' & H4' & H5').
  rewrite (loop_state_eta (loop files s)), (loop_state_eta (loop files s')).
  rewrite H1, H2, H3, H4, H5, H1', H2', H3', H4', H5', H. reflexivity.
Qed.

Lemma with_session_twice a s s' :
  with_session (with_session a s) s' = with_session a s'.
Proof. reflexivity. Qed.

(** C7: processing the same batch of files a second time returns the same
    three texts and leaves the agent, and with it the statistics that
    [_generate_recommendations] computes from the stored documents
    (collected scores and issue total, their mean, the missing-document
    list), exactly as the first run left them: a document is stored under
    the key of its rank in the batch, so the second run overwrites each
    entry with itself and nothing is counted twice. *)
Theorem reprocessing_is_idempotent
    (a : ADGMCorporateAgent) (files : option (list string)) :
  let first := process a files in
  let second := process (snd first) files in
  snd second = snd first /\
  fst second = fst first /\
  collect_compliance (current_session (snd second))
  = collect_compliance (current_session (snd first)) /\
  recommendations_of py_sum (current_session (snd second))
  = recommendations_of py_sum (current_session (snd first)) /\
  _generate_recommendations py_sum (current_session (snd second))
  = _generate_recommendations py_sum (current_session (snd first)).
Proof.
  assert (Hsnd : snd (process (snd (process a files)) files)
                 = snd (process a files)).
  { destruct files as [[|f fs]|]; try reflexivity.
    rewrite !process_nonempty. simpl.
    rewrite with_session_twice. f_equal.
    destruct (loop_closed_form process_document basename (f :: fs)
                (current_session a)) as (_ & _ & Hs & _).
    destruct (loop_closed_form process_document basename (f :: fs)
                (loop_session (loop (f :: fs) (current_session a))))
      as (_ & _ & Hs' & _).
    rewrite Hs', Hs.
    apply apply_writes_idempotent, NoDup_keys_writes_from. }
  simpl. rewrite Hsnd. repeat split; try reflexivity.
  destruct files as [[|f fs]|]; try reflexivity.
  rewrite !process_nonempty. simpl.
  assert (Hloop : loop (f :: fs)
                    (loop_session (loop (f :: fs) (current_session a)))
                  = loop (f :: fs) (current_session a)).
  { apply loop_determined.
    destruct (loop_closed_form process_document basename (f :: fs)
                (current_session a)) as (_ & _ & Hs & _).
    rewrite Hs.
    apply apply_writes_idempotent, NoDup_keys_writes_from. }
  rewrite Hloop. reflexivity.
Qed.

(** The average of the summary is the running total of the scores that
    the batch itself wrote, over their number. *)
Lemma avg_compliance_batch files s :
  avg_compliance (loop files s)
  = running_mean (map write_score (writes 0 files)).
Proof.
  destruct (loop_closed_form process_document basename files s)
    as (_ & Hn & _ & Ht & _).
  unfold avg_compliance. rewrite Hn, Ht.
  destruct (writes 0 files) as [|w ws]; [reflexivity|].
  simpl running_mean. rewrite length_map. reflexivity.
Qed.

End Batches.

(** ** One failing file in a batch *)

Section StreamlitFacts.

Variable process_document :
  string ->
  Exc (Doc.DocumentMetadata * list Doc.DocumentSection * Doc.Analysis).
Variable check_compliance :
  Doc.DocumentMetadata -> list Doc.DocumentSection -> Doc.Analysis ->
  Exc Streamlit.ComplianceReport.
Variable detect_red_flags :
  Doc.DocumentMetadata -> list Doc.DocumentSection -> Doc.Analysis ->
  Exc (list Streamlit.RedFlag).

(** The page loop in closed form: a row for each file whose three calls
    return, a message for each of the others; no file stops the loop. *)
Lemma page_loop_closed_form files : forall i st,
  let st' :=
    Streamlit.process_from process_document check_compliance
                           detect_red_flags i files st in
  let ok :=
    Streamlit.succeeded process_document check_compliance detect_red_flags in
  map Streamlit.filename (Streamlit.results st')
  = (map Streamlit.filename (Streamlit.results st)
     ++ map Streamlit.name (List.filter ok files))%list /\
  length (Streamlit.errors st')
  = length (Streamlit.errors st)
    + length (List.filter (fun f => negb (ok f)) files).
Proof.
  induction files as [|f files IH]; intros i st; simpl.
  - rewrite app_nil_r, Nat.add_0_r. split; reflexivity.
  - destruct (IH (S i)
                (Streamlit.process_file process_document check_compliance
                                        detect_red_flags st i f))
      as [Hres Herr].
    rewrite Hres, Herr. clear Hres Herr IH.
    unfold Streamlit.process_file, Streamlit.succeeded.
    destruct (process_document (Streamlit.temp_file f))
      as [[[md secs] an]|e]; simpl.
    + destruct (check_compliance md secs an) as [rep|e]; simpl.
      * destruct (detect_red_flags md secs an) as [flags|e]; simpl.
        -- rewrite map_app, <- app_assoc. simpl. split; [reflexivity | lia].
        -- rewrite length_app. simpl. split; [reflexivity | lia].
      * rewrite length_app. simpl. split; [reflexivity | lia].
    + rewrite length_app. simpl. split; [reflexivity | lia].
Qed.

End StreamlitFacts.

Section FailedDocument.

Variable process_document :
  string ->
  Exc (Doc.DocumentMetadata * list Doc.DocumentSection * Doc.Analysis).
Variable fmt2f : Q -> string.
Variable basename : string -> string.
Variable py_sum : list Q -> Q.
Variable check_compliance :
  Doc.DocumentMetadata -> list Doc.DocumentSection -> Doc.Analysis ->
  Exc Streamlit.ComplianceReport.
Variable detect_red_flags :
  Doc.DocumentMetadata -> list Doc.DocumentSection -> Doc.Analysis ->
  Exc (list Streamlit.RedFlag).

Local Abbreviation process :=
  (process_uploaded_documents process_document fmt2f basename py_sum).
Local Abbreviation loop := (process_loop process_document basename).
Local Abbreviation row := (row_of process_document basename).
Local Abbreviation writes := (writes_from process_document).
Local Abbreviation reach := (reachable process_document fmt2f basename py_sum).

Lemma row_of_rejected bad e :
  process_document bad = Raise e ->
  row bad
  = {| r_document := basename bad; r_type := "Error"; r_confidence := 0%Q;
       r_compliance_score := 0%Q; r_issues_count := 0;
       r_error := Some (str_exc e) |}.
Proof. intros H. unfold row_of. rewrite H. reflexivity. Qed.

Lemma writes_skip_rejected pre bad post e :
  process_document bad = Raise e ->
  writes 0 (pre ++ bad :: post) = writes 0 (pre ++ post).
Proof.
  intros H. rewrite !writes_from_app. f_equal. simpl.
  unfold stored_of at 1. rewrite H. reflexivity.
Qed.

Lemma error_line_in_summary pre bad post e s :
  process_document bad = Raise e ->
  is_infix
    (nl ++ "- **" ++ basename bad ++ "** - ERROR: " ++ str_exc e ++ nl)
    (render_summary fmt2f (loop (pre ++ bad :: post) s)) = true.
Proof.
  intros H. unfold render_summary.
  destruct (loop_closed_form process_document basename
              (pre ++ bad :: post) s) as (Hres & _).
  rewrite Hres, fold_append, map_app, fold_right_append_app. simpl.
  apply is_infix_app_r, is_infix_app_r, is_infix_app_l, is_infix_of_prefix.
  rewrite (row_of_rejected bad e H). unfold summary_line. simpl.
  apply is_prefix_refl.
Qed.

(** C3, as amended. In [process_uploaded_documents], when the document
    processor raises on one file of the batch: the method still returns
    the summary and the two generated texts (not the text of the outer
    handler); the results hold one row per file, in order, each the row
    of its file alone; the row of the failed file has type "Error", score
    0, no issues and the text of the exception under ['error'], and its
    ERROR line is part of the returned summary; and the session is the one
    that the batch without the failed file, and also the batch of the
    accepted files alone, would have left, so nothing was stored for it.
    On the Streamlit page the loop also goes on: the rows
    are those of the files whose three calls return, in order, and each
    other file adds one error message and no row. *)
Theorem failed_document_is_isolated
    (a : ADGMCorporateAgent) (pre post : list string) (bad : string)
    (e : PyException) (uploads : list Streamlit.Upload)
    (st0 : Streamlit.PageState) :
  reach a ->
  process_document bad = Raise e ->
  let files := (pre ++ bad :: post)%list in
  let st := loop files (current_session a) in
  let page :=
    Streamlit.process_documents process_document check_compliance
                                detect_red_flags uploads st0 in
  let ok :=
    Streamlit.succeeded process_document check_compliance detect_red_flags in
  (exists detailed recs,
      process a (Some files)
      = (Ok (render_summary fmt2f st, detailed, recs),
         with_session a (loop_session st))) /\
  results st = map row files /\
  nth_error (results st) (length pre)
  = Some {| r_document := basename bad; r_type := "Error";
            r_confidence := 0%Q; r_compliance_score := 0%Q;
            r_issues_count := 0; r_error := Some (str_exc e) |} /\
  is_infix
    (nl ++ "- **" ++ basename bad ++ "** - ERROR: " ++ str_exc e ++ nl)
    (render_summary fmt2f st) = true /\
  loop_session st = loop_session (loop (pre ++ post) (current_session a)) /\
  loop_session st
  = loop_session
      (loop (List.filter (accepted process_document) files)
            (current_session a)) /\
  map Streamlit.filename (Streamlit.results page)
  = map Streamlit.name (List.filter ok uploads) /\
  length (Streamlit.errors page)
  = length (List.filter (fun f => negb (ok f)) uploads).
Proof.
  intros Hr Hbad files st page ok.
  destruct (reachable_invariant _ _ _ _ a Hr) as (Hc & _ & _).
  destruct (loop_closed_form process_document basename files
              (current_session a)) as (Hres & _ & Hs & _).
  fold st in Hres, Hs.
  split; [|split; [|split; [|split; [|split; [|split]]]]].
  - assert (Hfiles : exists f fs, files = f :: fs).
    { unfold files. destruct pre as [|p pre']; simpl; eauto. }
    destruct Hfiles as [f [fs Hfiles]].
    destruct (process_returns_summary process_document fmt2f basename py_sum
                a f fs Hc) as [detailed [recs (_ & _ & Hp)]].
    exists detailed, recs. unfold st. rewrite Hfiles. exact Hp.
  - exact Hres.
  - rewrite Hres. unfold files. rewrite map_app. simpl.
    rewrite nth_error_app2 by (rewrite length_map; lia).
    rewrite length_map, Nat.sub_diag. simpl.
    rewrite (row_of_rejected bad e Hbad). reflexivity.
  - apply error_line_in_summary. exact Hbad.
  - destruct (loop_closed_form process_document basename (pre ++ post)
                (current_session a)) as (_ & _ & Hs' & _).
    rewrite Hs, Hs'. unfold files.
    rewrite (writes_skip_rejected pre bad post e Hbad). reflexivity.
  - destruct (loop_closed_form process_document basename
                (List.filter (accepted process_document) files)
                (current_session a)) as (_ & _ & Hs' & _).
    rewrite Hs, Hs', writes_from_accepted. reflexivity.
  - unfold page, ok, Streamlit.process_documents.
    apply (page_loop_closed_form process_document check_compliance
             detect_red_flags uploads 0).
Qed.

End FailedDocument.

Lemma failed_document_is_isolated_witness :
  let files := ["articles.docx"; "corrupt.docx"; "board.docx"] in
  let st :=
    process_loop Demo.process_document Demo.basename files
                 (current_session Demo.agent) in
  reachable Demo.process_document Demo.fmt2f Demo.basename
            Demo.py_sum Demo.agent /\
  Demo.process_document "corrupt.docx" = Raise (RuntimeError "Package not found") /\
  nth_error (results st) 1
  = Some {| r_document := "corrupt.docx"; r_type := "Error";
            r_confidence := 0%Q; r_compliance_score := 0%Q;
            r_issues_count := 0; r_error := Some "Package not found" |} /\
  PyDict.keys (documents (loop_session st)) = ["doc_1"; "doc_2"] /\
  loop_session st
  = loop_session
      (process_loop Demo.process_document Demo.basename
                    ["articles.docx"; "board.docx"]
                    (current_session Demo.agent)).
Proof.
  assert (Hr : reachable Demo.process_document Demo.fmt2f Demo.basename
                         Demo.py_sum
                 Demo.agent).
  { apply (reachable_init _ _ _ _ (Some "sk-demo") "20250811_101500").
    reflexivity. }
  split; [exact Hr|]. split; [reflexivity|].
  pose proof (failed_document_is_isolated
                Demo.process_document Demo.fmt2f Demo.basename Demo.py_sum
                Demo.check_compliance Demo.detect_red_flags
                Demo.agent ["articles.docx"] ["board.docx"] "corrupt.docx"
                (RuntimeError "Package not found")
                (map Demo.upload ["articles.docx"]) Demo.fresh_page
                Hr eq_refl) as H.
  simpl in H. destruct H as (_ & _ & Hrow & _ & Hs & _).
  split; [exact Hrow|]. split; [reflexivity | exact Hs].
Defined.

(** C3, as stated, fails on the Streamlit page. A file that the document
    processor rejects gets an error message and no row in the results, so it
    is not there with a zero score; and a file that is parsed but on which
    the compliance check raises has already been stored under its key in
    the documents of the session, without a compliance report. *)
Lemma streamlit_failed_document_has_no_row :
  let st := Demo.process_page ["articles.docx"; "corrupt.docx"; "board.docx"] in
  Demo.process_document "corrupt.docx"
  = Raise (RuntimeError "Package not found") /\
  map Streamlit.filename (Streamlit.results st) = ["articles.docx"] /\
  Streamlit.errors st
  = ["Error processing corrupt.docx: Package not found";
     "Error processing board.docx: 'Board Resolution'"] /\
  PyDict.keys (Streamlit.documents st) = ["doc_1"; "doc_3"] /\
  PyDict.keys (Streamlit.compliance_reports st) = ["doc_1"] /\
  ~ (exists r, In r (Streamlit.results st) /\
               Streamlit.filename r = "corrupt.docx") /\
  (exists d, PyDict.get "doc_3" (Streamlit.documents st) = Some d /\
             file_path d = "board.docx").
Proof.
  repeat split; try reflexivity.
  - intros [r [Hin Hname]]. vm_compute in Hin.
    destruct Hin as [<-|[]]. discriminate.
  - eexists. split; reflexivity.
Qed.

(** ** Questions *)

Lemma is_prefix_app_inv (p c s : string) :
  is_prefix (p ++ c) s = true -> is_prefix p s = true.
Proof.
  revert s. induction p as [|x p IH]; intros s H; [reflexivity|].
  rewrite append_cons in H. destruct s as [|y s]; simpl in *; [discriminate|].
  destruct (ascii_dec x y); [auto | discriminate].
Qed.

Lemma is_infix_app_inv (p c s : string) :
  is_infix (p ++ c) s = true -> is_infix p s = true.
Proof.
  induction s as [|y s IH]; simpl; intros H.
  - rewrite orb_false_r in *. exact (is_prefix_app_inv _ _ _ H).
  - apply orb_true_iff in H. apply orb_true_iff. destruct H as [H|H].
    + left. exact (is_prefix_app_inv _ _ _ H).
    + right. exact (IH H).
Qed.

Section Questions.

Variable retrieve_relevant_context : string -> nat -> Exc (list RAG.Source).
Variable generate_response :
  string -> list RAG.Source -> Exc RAG.RAGResponse.
Variable fmt2f : Q -> string.

(** C2, as amended: when the question is not blank and the retrieved
    context is empty, [ask_adgm_question] returns the fixed text that no
    relevant information was found, a plain string that shows no
    confidence figure and no references; the Q&A page of the Streamlit
    front end shows a warning in that case, and no answer. A blank
    question (nothing but white space, Unicode white space included) gets
    the request to enter a question before any retrieval. The method
    never raises, whatever the two calls to the RAG system do: an
    exception of the retrieval, or of the response generation, is turned
    into the text "Error processing question: " followed by the message
    of the exception. *)
Theorem ask_without_context (question : string) :
  let ask :=
    ask_adgm_question retrieve_relevant_context generate_response fmt2f in
  (is_blank question = false ->
   retrieve_relevant_context question 5 = Ok [] ->
   ask question = Ok no_information_message /\
   Streamlit.ask_page retrieve_relevant_context generate_response question
   = Streamlit.Warning
       "⚠️ No relevant information found. Please try rephrasing your question.") /\
  (forall c, reports_confidence c no_information_message = false) /\
  is_infix "References" no_information_message = false /\
  (is_blank question = true ->
   ask question
   = Ok "Please enter a question about ADGM compliance or regulations.") /\
  (exists text, ask question = Ok text) /\
  (forall e,
     is_blank question = false ->
     retrieve_relevant_context question 5 = Raise e ->
     ask question = Ok ("Error processing question: " ++ str_exc e)) /\
  (forall c ctx e,
     is_blank question = false ->
     retrieve_relevant_context question 5 = Ok (c :: ctx) ->
     generate_response question (c :: ctx) = Raise e ->
     ask question = Ok ("Error processing question: " ++ str_exc e)).
Proof.
  intros ask. unfold ask.
  split; [|split; [|split; [|split; [|split; [|split]]]]].
  - intros Hq Hctx. unfold ask_adgm_question, Streamlit.ask_page.
    rewrite Hq, Hctx. split; reflexivity.
  - intros c. unfold reports_confidence.
    destruct (is_infix ("**Confidence:** " ++ c) no_information_message)
      eqn:E; [|reflexivity].
    apply is_infix_app_inv in E. vm_compute in E. discriminate.
  - vm_compute. reflexivity.
  - intros Hq. unfold ask_adgm_question. rewrite Hq. reflexivity.
  - unfold ask_adgm_question.
    destruct (is_blank question); simpl; [eauto|].
    destruct (retrieve_relevant_context question 5) as [[|c ctx]|e];
      simpl; eauto.
    destruct (generate_response question (c :: ctx)); simpl; eauto.
  - intros e Hq Hctx. unfold ask_adgm_question.
    rewrite Hq, Hctx. reflexivity.
  - intros c ctx e Hq Hctx Hgen. unfold ask_adgm_question.
    rewrite Hq, Hctx. cbn [bind]. rewrite Hgen. reflexivity.
Qed.

End Questions.

Lemma ask_without_context_witness :
  let broken (question : string) (k : nat) : Exc (list RAG.Source) :=
    Raise (RuntimeError "Connection error.") in
  let no_break_space := String (ascii_of_nat 194) (String (ascii_of_nat 160) "") in
  is_blank "What are the UBO requirements?" = false /\
  is_blank no_break_space = true /\
  Demo.retrieve_nothing "What are the UBO requirements?" 5 = Ok [] /\
  ask_adgm_question Demo.retrieve_nothing Demo.generate_response Demo.fmt2f
                    "What are the UBO requirements?"
  = Ok no_information_message /\
  ask_adgm_question Demo.retrieve_nothing Demo.generate_response Demo.fmt2f
                    no_break_space
  = Ok "Please enter a question about ADGM compliance or regulations." /\
  ask_adgm_question broken Demo.generate_response Demo.fmt2f
                    "What are the UBO requirements?"
  = Ok "Error processing question: Connection error.".
Proof.
  intros broken no_break_space.
  destruct (ask_without_context Demo.retrieve_nothing Demo.generate_response
              Demo.fmt2f "What are the UBO requirements?")
    as (Hnone & _).
  destruct (ask_without_context broken Demo.generate_response
              Demo.fmt2f "What are the UBO requirements?")
    as (_ & _ & _ & _ & _ & Hraise & _).
  destruct (ask_without_context Demo.retrieve_nothing Demo.generate_response
              Demo.fmt2f no_break_space)
    as (_ & _ & _ & Hblank & _).
  split; [reflexivity|]. split; [reflexivity|]. split; [reflexivity|].
  split; [exact (proj1 (Hnone eq_refl eq_refl))|].
  split; [exact (Hblank eq_refl)|].
  exact (Hraise (RuntimeError "Connection error.") eq_refl eq_refl).
Defined.

(** C2, as stated, fails where it speaks of a confidence of 0.0: with an
    empty context the answer is the bare text of the early return, which
    shows no confidence at all, whereas an answer assembled from a response
    of confidence 0 would show it. *)
Lemma answer_without_context_shows_no_confidence :
  let out :=
    ask_adgm_question Demo.retrieve_nothing Demo.generate_response Demo.fmt2f
                      "What are the UBO requirements?" in
  let assembled :=
    format_response Demo.fmt2f "What are the UBO requirements?"
      {| RAG.answer := "No information found."; RAG.confidence_score := 0%Q;
         RAG.adgm_references := []; RAG.related_topics := [];
         RAG.sources := [] |} in
  out = Ok no_information_message /\
  Demo.fmt2f 0 = "0.00" /\
  reports_confidence "0.00" assembled = true /\
  reports_confidence "0.00" no_information_message = false /\
  is_infix "Confidence" no_information_message = false /\
  out <> Ok assembled.
Proof.
  repeat split; try reflexivity. intros H. vm_compute in H. discriminate.
Qed.

(** ** The compliance scorer *)

Module EngineFacts.
Import Engine.

Section Scorer.
Variables (document_type text : string).

(** The walk over the catalog in closed form: each rule is looked at
    once and moves at most one counter by one. *)
Lemma fold_tally_rule (catalog : list Rule) : forall t,
  fold_left (tally_rule document_type text) catalog t
  = {| n_satisfied :=
         n_satisfied t
         + length (List.filter
                     (fun r => status_eqb (evaluate_rule document_type text r) Satisfied) catalog);
       n_violated :=
         n_violated t
         + length (List.filter
                     (fun r => status_eqb (evaluate_rule document_type text r) Violated) catalog);
       violated_ids :=
         (violated_ids t
          ++ map rule_id
               (List.filter
                  (fun r => status_eqb (evaluate_rule document_type text r) Violated) catalog))%list;
       n_critical :=
         n_critical t
         + length (List.filter
                     (fun r =>
                        match evaluate_rule document_type text r with
                        | Violated =>
                            severity_eqb (rule_severity r) Critical
                        | _ => false
                        end) catalog) |}.
Proof.
  induction catalog as [|r catalog IH]; intros t; simpl.
  - rewrite !Nat.add_0_r, app_nil_r. destruct t; reflexivity.
  - rewrite IH. unfold tally_rule.
    destruct (evaluate_rule document_type text r) eqn:E; simpl.
    + reflexivity.
    + f_equal; lia.
    + destruct (severity_eqb (rule_severity r) Critical); simpl;
        rewrite <- ?app_assoc; simpl; f_equal; lia.
    + reflexivity.
Qed.
End Scorer.

Lemma score_closed_form catalog document_type secs :
  let sat := length (rules_with Satisfied catalog document_type secs) in
  let vio := length (rules_with Violated catalog document_type secs) in
  overall_score (score catalog document_type secs)
  = (if (sat + vio =? 0)%nat then 1%Q
     else (inject_Z (Z.of_nat sat) / inject_Z (Z.of_nat (sat + vio)))%Q) /\
  violated_rules (score catalog document_type secs)
  = map rule_id (rules_with Violated catalog document_type secs) /\
  critical_issues_count (score catalog document_type secs)
  = length (critical_violations catalog document_type secs).
Proof.
  unfold score. rewrite fold_tally_rule. simpl.
  unfold score_of. simpl. repeat split; reflexivity.
Qed.

Lemma not_applicable_status catalog document_type secs st :
  (forall r, In r catalog ->
             str_in document_type (rule_document_types r) = false) ->
  st <> NotApplicable ->
  rules_with st catalog document_type secs = [].
Proof.
  intros Hna Hst. unfold rules_with.
  induction catalog as [|r catalog IH]; simpl; [reflexivity|].
  unfold evaluate_rule at 1. rewrite (Hna r) by (left; reflexivity).
  destruct st; simpl; try contradiction;
    apply IH; intros r' Hr'; apply Hna; right; exact Hr'.
Qed.

(** C6: the overall score is the number of Satisfied rules over the
    number of Satisfied and Violated rules, and 1 when that number is 0;
    for a document whose type no rule of the catalog applies to, the
    score is 1, no rule is violated, and the compliance score that
    [process_uploaded_documents] reads from the analysis record is 1. *)
Theorem score_without_applicable_rules
    (catalog : list Rule) (document_type : string)
    (secs : list ClassifiedSection) :
  (forall r, In r catalog ->
             str_in document_type (rule_document_types r) = false) ->
  let report := score catalog document_type secs in
  let sat := length (rules_with Satisfied catalog document_type secs) in
  let vio := length (rules_with Violated catalog document_type secs) in
  overall_score report
  = (if (sat + vio =? 0)%nat then 1%Q
     else (inject_Z (Z.of_nat sat) / inject_Z (Z.of_nat (sat + vio)))%Q) /\
  overall_score report = 1%Q /\
  violated_rules report = [] /\
  get_default (Doc.overall_compliance_score (analysis_of report)) 0%Q
  = 1%Q.
Proof.
  intros Hna report sat vio.
  destruct (score_closed_form catalog document_type secs)
    as (Hscore & Hviol & _).
  fold report sat vio in Hscore. fold report in Hviol.
  assert (Hsat : sat = 0).
  { unfold sat. rewrite not_applicable_status by (auto; discriminate).
    reflexivity. }
  assert (Hvio : vio = 0).
  { unfold vio. rewrite not_applicable_status by (auto; discriminate).
    reflexivity. }
  assert (Hone : overall_score report = 1%Q).
  { rewrite Hscore, Hsat, Hvio. reflexivity. }
  split; [exact Hscore|]. split; [exact Hone|]. split.
  - rewrite Hviol. rewrite not_applicable_status by (auto; discriminate).
    reflexivity.
  - simpl. exact Hone.
Qed.



End EngineFacts.

Lemma score_without_applicable_rules_witness :
  (forall r, In r Demo.catalog ->
             str_in "Board Resolution" (Engine.rule_document_types r) = false) /\
  Engine.overall_score
    (Engine.score Demo.catalog "Board Resolution" Demo.resolution_sections)
  = 1%Q.
Proof.
  assert (H : forall r, In r Demo.catalog ->
                str_in "Board Resolution" (Engine.rule_document_types r)
                = false).
  { intros r [<-|[<-|[]]]; reflexivity. }
  split; [exact H|].
  apply (EngineFacts.score_without_applicable_rules
           Demo.catalog "Board Resolution" Demo.resolution_sections H).
Defined.


(** ** The order of red flags *)

Module RedFlagFacts.
Import Engine RedFlags.

Lemma before_total a b : flag_leb a b = false -> before b a.
Proof.
  unfold before, flag_leb, location_leb.
  destruct a as [sa ca [pa|] da], b as [sb cb [pb|] db];
    cbn [flag_severity flag_location];
    bool_to_arith; intros H; intuition (try discriminate; lia).
Qed.

Lemma before_trans a b c : before a b -> before b c -> before a c.
Proof.
  unfold before, flag_leb, location_leb.
  destruct a as [sa ca [pa|] da], b as [sb cb [pb|] db],
           c as [sc cc [pc|] dc];
    cbn [flag_severity flag_location];
    bool_to_arith; intros H1 H2; intuition (try discriminate; try lia).
Qed.

Lemma before_in_order a b : before a b -> in_order a b.
Proof.
  unfold in_order. intros H. split.
  - revert H. unfold before, flag_leb.
    bool_to_arith. intros H. intuition lia.
  - intros Hrank p q Hp Hq.
    unfold before, flag_leb in H. rewrite Hp, Hq in H.
    rewrite Hrank, Nat.ltb_irrefl, Nat.eqb_refl in H. simpl in H.
    apply Nat.leb_le. exact H.
Qed.

Lemma insert_flag_perm x l : Permutation (x :: l) (insert_flag x l).
Proof.
  induction l as [|y l IH]; simpl; [reflexivity|].
  destruct (flag_leb y x); [|reflexivity].
  rewrite perm_swap. apply perm_skip. exact IH.
Qed.

Lemma insert_flag_Forall (P : RedFlag -> Prop) x l :
  P x -> Forall P l -> Forall P (insert_flag x l).
Proof.
  intros Hx Hl.
  apply (Permutation_Forall (insert_flag_perm x l)).
  constructor; assumption.
Qed.

Lemma insert_flag_sorted x l :
  StronglySorted before l -> StronglySorted before (insert_flag x l).
Proof.
  induction 1 as [|y l Hs IH Hy]; simpl.
  - constructor; constructor.
  - destruct (flag_leb y x) eqn:E.
    + constructor; [exact IH|].
      apply insert_flag_Forall; assumption.
    + apply before_total in E.
      constructor; [constructor; assumption|].
      constructor; [exact E|].
      eapply List.Forall_impl; [|exact Hy].
      intros z Hz. exact (before_trans _ _ _ E Hz).
Qed.

Lemma fold_insert_sorted l : forall acc,
  StronglySorted before acc ->
  StronglySorted before (fold_left (fun acc x => insert_flag x acc) l acc).
Proof.
  induction l as [|x l IH]; intros acc H; simpl; [exact H|].
  apply IH, insert_flag_sorted, H.
Qed.

Lemma fold_insert_perm l : forall acc,
  Permutation (l ++ acc)
              (fold_left (fun acc x => insert_flag x acc) l acc).
Proof.
  induction l as [|x l IH]; intros acc; simpl; [reflexivity|].
  rewrite <- IH. rewrite <- insert_flag_perm.
  apply Permutation_middle.
Qed.

Lemma sort_flags_sorted l : StronglySorted before (sort_flags l).
Proof. apply fold_insert_sorted. constructor. Qed.

Lemma sort_flags_perm l : Permutation l (sort_flags l).
Proof.
  unfold sort_flags. rewrite <- fold_insert_perm, app_nil_r. reflexivity.
Qed.

Lemma StronglySorted_weaken {A} (R R' : A -> A -> Prop) l :
  (forall a b, R a b -> R' a b) ->
  StronglySorted R l -> StronglySorted R' l.
Proof.
  intros HR. induction 1 as [|y l Hs IH Hy]; constructor; [exact IH|].
  eapply List.Forall_impl; [|exact Hy]. intros z. apply HR.
Qed.

(** C9: for every document type and list of classified sections (and
    every choice of the pattern tables), the flags that [detect] returns
    are the findings of the five detectors, each once, arranged so that
    every flag is followed only by flags of the same or a lower severity
    and, among the flags of its own severity that are located at a
    section, only by flags at the same or a later position. [detect] is a
    function of its arguments, so a second call on the same input returns
    the same list in the same order. *)
Theorem detect_is_ordered
    (foreign_courts : list string) (regulator_courts : string)
    (hedging_phrases : list string)
    (required_sections : string -> list string)
    (ubo_document_types : list string) (owner_entry_label : string)
    (signature_markers : list string)
    (document_type : string) (secs : list ClassifiedSection) :
  let run :=
    detect foreign_courts regulator_courts hedging_phrases
           required_sections ubo_document_types owner_entry_label
           signature_markers in
  let out := run document_type secs in
  StronglySorted in_order out /\
  Permutation
    (findings foreign_courts regulator_courts hedging_phrases
              required_sections ubo_document_types owner_entry_label
              signature_markers document_type secs)
    out /\
  run document_type secs = out.
Proof.
  simpl. split; [|split; [|reflexivity]].
  - unfold detect.
    apply (StronglySorted_weaken before in_order);
      [exact before_in_order | apply sort_flags_sorted].
  - unfold detect. apply sort_flags_perm.
Qed.

End RedFlagFacts.

(** * Further properties of the code *)

(** ** The numbering of stored documents *)

Lemma str_in_doc_ids (j m : nat) :
  str_in (doc_id_of (j + 1)) (map doc_id_of (seq 1 m))
  = (j + 1 <=? m)%nat.
Proof.
  destruct (j + 1 <=? m)%nat eqn:E.
  - apply Nat.leb_le in E. apply str_in_In, in_map, in_seq. lia.
  - apply Nat.leb_gt in E.
    destruct (str_in (doc_id_of (j + 1)) (map doc_id_of (seq 1 m))) eqn:F;
      [|reflexivity].
    apply str_in_In, in_map_iff in F. destruct F as [i [Hi Hin]].
    apply doc_id_of_inj in Hi. apply in_seq in Hin. lia.
Qed.

(** Assigning the keys doc_(j+1), ..., doc_(j+n) in this order to a
    dictionary whose keys are doc_1, ..., doc_m, with j at most m, leaves
    the keys doc_1, ..., doc_max(m, j+n). *)
Lemma keys_update_numbered {V} (l : list (string * V)) :
  forall (n j m : nat) (d : PyDict.t V),
  map fst l = map doc_id_of (seq (j + 1) n) ->
  PyDict.keys d = map doc_id_of (seq 1 m) ->
  (j <= m)%nat ->
  PyDict.keys (PyDict.update l d) = map doc_id_of (seq 1 (Nat.max m (j + n))).
Proof.
  induction l as [|[k v] l IH]; intros n j m d Hl Hd Hj.
  - destruct n; [|discriminate]. simpl.
    replace (Nat.max m (j + 0)) with m by lia. exact Hd.
  - destruct n as [|n]; [discriminate|]. simpl in Hl.
    injection Hl as Hk Hl.
    change (PyDict.update ((k, v) :: l) d)
      with (PyDict.update l (PyDict.set k v d)).
    assert (Hkeys : PyDict.keys (PyDict.set k v d)
                    = map doc_id_of (seq 1 (Nat.max m (j + 1)))).
    { rewrite PyDictFacts.keys_set, Hd, Hk, str_in_doc_ids.
      destruct (j + 1 <=? m)%nat eqn:E.
      - apply Nat.leb_le in E.
        replace (Nat.max m (j + 1)) with m by lia. reflexivity.
      - apply Nat.leb_gt in E. assert (j = m) by lia. subst j.
        replace (Nat.max m (m + 1)) with (S m) by lia.
        rewrite seq_S, map_app. simpl.
        replace (m + 1) with (1 + m) by lia. reflexivity. }
    rewrite (IH n (j + 1) (Nat.max m (j + 1)) (PyDict.set k v d)).
    + f_equal. f_equal. lia.
    + rewrite Hl. replace (j + 1 + 1) with (S (j + 1)) by lia. reflexivity.
    + exact Hkeys.
    + lia.
Qed.

Lemma length_writes_from process_document files : forall n,
  length (writes_from process_document n files)
  = length (List.filter (accepted process_document) files).
Proof.
  induction files as [|path files IH]; intros n; simpl; [reflexivity|].
  unfold stored_of, accepted.
  destruct (process_document path) as [[[md secs] an]|e]; simpl;
    rewrite IH; reflexivity.
Qed.

Section Numbering.

Variable process_document :
  string ->
  Exc (Doc.DocumentMetadata * list Doc.DocumentSection * Doc.Analysis).
Variable fmt2f : Q -> string.
Variable basename : string -> string.
Variable py_sum : list Q -> Q.

Local Abbreviation process :=
  (process_uploaded_documents process_document fmt2f basename py_sum).
Local Abbreviation loop := (process_loop process_document basename).
Local Abbreviation reach := (reachable process_document fmt2f basename py_sum).

(** The keys of both dictionaries after the loop, from numbered keys. *)
Lemma keys_after_loop files s m :
  PyDict.keys (documents s) = map doc_id_of (seq 1 m) ->
  PyDict.keys (compliance_reports s) = map doc_id_of (seq 1 m) ->
  let n := length (List.filter (accepted process_document) files) in
  let s' := loop_session (loop files s) in
  PyDict.keys (documents s') = map doc_id_of (seq 1 (Nat.max m n)) /\
  PyDict.keys (compliance_reports s') = map doc_id_of (seq 1 (Nat.max m n)) /\
  analysis_results s' = analysis_results s /\
  session_id s' = session_id s.
Proof.
  intros Hd Hr n s'.
  destruct (loop_closed_form process_document basename files s)
    as (_ & _ & Hs & _).
  unfold s'. rewrite Hs, fold_apply_write. simpl.
  pose proof (keys_writes_from process_document files 0) as Hk.
  rewrite length_writes_from in Hk. fold n in Hk.
  split; [|split; [|split; reflexivity]].
  - apply (keys_update_numbered _ n 0 m); [|exact Hd | lia].
    rewrite keys_document_pairs. exact Hk.
  - apply (keys_update_numbered _ n 0 m); [|exact Hr | lia].
    rewrite keys_report_pairs. exact Hk.
Qed.

Lemma session_shape (a : ADGMCorporateAgent) :
  reach a ->
  exists m,
    PyDict.keys (documents (current_session a)) = map doc_id_of (seq 1 m) /\
    PyDict.keys (compliance_reports (current_session a))
    = map doc_id_of (seq 1 m) /\
    analysis_results (current_session a) = PyDict.empty.
Proof.
  induction 1 as [env_key now a Hinit | a files Hr IH].
  - unfold __init__ in Hinit.
    destruct env_key as [[|c key]|]; try discriminate.
    injection Hinit as <-. exists 0. repeat split.
  - destruct IH as (m & Hd & Hrep & Han).
    destruct files as [[|f fs]|]; simpl; try (exists m; repeat split; assumption).
    destruct (keys_after_loop (f :: fs) (current_session a) m Hd Hrep)
      as (Hd' & Hr' & Han' & _).
    eexists. split; [exact Hd'|]. split; [exact Hr'|].
    rewrite Han'. exact Han.
Qed.

(** X1: on every agent the program can hold, the stored documents and the
    compliance reports have the same keys in the same order, numbered
    doc_1, doc_2, ... without a gap, and [analysis_results] is still the
    empty dictionary of [__init__]: no method writes to it. *)
Theorem session_keys_are_numbered (a : ADGMCorporateAgent) :
  reach a ->
  exists m,
    PyDict.keys (documents (current_session a)) = map doc_id_of (seq 1 m) /\
    PyDict.keys (compliance_reports (current_session a))
    = map doc_id_of (seq 1 m) /\
    PyDict.keys (documents (current_session a))
    = PyDict.keys (compliance_reports (current_session a)) /\
    analysis_results (current_session a) = PyDict.empty.
Proof.
  intros Hr. destruct (session_shape a Hr) as (m & Hd & Hrep & Han).
  exists m. repeat split; try assumption. rewrite Hd, Hrep. reflexivity.
Qed.

(** X2: a batch never makes the session smaller. After a call with [n]
    accepted files on an agent that held [m] documents, the session holds
    max(m, n) documents and as many compliance reports: the first [n] keys
    are rewritten, the documents of an earlier, larger batch stay. *)
Theorem stored_count_after_batch
    (a : ADGMCorporateAgent) (files : list string) :
  reach a ->
  let n := length (List.filter (accepted process_document) files) in
  let before := current_session a in
  let after := current_session (snd (process a (Some files))) in
  length (documents after) = Nat.max (length (documents before)) n /\
  length (compliance_reports after)
  = Nat.max (length (compliance_reports before)) n.
Proof.
  intros Hr n before after.
  destruct (session_shape a Hr) as (m & Hd & Hrep & _).
  assert (Hlen : forall V (d : PyDict.t V) k,
             PyDict.keys d = map doc_id_of (seq 1 k) -> length d = k).
  { intros V d k H. apply (f_equal (@length string)) in H.
    unfold PyDict.keys in H. rewrite !length_map, length_seq in H. exact H. }
  subst before after.
  rewrite (Hlen _ _ _ Hd), (Hlen _ _ _ Hrep).
  destruct files as [|f fs].
  - simpl in n. subst n. simpl.
    rewrite (Hlen _ _ _ Hd), (Hlen _ _ _ Hrep). lia.
  - destruct (keys_after_loop (f :: fs) (current_session a) m Hd Hrep)
      as (Hd' & Hr' & _).
    fold n in Hd', Hr'. simpl.
    rewrite (Hlen _ _ _ Hd'), (Hlen _ _ _ Hr'). split; reflexivity.
Qed.

End Numbering.

Section Placement.

Variable process_document :
  string ->
  Exc (Doc.DocumentMetadata * list Doc.DocumentSection * Doc.Analysis).
Variable fmt2f : Q -> string.
Variable basename : string -> string.
Variable py_sum : list Q -> Q.

Local Abbreviation process :=
  (process_uploaded_documents process_document fmt2f basename py_sum).
Local Abbreviation loop := (process_loop process_document basename).

(** The write of the accepted file of rank [i]. *)
Lemma nth_writes_from files : forall n i path,
  nth_error (List.filter (accepted process_document) files) i = Some path ->
  exists w,
    stored_of process_document path = Some w /\
    nth_error (writes_from process_document n files) i
    = Some (doc_id_of (n + i + 1), w).
Proof.
  induction files as [|f files IH]; intros n i path H; simpl in *.
  - destruct i; discriminate.
  - unfold accepted in H at 1. unfold stored_of at 2.
    destruct (process_document f) as [[[md secs] an]|e] eqn:E.
    + destruct i as [|i]; simpl in *.
      * injection H as <-. unfold stored_of. rewrite E.
        eexists. split; [reflexivity|].
        replace (n + 0 + 1) with (n + 1) by lia. reflexivity.
      * destruct (IH (n + 1) i path H) as [w [Hw Hn]].
        exists w. split; [exact Hw|]. rewrite Hn. do 3 f_equal. lia.
    + apply IH. exact H.
Qed.

Lemma session_after_some a files :
  current_session (snd (process a (Some files)))
  = fold_left apply_write (writes_from process_document 0 files)
              (current_session a).
Proof.
  destruct files as [|f fs]; [reflexivity|]. simpl.
  destruct (loop_closed_form process_document basename (f :: fs)
              (current_session a)) as (_ & _ & Hs & _).
  exact Hs.
Qed.

(** X3: a call with [n] accepted files rewrites the keys doc_1 to doc_n and
    nothing else: every other key keeps the document and the report it had,
    and the accepted file of rank i is stored under doc_(i+1) with the
    metadata, sections and analysis of the document processor, its path,
    and the score and issue count read from the analysis (0 for a missing
    key). A rejected file takes no number. *)
Theorem batch_rewrites_leading_keys
    (a : ADGMCorporateAgent) (files : list string) :
  let n := length (List.filter (accepted process_document) files) in
  let before := current_session a in
  let after := current_session (snd (process a (Some files))) in
  (forall k, ~ In k (map doc_id_of (seq 1 n)) ->
     PyDict.get k (documents after) = PyDict.get k (documents before) /\
     PyDict.get k (compliance_reports after)
     = PyDict.get k (compliance_reports before)) /\
  (forall i path md secs an,
     nth_error (List.filter (accepted process_document) files) i = Some path ->
     process_document path = Ok (md, secs, an) ->
     PyDict.get (doc_id_of (i + 1)) (documents after)
     = Some {| metadata := md; sections := secs; analysis := an;
               file_path := path |} /\
     PyDict.get (doc_id_of (i + 1)) (compliance_reports after)
     = Some {| compliance_score :=
                 get_default (Doc.overall_compliance_score an) 0%Q;
               issues_count :=
                 get_default (Doc.critical_issues_count an) 0 |}).
Proof.
  intros n before after. subst before after.
  rewrite session_after_some, fold_apply_write. simpl.
  pose proof (keys_writes_from process_document files 0) as Hk.
  pose proof (NoDup_keys_writes_from process_document 0 files) as Hnd.
  rewrite length_writes_from in Hk. fold n in Hk. simpl in Hk.
  split.
  - intros k Hnot. split; apply PyDictFacts.get_update_notin.
    + rewrite keys_document_pairs, Hk. exact Hnot.
    + rewrite keys_report_pairs, Hk. exact Hnot.
  - intros i path md secs an Hi Hp.
    destruct (nth_writes_from files 0 i path Hi) as [w [Hw Hn]].
    unfold stored_of in Hw. rewrite Hp in Hw. injection Hw as <-.
    apply nth_error_In in Hn. simpl in Hn.
    split; apply PyDictFacts.get_update_in.
    + rewrite keys_document_pairs. exact Hnd.
    + unfold document_pairs.
      apply (in_map (fun w => (fst w, fst (snd w)))) in Hn. exact Hn.
    + rewrite keys_report_pairs. exact Hnd.
    + unfold report_pairs.
      apply (in_map (fun w => (fst w, snd (snd w)))) in Hn. exact Hn.
Qed.

End Placement.

(** After a batch of two articles, a batch of a rejected file and a board
    resolution: doc_1 is the board resolution, doc_2 is still the second
    set of articles. *)
Lemma batch_rewrites_leading_keys_witness :
  let a := snd (Demo.process Demo.agent ["articles.docx"; "articles2.docx"]) in
  let after :=
    current_session (snd (Demo.process a ["corrupt.docx"; "board.docx"])) in
  ~ In "doc_2" (map doc_id_of (seq 1 1)) /\
  nth_error (List.filter (accepted Demo.process_document)
                         ["corrupt.docx"; "board.docx"]) 0
  = Some "board.docx" /\
  PyDict.get "doc_2" (documents after)
  = PyDict.get "doc_2" (documents (current_session a)) /\
  (exists d, PyDict.get "doc_1" (documents after) = Some d /\
             file_path d = "board.docx") /\
  PyDict.get "doc_1" (compliance_reports after)
  = Some {| compliance_score := 0%Q; issues_count := 2 |}.
Proof.
  pose proof (batch_rewrites_leading_keys
                Demo.process_document Demo.fmt2f Demo.basename Demo.py_sum
                (snd (Demo.process Demo.agent
                        ["articles.docx"; "articles2.docx"]))
                ["corrupt.docx"; "board.docx"]) as [Hframe Hplace].
  assert (Hnot : ~ In "doc_2" (map doc_id_of (seq 1 1))).
  { vm_compute. intros [H|[]]. discriminate. }
  split; [exact Hnot|]. split; [reflexivity|].
  split; [exact (proj1 (Hframe "doc_2" Hnot))|].
  destruct (Hplace 0 "board.docx"
              (Demo.meta "board.docx" "Board Resolution") []
              {| Doc.overall_compliance_score := Some 0%Q;
                 Doc.critical_issues_count := Some 2 |}
              eq_refl eq_refl) as [Hdoc Hrep].
  split; [eexists; split; [exact Hdoc | reflexivity] | exact Hrep].
Defined.

(** ** What a call returns and what the session then reports *)

Lemma nl_append (z : string) : nl ++ z = String (ascii_of_nat 10) z.
Proof. reflexivity. Qed.

Lemma is_prefix_cancel (a p s : string) :
  is_prefix (a ++ p) (a ++ s) = is_prefix p s.
Proof.
  induction a as [|c a IH]; [reflexivity|].
  rewrite !append_cons. simpl.
  destruct (ascii_dec c c); [exact IH | congruence].
Qed.

Lemma get_of_in {V} (d : PyDict.t V) (k : string) (v : V) :
  List.NoDup (PyDict.keys d) -> In (k, v) d -> PyDict.get k d = Some v.
Proof.
  induction d as [|[k' v'] d IH]; simpl; intros Hnd Hin; [contradiction|].
  inversion Hnd as [|? ? Hnotin Hnd']; subst.
  destruct Hin as [[= -> ->]|Hin].
  - rewrite string_eqb_refl. reflexivity.
  - rewrite string_eqb_neq; [apply IH; assumption|].
    intros ->. apply Hnotin.
    apply (in_map fst) in Hin. exact Hin.
Qed.

Lemma update_is_empty {V} (l : list (string * V)) : forall d,
  PyDict.is_empty (PyDict.update l d) = true -> l = [] /\ d = [].
Proof.
  induction l as [|[k v] l IH]; intros d H.
  - split; [reflexivity | apply PyDictFacts.is_empty_nil; exact H].
  - change (PyDict.update ((k, v) :: l) d)
      with (PyDict.update l (PyDict.set k v d)) in H.
    destruct (IH _ H) as [_ Hset].
    apply PyDictFacts.is_empty_nil in Hset.
    rewrite PyDictFacts.is_empty_set in Hset. discriminate.
Qed.

(** The loops over [documents.items()] when the reports have the keys of
    the documents: the report found for a document is the one at its own
    position. *)
Lemma fold_exc_aligned {A} (reports : PyDict.t ComplianceEntry)
    (g : A -> DocumentEntry -> ComplianceEntry -> A)
    (docs : list (string * DocumentEntry)) :
  forall (reps : list (string * ComplianceEntry)) (acc : A),
  map fst docs = map fst reps ->
  (forall k c, In (k, c) reps -> PyDict.get k reports = Some c) ->
  fold_exc
    (fun acc (it : string * DocumentEntry) =>
       let* c := PyDict.item (fst it) reports in
       Ok (g acc (snd it) c)) docs acc
  = Ok (fold_left (fun acc p => g acc (fst p) (snd p))
                  (combine (map snd docs) (map snd reps)) acc).
Proof.
  induction docs as [|[k d] docs IH]; intros reps acc Hk Hget.
  - reflexivity.
  - destruct reps as [|[k' c] reps]; [discriminate|].
    simpl in Hk. injection Hk as <- Hk. simpl.
    unfold PyDict.item at 1. simpl.
    rewrite (Hget k c) by (left; reflexivity). simpl.
    apply IH; [exact Hk|].
    intros k0 c0 Hin. apply Hget. right. exact Hin.
Qed.

Lemma fold_collect (vd : list DocumentEntry) :
  forall (vr : list ComplianceEntry) (acc : list Q * nat),
  length vd = length vr ->
  fold_left
    (fun (acc : list Q * nat) (p : DocumentEntry * ComplianceEntry) =>
       ((fst acc ++ [compliance_score (snd p)])%list,
        snd acc + issues_count (snd p)))
    (combine vd vr) acc
  = ((fst acc ++ map compliance_score vr)%list,
     fold_left Nat.add (map issues_count vr) (snd acc)).
Proof.
  induction vd as [|d vd IH]; intros vr acc Hlen.
  - destruct vr; [|discriminate]. simpl. rewrite app_nil_r.
    destruct acc; reflexivity.
  - destruct vr as [|c vr]; [discriminate|]. simpl.
    rewrite IH by (simpl in Hlen; lia). simpl.
    rewrite <- app_assoc. reflexivity.
Qed.

Lemma in_combine_left {A B} (x : A) (la : list A) : forall (lb : list B),
  length la = length lb -> In x la -> exists y, In (x, y) (combine la lb).
Proof.
  induction la as [|a la IH]; intros lb Hlen Hin; [contradiction|].
  destruct lb as [|b lb]; [discriminate|]. simpl in *.
  destruct Hin as [->|Hin].
  - exists b. left. reflexivity.
  - destruct (IH lb) as [y Hy]; [lia | exact Hin|]. exists y. right. exact Hy.
Qed.

Lemma NoDup_doc_ids (m : nat) : List.NoDup (map doc_id_of (seq 1 m)).
Proof.
  apply Finite.Injective_map_NoDup; [|apply seq_NoDup].
  intros a b. apply doc_id_of_inj.
Qed.

Section Reports.

Variable process_document :
  string ->
  Exc (Doc.DocumentMetadata * list Doc.DocumentSection * Doc.Analysis).
Variable fmt2f : Q -> string.
Variable basename : string -> string.
Variable py_sum : list Q -> Q.

Local Abbreviation process :=
  (process_uploaded_documents process_document fmt2f basename py_sum).
Local Abbreviation loop := (process_loop process_document basename).
Local Abbreviation reach := (reachable process_document fmt2f basename py_sum).

(** On an agent the program can hold, a loop over the documents finds for
    each document the report stored at the same position. *)
Lemma items_loop_aligned {A} (a : ADGMCorporateAgent)
    (g : A -> DocumentEntry -> ComplianceEntry -> A) (acc : A) :
  reach a ->
  let s := current_session a in
  length (PyDict.values (documents s))
  = length (PyDict.values (compliance_reports s)) /\
  fold_exc
    (fun acc (it : string * DocumentEntry) =>
       let* c := PyDict.item (fst it) (compliance_reports s) in
       Ok (g acc (snd it) c)) (PyDict.items (documents s)) acc
  = Ok (fold_left (fun acc p => g acc (fst p) (snd p))
                  (combine (PyDict.values (documents s))
                           (PyDict.values (compliance_reports s))) acc).
Proof.
  intros Hr s.
  destruct (session_shape process_document fmt2f basename py_sum a Hr)
    as (m & Hd & Hrep & _).
  fold s in Hd, Hrep. split.
  - unfold PyDict.values. rewrite !length_map.
    apply (f_equal (@length string)) in Hd, Hrep.
    unfold PyDict.keys in Hd, Hrep.
    rewrite !length_map in Hd, Hrep. rewrite Hd, Hrep. reflexivity.
  - apply fold_exc_aligned.
    + unfold PyDict.keys in Hd, Hrep. unfold PyDict.items.
      rewrite Hd, Hrep. reflexivity.
    + intros k c Hin. apply get_of_in; [|exact Hin].
      rewrite Hrep. apply NoDup_doc_ids.
Qed.

(** X4: on every agent the program can hold, [process_uploaded_documents]
    returns normally and never with the text of its outer handler: the
    first component is "No files uploaded" or the summary, which does not
    begin with "Error processing documents: ". *)
Theorem process_never_reports_outer_error
    (a : ADGMCorporateAgent) (files : option (list string)) :
  reach a ->
  exists summary detailed recs,
    fst (process a files) = Ok (summary, detailed, recs) /\
    is_prefix "Error processing documents: " summary = false.
Proof.
  intros Hr.
  destruct (reachable_invariant _ _ _ _ a Hr) as (Hc & _ & _).
  destruct files as [[|f fs]|].
  - exists "No files uploaded", "", "". split; reflexivity.
  - destruct (process_returns_summary process_document fmt2f basename py_sum
                a f fs Hc) as [detailed [recs (_ & _ & Hp)]].
    eexists _, detailed, recs. rewrite Hp. split; [reflexivity|].
    unfold render_summary. rewrite fold_append.
    unfold summary_header. rewrite append_assoc, nl_append.
    reflexivity.
  - exists "No files uploaded", "", "". split; reflexivity.
Qed.

(** X5: the numbers of the summary agree with the rows listed under it.
    There is one row per file; [processed_docs] is the number of accepted
    files, which is the number of rows without an error; and [total_issues]
    is the sum of the issue counts of the rows. *)
Theorem summary_counts_match_rows (files : list string) (s : Session) :
  let st := loop files s in
  length (results st) = length files /\
  processed_docs st
  = length (List.filter (accepted process_document) files) /\
  processed_docs st
  = length (List.filter
              (fun r => match r_error r with None => true | Some _ => false end)
              (results st)) /\
  total_issues st = list_sum (map r_issues_count (results st)).
Proof.
  intros st.
  destruct (loop_closed_form process_document basename files s)
    as (Hres & Hn & _ & _ & Hi).
  fold st in Hres, Hn, Hi.
  rewrite Hres, Hn, Hi, length_map, length_writes_from.
  split; [reflexivity|]. split; [reflexivity|]. split.
  - clear. induction files as [|p files IH]; simpl; [reflexivity|].
    unfold accepted at 1, row_of at 1.
    destruct (process_document p) as [[[md secs] an]|e]; simpl;
      rewrite IH; reflexivity.
  - assert (H : forall files n acc,
               fold_left Nat.add
                 (map write_issues (writes_from process_document n files)) acc
               = acc + list_sum
                         (map r_issues_count
                              (map (row_of process_document basename) files))).
    { clear. induction files as [|p files IH]; intros n acc; simpl; [lia|].
      unfold stored_of at 1, row_of at 1.
      destruct (process_document p) as [[[md secs] an]|e]; simpl.
      - rewrite IH. unfold write_issues. simpl. lia.
      - rewrite IH. lia. }
    rewrite H. reflexivity.
Qed.

End Reports.

Lemma process_never_reports_outer_error_witness :
  let a := snd (Demo.process Demo.agent ["articles.docx"]) in
  reachable Demo.process_document Demo.fmt2f Demo.basename Demo.py_sum a /\
  exists summary detailed recs,
    fst (Demo.process a ["corrupt.docx"]) = Ok (summary, detailed, recs) /\
    is_prefix "Error processing documents: " summary = false.
Proof.
  assert (Hr : reachable Demo.process_document Demo.fmt2f Demo.basename
                         Demo.py_sum
                 (snd (Demo.process Demo.agent ["articles.docx"]))).
  { apply reachable_process.
    apply (reachable_init _ _ _ _ (Some "sk-demo") "20250811_101500").
    reflexivity. }
  split; [exact Hr|].
  exact (process_never_reports_outer_error
           Demo.process_document Demo.fmt2f Demo.basename Demo.py_sum
           (snd (Demo.process Demo.agent ["articles.docx"]))
           (Some ["corrupt.docx"]) Hr).
Defined.

Lemma writes_from_nil_iff process_document files : forall n,
  writes_from process_document n files = [] <->
  forall p, In p files -> accepted process_document p = false.
Proof.
  induction files as [|f files IH]; intros n; simpl.
  - split; [intros _ p [] | reflexivity].
  - unfold stored_of at 1.
    destruct (process_document f) as [[[md secs] an]|e] eqn:E.
    + split; [discriminate|]. intros H.
      specialize (H f (or_introl eq_refl)). unfold accepted in H.
      rewrite E in H. discriminate.
    + rewrite IH. split.
      * intros H p [<-|Hp]; [|apply H; exact Hp].
        unfold accepted. rewrite E. reflexivity.
      * intros H p Hp. apply H. right. exact Hp.
Qed.

Section StoredReports.

Variable process_document :
  string ->
  Exc (Doc.DocumentMetadata * list Doc.DocumentSection * Doc.Analysis).
Variable fmt2f : Q -> string.
Variable basename : string -> string.
Variable py_sum : list Q -> Q.

Local Abbreviation process :=
  (process_uploaded_documents process_document fmt2f basename py_sum).
Local Abbreviation loop := (process_loop process_document basename).
Local Abbreviation reach := (reachable process_document fmt2f basename py_sum).

(** X6: on every agent the program can hold whose session has a document,
    the figures behind the recommendations are taken over exactly the
    stored compliance reports: the issue total is the sum of their issue
    counts, and the average is the mean of their scores in stored order. *)
Theorem recommendations_cover_stored_reports (a : ADGMCorporateAgent) :
  reach a ->
  PyDict.is_empty (documents (current_session a)) = false ->
  let s := current_session a in
  let reports := PyDict.values (compliance_reports s) in
  recommendations_of py_sum s
  = Ok (Some {| rec_total_issues :=
                  fold_left Nat.add (map issues_count reports) 0;
                rec_avg_compliance :=
                  mean py_sum (map compliance_score reports);
                rec_missing_docs := missing_docs s |}).
Proof.
  intros Hr Hne s reports. subst s reports.
  destruct (items_loop_aligned process_document fmt2f basename py_sum a
              (fun (acc : list Q * nat) (_ : DocumentEntry) c =>
                 ((fst acc ++ [compliance_score c])%list,
                  snd acc + issues_count c))
              ([], 0) Hr) as [Hlen Hfold].
  cbv zeta in Hlen, Hfold.
  unfold recommendations_of. rewrite Hne.
  unfold collect_compliance. rewrite Hfold.
  rewrite (fold_collect _ _ ([], 0) Hlen). reflexivity.
Qed.

(** X7: a call with a non-empty batch on an agent the program can hold
    returns "No documents processed yet." for the detailed analysis and the
    recommendations exactly when the session held no document before and
    every file of the batch was rejected. *)
Theorem no_documents_text_iff
    (a : ADGMCorporateAgent) (f : string) (fs : list string) :
  reach a ->
  (PyDict.is_empty (documents (current_session a)) = true /\
   forall p, In p (f :: fs) -> accepted process_document p = false)
  <->
  exists summary,
    fst (process a (Some (f :: fs)))
    = Ok (summary, "No documents processed yet.",
          "No documents processed yet.").
Proof.
  intros Hr.
  destruct (reachable_invariant _ _ _ _ a Hr) as (Hc & _ & _).
  destruct (process_returns_summary process_document fmt2f basename py_sum
              a f fs Hc) as [detailed [recs (Hd & Hrec & Hp)]].
  destruct (loop_closed_form process_document basename (f :: fs)
              (current_session a)) as (_ & _ & Hs & _).
  rewrite Hp. rewrite Hs in Hd, Hrec.
  rewrite fold_apply_write in Hd, Hrec.
  split.
  - intros [Hempty Hnone].
    apply (writes_from_nil_iff process_document (f :: fs) 0) in Hnone.
    rewrite Hnone in Hd, Hrec. simpl in Hd, Hrec.
    unfold _generate_detailed_analysis in Hd.
    unfold _generate_recommendations, recommendations_of in Hrec.
    simpl in Hd, Hrec. rewrite Hempty in Hd, Hrec. simpl in Hrec.
    injection Hd as <-. injection Hrec as <-. eexists. reflexivity.
  - intros [summary Hout]. injection Hout as _ _ Hrecs. subst recs.
    destruct (PyDict.is_empty
                (PyDict.update
                   (document_pairs (writes_from process_document 0 (f :: fs)))
                   (documents (current_session a)))) eqn:E.
    + apply update_is_empty in E. destruct E as [Hl Hdocs].
      split; [apply PyDictFacts.is_empty_nil; exact Hdocs|].
      apply (writes_from_nil_iff process_document (f :: fs) 0).
      unfold document_pairs in Hl. apply map_eq_nil in Hl. exact Hl.
    + exfalso. unfold _generate_recommendations, recommendations_of in Hrec.
      cbn [documents] in Hrec. rewrite E in Hrec.
      destruct (collect_compliance _) as [acc|e] in Hrec;
        cbn [bind] in Hrec; [|discriminate].
      injection Hrec as Hrec. unfold render_recommendations in Hrec.
      discriminate Hrec.
Qed.

(** X8: on every agent the program can hold, the detailed analysis has an
    entry for every stored document, also for those of earlier batches: its
    file name as a heading, followed by its document type. *)
Theorem detailed_analysis_lists_every_document
    (a : ADGMCorporateAgent) (d : DocumentEntry) :
  reach a ->
  In d (PyDict.values (documents (current_session a))) ->
  exists text,
    _generate_detailed_analysis fmt2f (current_session a) = Ok text /\
    is_infix
      ("### " ++ Doc.filename (metadata d) ++ nl ++ nl ++
       "**Document Type:** " ++ Doc.document_type (metadata d) ++ nl)
      text = true.
Proof.
  intros Hr Hin.
  destruct (items_loop_aligned process_document fmt2f basename py_sum a
              (fun acc d c => acc ++ detailed_entry fmt2f d c)
              ("## Detailed Document Analysis" ++ nl ++ nl) Hr)
    as [Hlen Hfold].
  cbv zeta in Hlen, Hfold.
  assert (Hne : PyDict.is_empty (documents (current_session a)) = false).
  { destruct (documents (current_session a)); [contradiction | reflexivity]. }
  unfold _generate_detailed_analysis. rewrite Hne, Hfold.
  eexists. split; [reflexivity|].
  destruct (in_combine_left d _ _ Hlen Hin) as [c Hc].
  apply in_split in Hc. destruct Hc as (l1 & l2 & Hsplit).
  rewrite Hsplit.
  rewrite (fold_append (fun p => detailed_entry fmt2f (fst p) (snd p))).
  rewrite fold_right_append_app. simpl.
  apply is_infix_app_r, is_infix_app_r, is_infix_app_l, is_infix_of_prefix.
  unfold detailed_entry. rewrite !is_prefix_cancel. apply is_prefix_app.
Qed.

End StoredReports.

Lemma recommendations_cover_stored_reports_witness :
  let a :=
    snd (Demo.process Demo.agent ["articles.docx"; "corrupt.docx"; "board.docx"]) in
  reachable Demo.process_document Demo.fmt2f Demo.basename Demo.py_sum a /\
  PyDict.is_empty (documents (current_session a)) = false /\
  exists r,
    recommendations_of Demo.py_sum (current_session a) = Ok (Some r) /\
    rec_total_issues r = 2 /\ (rec_avg_compliance r == 1 # 2)%Q.
Proof.
  assert (Hr : reachable Demo.process_document Demo.fmt2f Demo.basename
                         Demo.py_sum
                 (snd (Demo.process Demo.agent
                         ["articles.docx"; "corrupt.docx"; "board.docx"]))).
  { apply reachable_process.
    apply (reachable_init _ _ _ _ (Some "sk-demo") "20250811_101500").
    reflexivity. }
  split; [exact Hr|]. split; [reflexivity|].
  eexists. split.
  - exact (recommendations_cover_stored_reports
             Demo.process_document Demo.fmt2f Demo.basename
             Demo.py_sum _ Hr eq_refl).
  - split; reflexivity.
Defined.

Lemma no_documents_text_iff_witness :
  reachable Demo.process_document Demo.fmt2f Demo.basename
            Demo.py_sum Demo.agent /\
  (PyDict.is_empty (documents (current_session Demo.agent)) = true /\
   forall p, In p ["corrupt.docx"; "missing.docx"] ->
             accepted Demo.process_document p = false) /\
  exists summary,
    fst (Demo.process Demo.agent ["corrupt.docx"; "missing.docx"])
    = Ok (summary, "No documents processed yet.",
          "No documents processed yet.").
Proof.
  assert (Hr : reachable Demo.process_document Demo.fmt2f Demo.basename
                         Demo.py_sum
                 Demo.agent).
  { apply (reachable_init _ _ _ _ (Some "sk-demo") "20250811_101500").
    reflexivity. }
  assert (Hnone : PyDict.is_empty (documents (current_session Demo.agent))
                  = true /\
                  forall p, In p ["corrupt.docx"; "missing.docx"] ->
                            accepted Demo.process_document p = false).
  { split; [reflexivity|]. intros p [<-|[<-|[]]]; reflexivity. }
  split; [exact Hr|]. split; [exact Hnone|].
  exact (proj1 (no_documents_text_iff
                  Demo.process_document Demo.fmt2f Demo.basename Demo.py_sum
                  Demo.agent "corrupt.docx" ["missing.docx"] Hr) Hnone).
Defined.

Lemma detailed_analysis_lists_every_document_witness :
  let a :=
    snd (Demo.process
           (snd (Demo.process Demo.agent ["articles.docx"; "articles2.docx"]))
           ["board.docx"]) in
  reachable Demo.process_document Demo.fmt2f Demo.basename Demo.py_sum a /\
  (exists d, In d (PyDict.values (documents (current_session a))) /\
             Doc.filename (metadata d) = "articles2.docx") /\
  exists text,
    _generate_detailed_analysis Demo.fmt2f (current_session a) = Ok text /\
    is_infix
      ("### articles2.docx" ++ nl ++ nl ++
       "**Document Type:** Articles of Association" ++ nl) text = true.
Proof.
  set (d := {| metadata := Demo.meta "articles2.docx" "Articles of Association";
               sections := [Demo.clause];
               analysis := {| Doc.overall_compliance_score := Some 1%Q;
                              Doc.critical_issues_count := Some 0 |};
               file_path := "articles2.docx" |}).
  assert (Hr : reachable Demo.process_document Demo.fmt2f Demo.basename
                         Demo.py_sum
                 (snd (Demo.process
                         (snd (Demo.process Demo.agent
                                 ["articles.docx"; "articles2.docx"]))
                         ["board.docx"]))).
  { do 2 apply reachable_process.
    apply (reachable_init _ _ _ _ (Some "sk-demo") "20250811_101500").
    reflexivity. }
  assert (Hin : In d (PyDict.values
                        (documents
                           (current_session
                              (snd (Demo.process
                                      (snd (Demo.process Demo.agent
                                              ["articles.docx";
                                               "articles2.docx"]))
                                      ["board.docx"])))))).
  { right. left. reflexivity. }
  split; [exact Hr|]. split; [exists d; split; [exact Hin | reflexivity]|].
  exact (detailed_analysis_lists_every_document
           Demo.process_document Demo.fmt2f Demo.basename
           Demo.py_sum _ d Hr Hin).
Defined.

(** ** Questions: blank input, failures, and the sources shown *)

Section QuestionEdges.

Variable retrieve_relevant_context : string -> nat -> Exc (list RAG.Source).
Variable generate_response :
  string -> list RAG.Source -> Exc RAG.RAGResponse.
Variable fmt2f : Q -> string.

(** X9: [ask_adgm_question] never raises, whatever the RAG system does. It
    answers a question of white space only (the white space of
    [str.strip()], in and outside ASCII) with the request to enter a
    question; it turns an exception of the retrieval, or of the response
    generation on a non-empty context, into the text
    "Error processing question: " followed by the message of the
    exception; otherwise it formats the generated response. *)
Theorem ask_question_edges (question : string) :
  let ask :=
    ask_adgm_question retrieve_relevant_context generate_response fmt2f in
  (exists text, ask question = Ok text) /\
  (is_blank question = true ->
   ask question
   = Ok "Please enter a question about ADGM compliance or regulations.") /\
  (forall e,
     is_blank question = false ->
     retrieve_relevant_context question 5 = Raise e ->
     ask question = Ok ("Error processing question: " ++ str_exc e)) /\
  (forall c ctx e,
     is_blank question = false ->
     retrieve_relevant_context question 5 = Ok (c :: ctx) ->
     generate_response question (c :: ctx) = Raise e ->
     ask question = Ok ("Error processing question: " ++ str_exc e)) /\
  (forall c ctx r,
     is_blank question = false ->
     retrieve_relevant_context question 5 = Ok (c :: ctx) ->
     generate_response question (c :: ctx) = Ok r ->
     ask question = Ok (format_response fmt2f question r)).
Proof.
  intros ask. unfold ask, ask_adgm_question. repeat split.
  - destruct (is_blank question); [eexists; reflexivity|].
    destruct (retrieve_relevant_context question 5) as [[|c ctx]|e];
      try (eexists; reflexivity).
    cbn [bind]. destruct (generate_response question (c :: ctx));
      eexists; reflexivity.
  - intros ->. reflexivity.
  - intros e -> ->. reflexivity.
  - intros c ctx e -> -> Hg. cbn [bind]. rewrite Hg. reflexivity.
  - intros c ctx r -> -> Hg. cbn [bind]. rewrite Hg. reflexivity.
Qed.

(** X10: the answer text lists at most three sources: it is the same text
    for a response with the sources cut after the third one, so a fourth
    and later source never shows. *)
Theorem answer_shows_three_sources (question : string) (r : RAG.RAGResponse) :
  let cut :=
    {| RAG.answer := RAG.answer r;
       RAG.confidence_score := RAG.confidence_score r;
       RAG.adgm_references := RAG.adgm_references r;
       RAG.related_topics := RAG.related_topics r;
       RAG.sources := firstn 3 (RAG.sources r) |} in
  format_response fmt2f question r = format_response fmt2f question cut.
Proof.
  intros cut. unfold format_response, cut, bullet_block. simpl.
  rewrite firstn_firstn. simpl.
  destruct (RAG.sources r) as [|s1 l]; reflexivity.
Qed.

End QuestionEdges.

Lemma ask_question_edges_witness :
  let failing (question : string) (k : nat) : Exc (list RAG.Source) :=
    Raise (RuntimeError "vector store not loaded") in
  let spaces := " " ++ utf8 [194; 160] ++ nl ++ utf8 [226; 128; 131] in
  is_blank spaces = true /\
  is_blank "What is ADGM?" = false /\
  ask_adgm_question failing Demo.generate_response Demo.fmt2f spaces
  = Ok "Please enter a question about ADGM compliance or regulations." /\
  ask_adgm_question failing Demo.generate_response Demo.fmt2f "What is ADGM?"
  = Ok "Error processing question: vector store not loaded".
Proof.
  intros failing spaces.
  destruct (ask_question_edges failing Demo.generate_response Demo.fmt2f
              spaces) as (_ & Hblank & _).
  destruct (ask_question_edges failing Demo.generate_response Demo.fmt2f
              "What is ADGM?") as (_ & _ & Hfail & _).
  split; [reflexivity|]. split; [reflexivity|].
  split; [exact (Hblank eq_refl)|].
  exact (Hfail (RuntimeError "vector store not loaded") eq_refl eq_refl).
Defined.

Lemma session_keys_are_numbered_witness :
  let a :=
    snd (Demo.process Demo.agent ["articles.docx"; "corrupt.docx"; "board.docx"]) in
  reachable Demo.process_document Demo.fmt2f Demo.basename Demo.py_sum a /\
  PyDict.keys (documents (current_session a)) = ["doc_1"; "doc_2"] /\
  exists m,
    PyDict.keys (documents (current_session a)) = map doc_id_of (seq 1 m) /\
    PyDict.keys (compliance_reports (current_session a))
    = map doc_id_of (seq 1 m) /\
    PyDict.keys (documents (current_session a))
    = PyDict.keys (compliance_reports (current_session a)) /\
    analysis_results (current_session a) = PyDict.empty.
Proof.
  assert (Hr : reachable Demo.process_document Demo.fmt2f Demo.basename
                         Demo.py_sum
                 (snd (Demo.process Demo.agent
                         ["articles.docx"; "corrupt.docx"; "board.docx"]))).
  { apply reachable_process.
    apply (reachable_init _ _ _ _ (Some "sk-demo") "20250811_101500").
    reflexivity. }
  split; [exact Hr|]. split; [reflexivity|].
  exact (session_keys_are_numbered
           Demo.process_document Demo.fmt2f Demo.basename Demo.py_sum _ Hr).
Defined.

Lemma stored_count_after_batch_witness :
  let a := snd (Demo.process Demo.agent ["articles.docx"; "articles2.docx"]) in
  let after := current_session (snd (Demo.process a ["board.docx"])) in
  reachable Demo.process_document Demo.fmt2f Demo.basename Demo.py_sum a /\
  length (documents (current_session a)) = 2 /\
  length (List.filter (accepted Demo.process_document) ["board.docx"]) = 1 /\
  length (documents after) = Nat.max 2 1 /\
  length (compliance_reports after) = Nat.max 2 1.
Proof.
  assert (Hr : reachable Demo.process_document Demo.fmt2f Demo.basename
                         Demo.py_sum
                 (snd (Demo.process Demo.agent
                         ["articles.docx"; "articles2.docx"]))).
  { apply reachable_process.
    apply (reachable_init _ _ _ _ (Some "sk-demo") "20250811_101500").
    reflexivity. }
  split; [exact Hr|]. split; [reflexivity|]. split; [reflexivity|].
  exact (stored_count_after_batch
           Demo.process_document Demo.fmt2f Demo.basename
           Demo.py_sum _ ["board.docx"] Hr).
Defined.

(** ** The export button and the dashboard text *)

Section ExportButton.

Variable process_document :
  string ->
  Exc (Doc.DocumentMetadata * list Doc.DocumentSection * Doc.Analysis).
Variable fmt2f : Q -> string.
Variable basename : string -> string.
Variable py_sum : list Q -> Q.

(** X11: on every agent the program can hold, the Export Results button
    never offers a file, whatever the format: [export_with_file_output]
    returns [None] for the file, with the text "No documents to export" on
    an empty session and the text of the missing attribute otherwise. *)
Theorem export_button_never_offers_file
    (a : ADGMCorporateAgent) (format_choice : string) :
  reachable process_document fmt2f basename py_sum a ->
  export_with_file_output a format_choice
  = Ok (if PyDict.is_empty (documents (current_session a))
        then "No documents to export"
        else "Export failed: 'ADGMCorporateAgent' object has no attribute 'export_manager'",
        None).
Proof.
  intros Hr.
  destruct (reachable_invariant _ _ _ _ a Hr) as (_ & _ & He).
  unfold export_with_file_output, export_results. rewrite He.
  destruct (PyDict.is_empty (documents (current_session a))); reflexivity.
Qed.

(** X12: the dashboard text does not show a severity whose count is zero:
    it is the same text when the entries with a zero count are removed
    from the severity distribution. *)
Theorem analytics_hides_zero_severities (an : Analytics.t) :
  let shown :=
    {| Analytics.summary_stats := Analytics.summary_stats an;
       Analytics.document_type_counts := Analytics.document_type_counts an;
       Analytics.severity_distribution :=
         List.filter (fun it : string * nat => (0 <? snd it)%nat)
                     (Analytics.severity_distribution an);
       Analytics.performance_metrics := Analytics.performance_metrics an |} in
  format_analytics fmt2f an = format_analytics fmt2f shown.
Proof.
  intros shown. unfold format_analytics, shown. cbn [Analytics.summary_stats
    Analytics.document_type_counts Analytics.severity_distribution
    Analytics.performance_metrics].
  assert (Hany : forall d : PyDict.t nat,
             existsb (fun c => (0 <? c)%nat) (PyDict.values d)
             = existsb (fun c => (0 <? c)%nat)
                 (PyDict.values
                    (List.filter
                       (fun it : string * nat => (0 <? snd it)%nat) d))).
  { unfold PyDict.values. induction d as [|[k c] d IH]; [reflexivity|].
    cbn [List.filter map existsb snd].
    destruct (0 <? c)%nat eqn:E; cbn [map existsb snd]; rewrite ?E;
      [reflexivity | exact IH]. }
  assert (Hfold : forall (d : PyDict.t nat) acc,
             fold_left
               (fun acc (it : string * nat) =>
                  if (0 <? snd it)%nat
                  then acc ++ "- " ++ title (fst it) ++ ": "
                           ++ pretty (snd it) ++ nl
                  else acc)
               (PyDict.items d) acc
             = fold_left
                 (fun acc (it : string * nat) =>
                    if (0 <? snd it)%nat
                    then acc ++ "- " ++ title (fst it) ++ ": "
                             ++ pretty (snd it) ++ nl
                    else acc)
                 (PyDict.items
                    (List.filter
                       (fun it : string * nat => (0 <? snd it)%nat) d)) acc).
  { unfold PyDict.items. induction d as [|[k c] d IH]; intros acc;
      [reflexivity|].
    cbn [List.filter fold_left snd fst].
    destruct (0 <? c)%nat eqn:E; cbn [fold_left snd fst]; rewrite ?E;
      apply IH. }
  rewrite <- Hany, <- Hfold. reflexivity.
Qed.

End ExportButton.

Lemma export_button_never_offers_file_witness :
  let a := snd (Demo.process Demo.agent ["articles.docx"]) in
  reachable Demo.process_document Demo.fmt2f Demo.basename Demo.py_sum a /\
  export_with_file_output a "pdf"
  = Ok ("Export failed: 'ADGMCorporateAgent' object has no attribute 'export_manager'",
        None).
Proof.
  assert (Hr : reachable Demo.process_document Demo.fmt2f Demo.basename
                         Demo.py_sum
                 (snd (Demo.process Demo.agent ["articles.docx"]))).
  { apply reachable_process.
    apply (reachable_init _ _ _ _ (Some "sk-demo") "20250811_101500").
    reflexivity. }
  split; [exact Hr|].
  exact (export_button_never_offers_file
           Demo.process_document Demo.fmt2f Demo.basename
           Demo.py_sum _ "pdf" Hr).
Defined.

(** ** The launch: [run.py] and [main] of [app.py] *)

Section LaunchFacts.

Variable py_int : string -> Exc Z.

(** X13: the launch configuration that [main] of [app.py] builds in the
    environment that [run_gradio_app] prepares. The port is read back from
    the text written for it; [share] is [False] whatever was asked on the
    command line; [debug] is on when the debug flag was given, and
    otherwise follows the [DEBUG_MODE] that the environment already had. *)
Theorem gradio_launch_configuration
    (env : PyDict.t string) (port : option Z) (debug_flag : bool) :
  launch_config py_int (Run.gradio_environment env port debug_flag)
  = let* p := py_int (Run.str_port port) in
    Ok {| server_name := "0.0.0.0";
          server_port := p;
          share := false;
          debug :=
            debug_flag
            || string_eqb
                 (lower (get_default (getenv env "DEBUG_MODE") "False"))
                 "true";
          show_error := true;
          quiet := false |}.
Proof.
  unfold launch_config, Run.gradio_environment, getenv.
  destruct debug_flag.
  - rewrite PyDictFacts.get_set_eq.
    rewrite PyDictFacts.get_set_ne by discriminate.
    rewrite PyDictFacts.get_set_eq. reflexivity.
  - rewrite PyDictFacts.get_set_eq.
    rewrite PyDictFacts.get_set_ne by discriminate. reflexivity.
Qed.

End LaunchFacts.

Section RunFacts.

Variable setup_directories : Exc unit.
Variable check_requirements : bool.
Variable gradio_main : PyDict.t string -> Exc unit.
Variable subprocess_run : list string -> Exc unit.
Variable sys_executable : string.
Variable cli_session : Exc unit.

(** X14: the exit code of [main] of [run.py] only tells whether the checks
    passed. Once the directories are set up, it is 0 when the requirements
    and the API key are there and 1 otherwise: an interface that fails to
    start or stops with an exception still ends in exit code 0. An
    interface is started exactly when the checks passed and [--setup-only]
    was not given. *)
Theorem run_exit_code (env : PyDict.t string) (args : Run.Args) :
  setup_directories = Ok tt ->
  let result :=
    Run.main setup_directories check_requirements gradio_main
             subprocess_run sys_executable cli_session env args in
  fst result
  = Ok (if check_requirements && Run.check_api_key env then 0%Z else 1%Z) /\
  (snd result <> None <->
   check_requirements && Run.check_api_key env
   && negb (Run.setup_only args) = true).
Proof.
  intros Hsetup result. unfold result, Run.main. rewrite Hsetup.
  destruct check_requirements; simpl;
    [|split; [reflexivity | split; [congruence | discriminate]]].
  destruct (Run.check_api_key env); simpl;
    [|split; [reflexivity | split; [congruence | discriminate]]].
  destruct (Run.setup_only args); simpl;
    [split; [reflexivity | split; [congruence | discriminate]]|].
  destruct (Run.interface args); simpl.
  - unfold Run.run_gradio_app.
    destruct (gradio_main _); simpl;
      (split; [reflexivity | split; [reflexivity | discriminate]]).
  - unfold Run.run_streamlit_app.
    destruct (subprocess_run _); simpl;
      (split; [reflexivity | split; [reflexivity | discriminate]]).
  - unfold Run.run_cli_mode.
    destruct cli_session; simpl;
      (split; [reflexivity | split; [reflexivity | discriminate]]).
Qed.

(** X15: when [main] of [run.py] starts the Gradio interface, the port it
    passes is a number, 7860 unless [--port] was given, so the text that
    [run_gradio_app] writes to [GRADIO_PORT] is that number and never the
    text of [None]; the Streamlit interface gets 8501 unless [--port] was
    given. *)
Theorem run_started_port
    (env : PyDict.t string) (args : Run.Args) (started : Run.Started) :
  snd (Run.main setup_directories check_requirements gradio_main
                subprocess_run sys_executable cli_session env args)
  = Some started ->
  match started with
  | Run.StartedGradio p s d =>
      p = Some (get_default (Run.port args) 7860%Z) /\
      s = Run.share args /\ d = Run.debug args /\
      getenv (Run.gradio_environment env p d) "GRADIO_PORT"
      = Some (pretty (get_default (Run.port args) 7860%Z))
  | Run.StartedStreamlit p =>
      p = Some (get_default (Run.port args) 8501%Z)
  | Run.StartedCli => Run.interface args = Run.Cli
  end.
Proof.
  unfold Run.main.
  destruct setup_directories; [|discriminate].
  destruct (negb check_requirements); [discriminate|].
  destruct (negb (Run.check_api_key env)); [discriminate|].
  destruct (Run.setup_only args); [discriminate|].
  unfold Run.chosen_port.
  destruct (Run.interface args) eqn:Ei; simpl; intros [= <-].
  - assert (Henv : forall p : Z,
               getenv (Run.gradio_environment env (Some p) (Run.debug args))
                      "GRADIO_PORT" = Some (pretty p)).
    { intros p. unfold Run.gradio_environment, getenv.
      destruct (Run.debug args).
      - rewrite PyDictFacts.get_set_ne by discriminate.
        rewrite PyDictFacts.get_set_eq. reflexivity.
      - rewrite PyDictFacts.get_set_eq. reflexivity. }
    destruct (Run.port args) as [p|]; cbn [get_default];
      repeat split; apply Henv.
  - destruct (Run.port args); reflexivity.
  - reflexivity.
Qed.

End RunFacts.

Lemma run_exit_code_witness :
  let failing (env : PyDict.t string) : Exc unit :=
    Raise (RuntimeError "address already in use") in
  let args :=
    {| Run.interface := Run.Gradio; Run.port := None; Run.share := true;
       Run.debug := false; Run.setup_only := false |} in
  let result :=
    Run.main (Ok tt) true failing (fun _ => Ok tt) "python3" (Ok tt)
             [("OPENAI_API_KEY", "sk-demo")] args in
  fst result = Ok 0%Z /\ snd result <> None.
Proof.
  intros failing args result.
  destruct (run_exit_code (Ok tt) true failing (fun _ => Ok tt) "python3"
              (Ok tt) [("OPENAI_API_KEY", "sk-demo")] args eq_refl)
    as [Hcode Hstarted].
  split; [exact Hcode | apply Hstarted; reflexivity].
Defined.

Lemma run_started_port_witness :
  let args :=
    {| Run.interface := Run.Gradio; Run.port := None; Run.share := true;
       Run.debug := true; Run.setup_only := false |} in
  let env : PyDict.t string := [("OPENAI_API_KEY", "sk-demo")] in
  snd (Run.main (Ok tt) true (fun _ => Ok tt) (fun _ => Ok tt) "python3"
                (Ok tt) env args)
  = Some (Run.StartedGradio (Some 7860%Z) true true) /\
  getenv (Run.gradio_environment env (Some 7860%Z) true) "GRADIO_PORT"
  = Some "7860".
Proof.
  intros args env. split; [reflexivity|].
  exact (proj2 (proj2 (proj2
           (run_started_port (Ok tt) true (fun _ => Ok tt) (fun _ => Ok tt)
              "python3" (Ok tt) env args
              (Run.StartedGradio (Some 7860%Z) true true) eq_refl)))).
Defined.

(** ** The Streamlit page: what is stored and what is shown *)

Lemma find_filter_head {A} (p : A -> bool) (l : list A) (x : A) :
  find p l = Some x -> exists l', List.filter p l = x :: l'.
Proof.
  induction l as [|y l IH]; simpl; [discriminate|].
  destruct (p y) eqn:E.
  - intros [= ->]. eexists. reflexivity.
  - exact IH.
Qed.

Lemma filter_all {A} (p : A -> bool) (l : list A) :
  forallb p l = true -> List.filter p l = l.
Proof.
  induction l as [|y l IH]; simpl; [reflexivity|].
  intros H. apply andb_true_iff in H as [Hy Hl].
  rewrite Hy, (IH Hl). reflexivity.
Qed.

Section PageFacts.

Variable process_document :
  string ->
  Exc (Doc.DocumentMetadata * list Doc.DocumentSection * Doc.Analysis).
Variable check_compliance :
  Doc.DocumentMetadata -> list Doc.DocumentSection -> Doc.Analysis ->
  Exc Streamlit.ComplianceReport.
Variable detect_red_flags :
  Doc.DocumentMetadata -> list Doc.DocumentSection -> Doc.Analysis ->
  Exc (list Streamlit.RedFlag).
Variable fmt2f : Q -> string.

Local Abbreviation ok :=
  (Streamlit.succeeded process_document check_compliance detect_red_flags).
Local Abbreviation stored :=
  (report_of process_document check_compliance detect_red_flags).
Local Abbreviation step :=
  (Streamlit.process_file process_document check_compliance
                          detect_red_flags).
Local Abbreviation run :=
  (Streamlit.process_from process_document check_compliance
                          detect_red_flags).
Local Abbreviation shown_detail := (StreamlitView.shown_detail fmt2f).

Lemma succeeded_report_of (f : Streamlit.Upload) :
  ok f = true <-> exists e, stored f = Some e.
Proof.
  unfold Streamlit.succeeded, report_of.
  destruct (process_document _) as [[[md secs] an]|e].
  - destruct (check_compliance md secs an), (detect_red_flags md secs an);
      split; try discriminate; try (intros [x H]; discriminate);
      intros _; try reflexivity; eexists; reflexivity.
  - split; [discriminate | intros [x H]; discriminate].
Qed.

(** One pass of the loop body on the reports: the entry of the file under
    its key when the three calls return, nothing otherwise. *)
Lemma reports_process_file (st : Streamlit.PageState) (i : nat)
    (f : Streamlit.Upload) :
  Streamlit.compliance_reports (step st i f)
  = match stored f with
    | Some e =>
        PyDict.set (doc_id_of (i + 1)) e (Streamlit.compliance_reports st)
    | None => Streamlit.compliance_reports st
    end.
Proof.
  unfold Streamlit.process_file, report_of.
  destruct (process_document _) as [[[md secs] an]|e]; [|reflexivity].
  destruct (check_compliance md secs an); [|reflexivity].
  destruct (detect_red_flags md secs an); reflexivity.
Qed.

(** A key that no successful file of the run is stored under keeps its
    report. *)
Lemma reports_frame (files : list Streamlit.Upload) : forall i st k,
  (forall j f, nth_error files j = Some f -> ok f = true ->
               k <> doc_id_of (i + j + 1)) ->
  PyDict.get k (Streamlit.compliance_reports (run i files st))
  = PyDict.get k (Streamlit.compliance_reports st).
Proof.
  induction files as [|f files IH]; intros i st k Hk; [reflexivity|].
  cbn [Streamlit.process_from].
  rewrite IH.
  - rewrite reports_process_file.
    destruct (stored f) as [e|] eqn:E; [|reflexivity].
    apply PyDictFacts.get_set_ne.
    intros Heq. apply (Hk 0 f eq_refl).
    + apply succeeded_report_of. exists e. exact E.
    + rewrite Nat.add_0_r. symmetry. exact Heq.
  - intros j g Hj Hg.
    replace (S i + j + 1) with (i + S j + 1) by lia.
    apply (Hk (S j) g); assumption.
Qed.

(** The report of a successful file is found under the key of its
    position. *)
Lemma reports_hit (files : list Streamlit.Upload) : forall i st j f e,
  nth_error files j = Some f -> stored f = Some e ->
  PyDict.get (doc_id_of (i + j + 1))
             (Streamlit.compliance_reports (run i files st))
  = Some e.
Proof.
  induction files as [|g files IH]; intros i st j f e Hj He;
    [destruct j; discriminate|].
  cbn [Streamlit.process_from].
  destruct j as [|j].
  - injection Hj as ->.
    rewrite reports_frame.
    + rewrite reports_process_file, He, Nat.add_0_r.
      apply PyDictFacts.get_set_eq.
    + intros j g _ _ Heq. apply doc_id_of_inj in Heq. lia.
  - replace (i + S j + 1) with (S i + j + 1) by lia.
    apply (IH (S i) _ j f e Hj He).
Qed.

Lemma length_results_run (files : list Streamlit.Upload) i st :
  length (Streamlit.results (run i files st))
  = length (Streamlit.results st) + length (List.filter ok files).
Proof.
  pose proof (page_loop_closed_form process_document check_compliance
                detect_red_flags files i st) as [H _].
  apply (f_equal (@length string)) in H.
  rewrite length_app, !length_map in H. exact H.
Qed.

(** The display loop up to row [j], when the rows before it find their
    report. *)
Lemma show_details_at (rows : list Streamlit.Row)
    (reports : PyDict.t Streamlit.ReportEntry) : forall i j r,
  (forall j', j' < j ->
              exists e, PyDict.get (doc_id_of (i + j' + 1)) reports = Some e) ->
  nth_error rows j = Some r ->
  let shown := StreamlitView.show_details fmt2f i rows reports in
  match PyDict.get (doc_id_of (i + j + 1)) reports with
  | Some e =>
      nth_error (fst shown) j
      = Some (shown_detail r
                (StreamlitView.written_for (Streamlit.red_flags e)))
  | None =>
      nth_error (fst shown) j = Some (shown_detail r []) /\
      length (fst shown) = j + 1 /\
      snd shown = Raise (KeyError (doc_id_of (i + j + 1)))
  end.
Proof.
  induction rows as [|r0 rows IH]; intros i j r Hpre Hj;
    [destruct j; discriminate|].
  destruct j as [|j].
  - injection Hj as ->. cbn [StreamlitView.show_details].
    rewrite Nat.add_0_r. unfold PyDict.item.
    destruct (PyDict.get (doc_id_of (i + 1)) reports) as [e|];
      [reflexivity | repeat split].
  - cbn [StreamlitView.show_details]. unfold PyDict.item.
    destruct (Hpre 0 ltac:(lia)) as [e0 He0].
    rewrite Nat.add_0_r in He0. rewrite He0.
    replace (i + S j + 1) with (S i + j + 1) by lia.
    specialize (IH (S i) j r).
    cbn zeta in IH.
    assert (Hpre' : forall j', j' < j ->
              exists e,
                PyDict.get (doc_id_of (S i + j' + 1)) reports = Some e).
    { intros j' Hlt. replace (S i + j' + 1) with (i + S j' + 1) by lia.
      apply Hpre. lia. }
    specialize (IH Hpre' Hj).
    destruct (PyDict.get (doc_id_of (S i + j + 1)) reports) as [e|].
    + exact IH.
    + destruct IH as (Hn & Hl & Hs). cbn [fst snd nth_error length].
      repeat split; [exact Hn | rewrite Hl; lia | exact Hs].
Qed.

(** The display loop when every row finds its report. *)
Lemma show_details_ok (rows : list Streamlit.Row)
    (reports : PyDict.t Streamlit.ReportEntry) : forall i,
  (forall j, j < length rows ->
             exists e, PyDict.get (doc_id_of (i + j + 1)) reports = Some e) ->
  let shown := StreamlitView.show_details fmt2f i rows reports in
  snd shown = Ok tt /\ length (fst shown) = length rows.
Proof.
  induction rows as [|r rows IH]; intros i Hall; [split; reflexivity|].
  cbn [StreamlitView.show_details]. unfold PyDict.item.
  destruct (Hall 0 ltac:(simpl; lia)) as [e0 He0].
  rewrite Nat.add_0_r in He0. rewrite He0.
  destruct (IH (S i)) as [Hs Hl].
  { intros j Hlt. replace (S i + j + 1) with (i + S j + 1) by lia.
    apply Hall. simpl. lia. }
  cbn [fst snd length]. split; [exact Hs | rewrite Hl; reflexivity].
Qed.

(** X16: on the Streamlit page every compliance report belongs to a stored
    document: when the keys of the reports are among the keys of the
    documents before a run, they are so after it. *)
Theorem page_reports_have_documents
    (files : list Streamlit.Upload) (st : Streamlit.PageState) :
  incl (PyDict.keys (Streamlit.compliance_reports st))
       (PyDict.keys (Streamlit.documents st)) ->
  let st' :=
    Streamlit.process_documents process_document check_compliance
                                detect_red_flags files st in
  incl (PyDict.keys (Streamlit.compliance_reports st'))
       (PyDict.keys (Streamlit.documents st')).
Proof.
  intros Hincl st'. unfold st', Streamlit.process_documents.
  set (st0 := {| Streamlit.documents := Streamlit.documents st;
                 Streamlit.compliance_reports :=
                   Streamlit.compliance_reports st;
                 Streamlit.results := [];
                 Streamlit.errors := [] |}).
  assert (H0 : incl (PyDict.keys (Streamlit.compliance_reports st0))
                    (PyDict.keys (Streamlit.documents st0))) by exact Hincl.
  clearbody st0. clear Hincl st'. generalize 0.
  revert st0 H0. induction files as [|f files IH]; intros st0 H0 i;
    [exact H0|].
  cbn [Streamlit.process_from]. apply IH. clear IH.
  unfold Streamlit.process_file.
  destruct (process_document _) as [[[md secs] an]|e]; [|exact H0].
  assert (H1 : incl (PyDict.keys (Streamlit.compliance_reports st0))
                    (PyDict.keys
                       (PyDict.set (doc_id_of (i + 1))
                          {| metadata := md; sections := secs;
                             analysis := an;
                             file_path := Streamlit.temp_file f |}
                          (Streamlit.documents st0)))).
  { intros k Hk. apply PyDictFacts.in_keys_set. right. apply H0. exact Hk. }
  destruct (check_compliance md secs an); [|exact H1].
  destruct (detect_red_flags md secs an); [|exact H1].
  cbn [Streamlit.compliance_reports Streamlit.documents].
  intros k Hk. apply PyDictFacts.in_keys_set in Hk as [->|Hk].
  - apply PyDictFacts.in_keys_set. left. reflexivity.
  - apply H1. exact Hk.
Qed.

(** X17: every row of the results table counts at most as many critical
    issues as issues, and the table has one row for each upload whose three
    calls return. *)
Theorem page_rows_count_issues
    (files : list Streamlit.Upload) (st : Streamlit.PageState) :
  let st' :=
    Streamlit.process_documents process_document check_compliance
                                detect_red_flags files st in
  Forall (fun r => Streamlit.critical_issues r <= Streamlit.issues_count r)
         (Streamlit.results st') /\
  length (Streamlit.results st') = length (List.filter ok files).
Proof.
  intros st'. split.
  - unfold st', Streamlit.process_documents.
    set (st0 := {| Streamlit.documents := Streamlit.documents st;
                   Streamlit.compliance_reports :=
                     Streamlit.compliance_reports st;
                   Streamlit.results := [];
                   Streamlit.errors := [] |}).
    assert (H0 : Forall (fun r => Streamlit.critical_issues r
                                  <= Streamlit.issues_count r)
                        (Streamlit.results st0)) by constructor.
    clearbody st0. generalize 0.
    revert st0 H0. induction files as [|f files IH]; intros st0 H0 i;
      [exact H0|].
    cbn [Streamlit.process_from]. apply IH. clear IH.
    unfold Streamlit.process_file.
    destruct (process_document _) as [[[md secs] an]|e]; [|exact H0].
    destruct (check_compliance md secs an); [|exact H0].
    destruct (detect_red_flags md secs an) as [flags|]; [|exact H0].
    cbn [Streamlit.results]. apply Forall_app. split; [exact H0|].
    constructor; [|constructor].
    cbn [Streamlit.critical_issues Streamlit.issues_count].
    unfold Streamlit.count_critical. apply List.filter_length_le.
  - unfold st', Streamlit.process_documents.
    rewrite length_results_run. reflexivity.
Qed.

(** X18: when the three calls return for every upload of a run, the
    display loop ends without an error and shows one expander per upload,
    in order; the expander of an upload carries its file name and the red
    flags that were found in this very upload, whatever the page held
    before. *)
Theorem page_shows_own_flags
    (files : list Streamlit.Upload) (st : Streamlit.PageState) :
  forallb ok files = true ->
  let shown :=
    StreamlitView.show_results fmt2f
      (Streamlit.process_documents process_document check_compliance
                                   detect_red_flags files st) in
  snd shown = None /\
  length (fst shown) = length files /\
  forall i f e,
    nth_error files i = Some f -> stored f = Some e ->
    exists d,
      nth_error (fst shown) i = Some d /\
      StreamlitView.expander d = "📄 " ++ Streamlit.name f /\
      StreamlitView.written d
      = StreamlitView.written_for (Streamlit.red_flags e).
Proof.
  intros Hall shown. unfold shown, StreamlitView.show_results.
  unfold Streamlit.process_documents.
  set (st0 := {| Streamlit.documents := Streamlit.documents st;
                 Streamlit.compliance_reports :=
                   Streamlit.compliance_reports st;
                 Streamlit.results := [];
                 Streamlit.errors := [] |}).
  pose proof (page_loop_closed_form process_document check_compliance
                detect_red_flags files 0 st0) as [Hnames _].
  cbn zeta in Hnames.
  rewrite (filter_all _ _ Hall) in Hnames. simpl in Hnames.
  assert (Hlen : length (Streamlit.results (run 0 files st0))
                 = length files).
  { apply (f_equal (@length string)) in Hnames.
    rewrite !length_map in Hnames. exact Hnames. }
  assert (Hfound : forall j, j < length files ->
            exists e,
              PyDict.get (doc_id_of (0 + j + 1))
                (Streamlit.compliance_reports (run 0 files st0)) = Some e).
  { intros j Hj. destruct (nth_error files j) as [f|] eqn:Ef.
    - assert (Hok : ok f = true).
      { rewrite forallb_forall in Hall. apply Hall.
        eapply nth_error_In. exact Ef. }
      apply succeeded_report_of in Hok as [e He].
      exists e. eapply reports_hit; eassumption.
    - apply nth_error_None in Ef. lia. }
  destruct (show_details_ok (Streamlit.results (run 0 files st0))
              (Streamlit.compliance_reports (run 0 files st0)) 0)
    as [Hs Hl].
  { rewrite Hlen. exact Hfound. }
  cbn [fst snd]. rewrite Hs, Hl, Hlen.
  split; [reflexivity|]. split; [reflexivity|].
  intros i f e Hi He.
  assert (Hrow : exists r,
             nth_error (Streamlit.results (run 0 files st0)) i = Some r /\
             Streamlit.filename r = Streamlit.name f).
  { apply (f_equal (fun l => nth_error l i)) in Hnames.
    rewrite !nth_error_map, Hi in Hnames. simpl in Hnames.
    destruct (nth_error (Streamlit.results (run 0 files st0)) i) as [r|];
      [|discriminate].
    injection Hnames as Hr. exists r. split; [reflexivity | exact Hr]. }
  destruct Hrow as (r & Hr & Hname).
  pose proof (show_details_at (Streamlit.results (run 0 files st0))
                (Streamlit.compliance_reports (run 0 files st0)) 0 i r)
    as Hat.
  cbn zeta in Hat.
  rewrite (reports_hit files 0 st0 i f e Hi He) in Hat.
  eexists. split.
  - apply Hat; [|exact Hr].
    intros j' Hlt. apply Hfound.
    assert (Hsome : nth_error files i <> None) by congruence.
    apply nth_error_Some in Hsome. lia.
  - unfold StreamlitView.shown_detail. cbn [StreamlitView.expander StreamlitView.written].
    rewrite Hname. split; reflexivity.
Qed.

(** A run in which the upload after [oks] fails and a later one, [good],
    is the next to go through: the rows of [oks] find their reports, the
    key after them is not written, and the row at this position is the one
    of [good]. *)
Lemma page_after_failed_upload
    (oks rest : list Streamlit.Upload) (bad good : Streamlit.Upload)
    (st0 : Streamlit.PageState) :
  forallb ok oks = true -> ok bad = false -> find ok rest = Some good ->
  Streamlit.results st0 = [] ->
  let st' := run 0 (oks ++ bad :: rest)%list st0 in
  (forall j, j < length oks ->
     exists e,
       PyDict.get (doc_id_of (0 + j + 1)) (Streamlit.compliance_reports st')
       = Some e) /\
  PyDict.get (doc_id_of (0 + length oks + 1))
             (Streamlit.compliance_reports st')
  = PyDict.get (doc_id_of (length oks + 1))
               (Streamlit.compliance_reports st0) /\
  exists r,
    nth_error (Streamlit.results st') (length oks) = Some r /\
    Streamlit.filename r = Streamlit.name good.
Proof.
  intros Hoks Hbad Hgood Hres st'. split; [|split].
  - intros j Hj.
    destruct (nth_error oks j) as [f|] eqn:Ef;
      [|apply nth_error_None in Ef; lia].
    assert (Hok : ok f = true).
    { rewrite forallb_forall in Hoks. apply Hoks.
      eapply nth_error_In. exact Ef. }
    apply succeeded_report_of in Hok as [e He].
    exists e. unfold st'. eapply reports_hit; [|exact He].
    rewrite nth_error_app1 by exact Hj. exact Ef.
  - unfold st'. cbn [Nat.add]. apply reports_frame.
    intros j f Hj Hf Heq. apply doc_id_of_inj in Heq.
    assert (j = length oks) by lia. subst j.
    rewrite nth_error_app2, Nat.sub_diag in Hj by lia.
    injection Hj as <-. congruence.
  - pose proof (page_loop_closed_form process_document check_compliance
                  detect_red_flags (oks ++ bad :: rest)%list 0 st0)
      as [Hnames _].
    cbn zeta in Hnames. rewrite Hres in Hnames. simpl in Hnames.
    destruct (find_filter_head _ _ _ Hgood) as [l' Hl'].
    rewrite List.filter_app in Hnames. cbn [List.filter] in Hnames.
    rewrite Hbad, Hl', (filter_all _ _ Hoks) in Hnames.
    apply (f_equal (fun l => nth_error l (length oks))) in Hnames.
    rewrite !nth_error_map in Hnames.
    rewrite nth_error_app2, Nat.sub_diag in Hnames by lia.
    simpl in Hnames. fold st' in Hnames.
    destruct (nth_error (Streamlit.results st') (length oks)) as [r|];
      [|discriminate].
    injection Hnames as Hr. exists r. split; [reflexivity | exact Hr].
Qed.

(** X19: the display loop looks the red flags up by the position of the
    row, not of the upload. When an upload fails after [oks] successful
    ones, a later upload goes through, and the session has no report under
    the key of the failed position, the page shows the expanders of [oks],
    then the expander of the next successful upload with its metrics and
    nothing under them, and ends with the error message of the outer
    handler for the missing key. *)
Theorem page_display_stops_at_failed_upload
    (oks rest : list Streamlit.Upload) (bad good : Streamlit.Upload)
    (st : Streamlit.PageState) :
  forallb ok oks = true -> ok bad = false -> find ok rest = Some good ->
  PyDict.get (doc_id_of (length oks + 1)) (Streamlit.compliance_reports st)
  = None ->
  let shown :=
    StreamlitView.show_results fmt2f
      (Streamlit.process_documents process_document check_compliance
         detect_red_flags (oks ++ bad :: rest)%list st) in
  snd shown
  = Some ("❌ Error processing documents: '"
          ++ doc_id_of (length oks + 1) ++ "'") /\
  length (fst shown) = length oks + 1 /\
  exists d,
    nth_error (fst shown) (length oks) = Some d /\
    StreamlitView.expander d = "📄 " ++ Streamlit.name good /\
    StreamlitView.written d = [].
Proof.
  intros Hoks Hbad Hgood Hnone shown.
  unfold shown, StreamlitView.show_results, Streamlit.process_documents.
  set (st0 := {| Streamlit.documents := Streamlit.documents st;
                 Streamlit.compliance_reports :=
                   Streamlit.compliance_reports st;
                 Streamlit.results := [];
                 Streamlit.errors := [] |}).
  destruct (page_after_failed_upload oks rest bad good st0
              Hoks Hbad Hgood eq_refl) as (Hpre & Hkey & r & Hr & Hname).
  pose proof (show_details_at _ _ 0 (length oks) r Hpre Hr) as Hat.
  cbn zeta in Hat. rewrite Hkey in Hat.
  cbn [st0 Streamlit.compliance_reports] in Hat. rewrite Hnone in Hat.
  destruct Hat as (Hn & Hl & Hs). cbn [fst snd].
  rewrite Hs, Hl. cbn [Nat.add str_exc].
  split; [reflexivity|]. split; [reflexivity|].
  eexists. split; [exact Hn|].
  unfold StreamlitView.shown_detail.
  cbn [StreamlitView.expander StreamlitView.written].
  rewrite Hname. split; reflexivity.
Qed.

(** X20: in the same run, when the session still has a report under the
    key of the failed position from an earlier run, the expander of the
    next successful upload shows the red flags of that earlier report: the
    flags of another document under the name of this one. *)
Theorem page_display_shows_stale_flags
    (oks rest : list Streamlit.Upload) (bad good : Streamlit.Upload)
    (old : Streamlit.ReportEntry) (st : Streamlit.PageState) :
  forallb ok oks = true -> ok bad = false -> find ok rest = Some good ->
  PyDict.get (doc_id_of (length oks + 1)) (Streamlit.compliance_reports st)
  = Some old ->
  let shown :=
    StreamlitView.show_results fmt2f
      (Streamlit.process_documents process_document check_compliance
         detect_red_flags (oks ++ bad :: rest)%list st) in
  exists d,
    nth_error (fst shown) (length oks) = Some d /\
    StreamlitView.expander d = "📄 " ++ Streamlit.name good /\
    StreamlitView.written d
    = StreamlitView.written_for (Streamlit.red_flags old).
Proof.
  intros Hoks Hbad Hgood Hold shown.
  unfold shown, StreamlitView.show_results, Streamlit.process_documents.
  set (st0 := {| Streamlit.documents := Streamlit.documents st;
                 Streamlit.compliance_reports :=
                   Streamlit.compliance_reports st;
                 Streamlit.results := [];
                 Streamlit.errors := [] |}).
  destruct (page_after_failed_upload oks rest bad good st0
              Hoks Hbad Hgood eq_refl) as (Hpre & Hkey & r & Hr & Hname).
  pose proof (show_details_at _ _ 0 (length oks) r Hpre Hr) as Hat.
  cbn zeta in Hat. rewrite Hkey in Hat.
  cbn [st0 Streamlit.compliance_reports] in Hat. rewrite Hold in Hat.
  cbn [fst]. eexists. split; [exact Hat|].
  unfold StreamlitView.shown_detail.
  cbn [StreamlitView.expander StreamlitView.written].
  rewrite Hname. split; reflexivity.
Qed.

End PageFacts.

Lemma page_reports_have_documents_witness :
  let st := Demo.process_page ["articles.docx"; "corrupt.docx"; "board.docx"] in
  incl (PyDict.keys (Streamlit.compliance_reports Demo.fresh_page))
       (PyDict.keys (Streamlit.documents Demo.fresh_page)) /\
  PyDict.keys (Streamlit.compliance_reports st) = ["doc_1"] /\
  PyDict.keys (Streamlit.documents st) = ["doc_1"; "doc_3"] /\
  incl (PyDict.keys (Streamlit.compliance_reports st))
       (PyDict.keys (Streamlit.documents st)).
Proof.
  assert (H0 : incl (PyDict.keys
                       (Streamlit.compliance_reports Demo.fresh_page))
                    (PyDict.keys (Streamlit.documents Demo.fresh_page))).
  { intros k []. }
  split; [exact H0|]. split; [reflexivity|]. split; [reflexivity|].
  exact (page_reports_have_documents
           Demo.process_document Demo.check_compliance Demo.detect_red_flags
           (map Demo.upload ["articles.docx"; "corrupt.docx"; "board.docx"])
           Demo.fresh_page H0).
Defined.

Lemma page_shows_own_flags_witness :
  let files := map Demo.upload ["articles.docx"; "articles2.docx"] in
  let shown := demo_show ["articles.docx"; "articles2.docx"] in
  forallb (Streamlit.succeeded Demo.process_document Demo.check_compliance
                               Demo.detect_red_flags) files = true /\
  snd shown = None /\
  length (fst shown) = 2 /\
  exists d,
    nth_error (fst shown) 1 = Some d /\
    StreamlitView.expander d = "📄 articles2.docx" /\
    StreamlitView.written d = ["✅ No issues found in this document!"].
Proof.
  intros files shown.
  destruct (page_shows_own_flags
              Demo.process_document Demo.check_compliance
              Demo.detect_red_flags Demo.fmt2f files Demo.fresh_page eq_refl)
    as (Hnone & Hlen & Hat).
  split; [reflexivity|]. split; [exact Hnone|]. split; [exact Hlen|].
  exact (Hat 1 (Demo.upload "articles2.docx")
             {| Streamlit.compliance_report :=
                  {| Streamlit.overall_score := Some 1%Q |};
                Streamlit.red_flags := [] |}
             eq_refl eq_refl).
Defined.

Lemma page_display_stops_at_failed_upload_witness :
  let ok :=
    Streamlit.succeeded Demo.process_document Demo.check_compliance
                        Demo.detect_red_flags in
  let shown := demo_show ["board.docx"; "articles.docx"] in
  ok (Demo.upload "board.docx") = false /\
  find ok [Demo.upload "articles.docx"] = Some (Demo.upload "articles.docx") /\
  snd shown = Some "❌ Error processing documents: 'doc_1'" /\
  length (fst shown) = 1 /\
  exists d,
    nth_error (fst shown) 0 = Some d /\
    StreamlitView.expander d = "📄 articles.docx" /\
    StreamlitView.written d = [].
Proof.
  intros ok shown. split; [reflexivity|]. split; [reflexivity|].
  exact (page_display_stops_at_failed_upload
           Demo.process_document Demo.check_compliance Demo.detect_red_flags
           Demo.fmt2f [] [Demo.upload "articles.docx"]
           (Demo.upload "board.docx") (Demo.upload "articles.docx")
           Demo.fresh_page eq_refl eq_refl eq_refl eq_refl).
Defined.

Lemma page_display_shows_stale_flags_witness :
  let flag :=
    {| Streamlit.severity := Some "critical";
       Streamlit.description := Some "Disputes go to the Dubai Courts";
       Streamlit.location := Some "Clause 12";
       Streamlit.suggestion := Some "Name the ADGM Courts" |} in
  let old :=
    {| Streamlit.compliance_report :=
         {| Streamlit.overall_score := Some 0%Q |};
       Streamlit.red_flags := [flag] |} in
  let st :=
    {| Streamlit.documents := PyDict.empty;
       Streamlit.compliance_reports := [("doc_1", old)];
       Streamlit.results := [];
       Streamlit.errors := [] |} in
  let shown :=
    StreamlitView.show_results Demo.fmt2f
      (Streamlit.process_documents Demo.process_document
         Demo.check_compliance Demo.detect_red_flags
         (map Demo.upload ["board.docx"; "articles.docx"]) st) in
  Demo.detect_red_flags (Demo.meta "articles.docx" "Articles of Association")
                        [Demo.clause]
                        {| Doc.overall_compliance_score := Some 1%Q;
                           Doc.critical_issues_count := Some 0 |}
  = Ok [] /\
  PyDict.get (doc_id_of 1) (Streamlit.compliance_reports st) = Some old /\
  exists d,
    nth_error (fst shown) 0 = Some d /\
    StreamlitView.expander d = "📄 articles.docx" /\
    StreamlitView.written d
    = [ "**Issues Found:**";
        "🔴 **Disputes go to the Dubai Courts**";
        "   📍 Location: Clause 12";
        "   💡 Suggestion: Name the ADGM Courts";
        "" ].
Proof.
  intros flag old st shown. split; [reflexivity|]. split; [reflexivity|].
  exact (page_display_shows_stale_flags
           Demo.process_document Demo.check_compliance Demo.detect_red_flags
           Demo.fmt2f [] [Demo.upload "articles.docx"]
           (Demo.upload "board.docx") (Demo.upload "articles.docx")
           old st eq_refl eq_refl eq_refl eq_refl).
Defined.

(** ** A missing API key *)

Section MissingKey.

Variable py_int : string -> Exc Z.
Variable setup_directories : Exc unit.
Variable check_requirements : bool.
Variable gradio_main : PyDict.t string -> Exc unit.
Variable subprocess_run : list string -> Exc unit.
Variable sys_executable : string.
Variable cli_session : Exc unit.

(** X21: without an API key in the environment (not set, or empty),
    [main] of [run.py] starts no interface and returns exit code 1 once
    the directories are set up; [app.py] started on its own does not stop:
    [create_gradio_interface] builds the page that only reports the missing
    key, and [main] launches this page with the usual configuration. *)
Theorem missing_key_behaviour
    (env : PyDict.t string) (now : string) (args : Run.Args) :
  Run.check_api_key env = false ->
  setup_directories = Ok tt ->
  Run.main setup_directories check_requirements gradio_main subprocess_run
           sys_executable cli_session env args
  = (Ok 1%Z, None) /\
  main_launch py_int env now
  = let* config := launch_config py_int env in
    Ok (ConfigurationRequired
          "Error: OpenAI API key not found. Please set OPENAI_API_KEY in your .env file.",
        config).
Proof.
  intros Hkey Hsetup. split.
  - unfold Run.main. rewrite Hsetup, Hkey.
    destruct check_requirements; reflexivity.
  - unfold main_launch, create_gradio_interface, __init__.
    unfold Run.check_api_key in Hkey.
    destruct (getenv env "OPENAI_API_KEY") as [[|c key]|];
      [reflexivity | discriminate | reflexivity].
Qed.

End MissingKey.

Lemma missing_key_behaviour_witness :
  let env : PyDict.t string := [("OPENAI_API_KEY", "")] in
  let args :=
    {| Run.interface := Run.Gradio; Run.port := None; Run.share := false;
       Run.debug := false; Run.setup_only := false |} in
  Run.check_api_key env = false /\
  Run.main (Ok tt) true (fun _ => Ok tt) (fun _ => Ok tt) "python3" (Ok tt)
           env args
  = (Ok 1%Z, None) /\
  main_launch (fun _ => Ok 7860%Z) env "20250811_101500"
  = Ok (ConfigurationRequired
          "Error: OpenAI API key not found. Please set OPENAI_API_KEY in your .env file.",
        {| server_name := "0.0.0.0"; server_port := 7860%Z; share := false;
           debug := false; show_error := true; quiet := false |}).
Proof.
  intros env args. split; [reflexivity|].
  exact (missing_key_behaviour (fun _ => Ok 7860%Z) (Ok tt) true
           (fun _ => Ok tt) (fun _ => Ok tt) "python3" (Ok tt)
           env "20250811_101500" args eq_refl eq_refl).
Defined.

(** ** The sidebar of the Streamlit page *)

Section Sidebar.

Variable process_document :
  string ->
  Exc (Doc.DocumentMetadata * list Doc.DocumentSection * Doc.Analysis).
Variable check_compliance :
  Doc.DocumentMetadata -> list Doc.DocumentSection -> Doc.Analysis ->
  Exc Streamlit.ComplianceReport.
Variable detect_red_flags :
  Doc.DocumentMetadata -> list Doc.DocumentSection -> Doc.Analysis ->
  Exc (list Streamlit.RedFlag).

(** The issue counts of the stored reports are those of the rows, as long
    as every report went to a key of its own. *)
Lemma reports_match_rows (files : list Streamlit.Upload) : forall i st,
  (forall j, i <= j ->
     ~ In (doc_id_of (j + 1))
          (PyDict.keys (Streamlit.compliance_reports st))) ->
  map (fun e => length (Streamlit.red_flags e))
      (PyDict.values (Streamlit.compliance_reports st))
  = map Streamlit.issues_count (Streamlit.results st) ->
  let st' :=
    Streamlit.process_from process_document check_compliance
                           detect_red_flags i files st in
  map (fun e => length (Streamlit.red_flags e))
      (PyDict.values (Streamlit.compliance_reports st'))
  = map Streamlit.issues_count (Streamlit.results st').
Proof.
  induction files as [|f files IH]; intros i st Hfresh Hsame; [exact Hsame|].
  cbn [Streamlit.process_from]. cbn zeta. apply IH; clear IH.
  - intros j Hj. unfold Streamlit.process_file.
    assert (Hold : ~ In (doc_id_of (j + 1))
                        (PyDict.keys (Streamlit.compliance_reports st)))
      by (apply Hfresh; lia).
    destruct (process_document _) as [[[md secs] an]|e]; [|exact Hold].
    destruct (check_compliance md secs an); [|exact Hold].
    destruct (detect_red_flags md secs an); [|exact Hold].
    cbn [Streamlit.compliance_reports].
    intros Hin. apply PyDictFacts.in_keys_set in Hin as [Heq|Hin];
      [|exact (Hold Hin)].
    apply doc_id_of_inj in Heq. lia.
  - unfold Streamlit.process_file.
    destruct (process_document _) as [[[md secs] an]|e]; [|exact Hsame].
    destruct (check_compliance md secs an); [|exact Hsame].
    destruct (detect_red_flags md secs an) as [flags|]; [|exact Hsame].
    cbn [Streamlit.compliance_reports Streamlit.results].
    rewrite PyDictFacts.set_fresh by (apply Hfresh; lia).
    unfold PyDict.values in *. rewrite !map_app, Hsame. reflexivity.
Qed.

(** X22: after a run on a page without earlier reports, the total that the
    sidebar computes from the session is the sum of the issue counts of the
    rows of this run; the sidebar shows it only when a document is
    stored. *)
Theorem sidebar_total_after_first_run
    (files : list Streamlit.Upload) (st : Streamlit.PageState) :
  Streamlit.compliance_reports st = PyDict.empty ->
  let st' :=
    Streamlit.process_documents process_document check_compliance
                                detect_red_flags files st in
  StreamlitView.sidebar_total_issues st'
  = if PyDict.is_empty (Streamlit.documents st') then None
    else Some (fold_left Nat.add
                 (map Streamlit.issues_count (Streamlit.results st')) 0).
Proof.
  intros Hempty st'.
  assert (H : map (fun e => length (Streamlit.red_flags e))
                  (PyDict.values (Streamlit.compliance_reports st'))
              = map Streamlit.issues_count (Streamlit.results st')).
  { unfold st', Streamlit.process_documents.
    apply reports_match_rows; cbn [Streamlit.compliance_reports
                                   Streamlit.results];
      rewrite Hempty; [intros j _ [] | reflexivity]. }
  unfold StreamlitView.sidebar_total_issues. rewrite H.
  destruct (Streamlit.documents st'); reflexivity.
Qed.

End Sidebar.

Lemma sidebar_total_after_first_run_witness :
  let flags (md : Doc.DocumentMetadata) (secs : list Doc.DocumentSection)
            (an : Doc.Analysis) : Exc (list Streamlit.RedFlag) :=
    Ok (repeat {| Streamlit.severity := Some "high";
                  Streamlit.description := None;
                  Streamlit.location := None;
                  Streamlit.suggestion := None |}
               (length secs + 2)) in
  let st' :=
    Streamlit.process_documents Demo.process_document Demo.check_compliance
      flags (map Demo.upload ["articles.docx"; "corrupt.docx"; "articles2.docx"])
      Demo.fresh_page in
  Streamlit.compliance_reports Demo.fresh_page = PyDict.empty /\
  map Streamlit.issues_count (Streamlit.results st') = [3; 3] /\
  StreamlitView.sidebar_total_issues st' = Some 6.
Proof.
  intros flags st'. split; [reflexivity|]. split; [reflexivity|].
  exact (sidebar_total_after_first_run
           Demo.process_document Demo.check_compliance flags
           (map Demo.upload ["articles.docx"; "corrupt.docx"; "articles2.docx"])
           Demo.fresh_page eq_refl).
Defined.

(** ** The two averages *)

Section Averages.

Variable process_document :
  string ->
  Exc (Doc.DocumentMetadata * list Doc.DocumentSection * Doc.Analysis).
Variable fmt2f : Q -> string.
Variable basename : string -> string.
Variable py_sum : list Q -> Q.

Local Abbreviation process :=
  (process_uploaded_documents process_document fmt2f basename py_sum).
Local Abbreviation loop := (process_loop process_document basename).
Local Abbreviation writes := (writes_from process_document).
Local Abbreviation reach := (reachable process_document fmt2f basename py_sum).

(** The reports of a session that had none before the batch are those the
    batch wrote, in the order of the batch. *)
Lemma reports_of_first_batch files s :
  compliance_reports s = [] ->
  PyDict.values (compliance_reports (loop_session (loop files s)))
  = map (fun w => snd (snd w)) (writes 0 files).
Proof.
  intros Hempty.
  destruct (loop_closed_form process_document basename files s)
    as (_ & _ & Hs & _).
  rewrite Hs, fold_apply_write. cbn [compliance_reports]. rewrite Hempty.
  change (@nil (string * ComplianceEntry))
    with (@PyDict.empty ComplianceEntry).
  rewrite PyDictFacts.update_empty
    by (rewrite keys_report_pairs; apply NoDup_keys_writes_from).
  unfold PyDict.values, report_pairs. rewrite map_map. reflexivity.
Qed.

(** C5, as amended. The average printed in the summary is the running
    total of the scores of the documents accepted in the current batch
    over their number (0 when there is none); it is accumulated in the
    loop and does not look at the stored reports.
    [_generate_recommendations] for its part takes the built-in sum of the
    scores of all stored compliance reports, in stored order, over their
    number. When the session held no document before the batch, the
    stored reports carry exactly the scores of the batch, in the order of
    the batch: the two averages are then taken over the same list, one
    with the running total and one with the built-in sum. *)
Theorem summary_average (a : ADGMCorporateAgent) (files : list string) :
  reach a ->
  let st := loop files (current_session a) in
  let s' := loop_session st in
  let batch := map write_score (writes 0 files) in
  let stored := map compliance_score (PyDict.values (compliance_reports s')) in
  avg_compliance st = running_mean batch /\
  (PyDict.is_empty (documents s') = false ->
   exists r,
     recommendations_of py_sum s' = Ok (Some r) /\
     rec_avg_compliance r = mean py_sum stored) /\
  (PyDict.is_empty (documents (current_session a)) = true ->
   stored = batch).
Proof.
  intros Hr st s' batch stored.
  split; [apply avg_compliance_batch|]. split.
  - intros Hne.
    assert (Hs' : s' = current_session (snd (process a (Some files)))).
    { unfold s', st. destruct files; reflexivity. }
    assert (Hr' : reach (snd (process a (Some files))))
      by (apply reachable_process; exact Hr).
    destruct (items_loop_aligned process_document fmt2f basename py_sum _
                (fun (acc : list Q * nat) (_ : DocumentEntry) c =>
                   ((fst acc ++ [compliance_score c])%list,
                    snd acc + issues_count c))
                ([], 0) Hr') as [Hlen Hfold].
    cbv zeta in Hlen, Hfold. rewrite <- Hs' in Hlen, Hfold.
    eexists. split.
    + unfold recommendations_of. rewrite Hne.
      unfold collect_compliance. rewrite Hfold.
      rewrite (fold_collect _ _ ([], 0) Hlen). reflexivity.
    + reflexivity.
  - intros Hempty. apply PyDictFacts.is_empty_nil in Hempty.
    destruct (session_shape process_document fmt2f basename py_sum a Hr)
      as (m & Hd & Hrep & _).
    assert (Hreports : compliance_reports (current_session a) = []).
    { rewrite Hempty in Hd. destruct m; [|discriminate].
      unfold PyDict.keys in Hrep.
      destruct (compliance_reports (current_session a));
        [reflexivity | discriminate]. }
    unfold stored, s', st, batch.
    rewrite (reports_of_first_batch files _ Hreports), map_map.
    reflexivity.
Qed.

End Averages.

Lemma summary_average_witness :
  let files := ["articles.docx"; "corrupt.docx"; "board.docx"] in
  let st :=
    process_loop Demo.process_document Demo.basename files
                 (current_session Demo.agent) in
  let s' := loop_session st in
  reachable Demo.process_document Demo.fmt2f Demo.basename Demo.py_sum
            Demo.agent /\
  PyDict.is_empty (documents (current_session Demo.agent)) = true /\
  PyDict.is_empty (documents s') = false /\
  map write_score (writes_from Demo.process_document 0 files) = [1%Q; 0%Q] /\
  avg_compliance st = running_mean [1%Q; 0%Q] /\
  (exists r,
      recommendations_of Demo.py_sum s' = Ok (Some r) /\
      rec_avg_compliance r
      = mean Demo.py_sum
          (map compliance_score (PyDict.values (compliance_reports s')))) /\
  map compliance_score (PyDict.values (compliance_reports s')) = [1%Q; 0%Q].
Proof.
  assert (Hr : reachable Demo.process_document Demo.fmt2f Demo.basename
                 Demo.py_sum Demo.agent).
  { apply (reachable_init _ _ _ _ (Some "sk-demo") "20250811_101500").
    reflexivity. }
  destruct (summary_average
              Demo.process_document Demo.fmt2f Demo.basename Demo.py_sum
              Demo.agent ["articles.docx"; "corrupt.docx"; "board.docx"] Hr)
    as (Hbatch & Hrecs & Hfresh).
  split; [exact Hr|]. split; [reflexivity|]. split; [reflexivity|].
  split; [reflexivity|].
  split; [exact Hbatch|]. split; [exact (Hrecs eq_refl)|].
  exact (Hfresh eq_refl).
Defined.

(** C5, as stated, fails once the session holds documents of an earlier
    batch: after a batch of two documents scored 1 and a batch of one
    document scored 0, the summary of the second batch reports 0, the two
    stored reports have the scores 0 and 1 with mean 1/2, and the mean over
    the three documents processed so far is 2/3. The sums of these scores
    are exact in floating point, whichever way they are added. *)
Lemma summary_average_is_not_the_stored_mean :
  let a := snd (Demo.process Demo.agent ["articles.docx"; "articles2.docx"]) in
  let st :=
    process_loop Demo.process_document Demo.basename ["board.docx"]
                 (current_session a) in
  let stored :=
    map compliance_score
        (PyDict.values (compliance_reports (loop_session st))) in
  reachable Demo.process_document Demo.fmt2f Demo.basename Demo.py_sum a /\
  (avg_compliance st == 0)%Q /\
  stored = [0%Q; 1%Q] /\
  (mean Demo.py_sum stored == 1 # 2)%Q /\
  (mean Demo.py_sum [1%Q; 1%Q; 0%Q] == 2 # 3)%Q /\
  ~ (avg_compliance st == mean Demo.py_sum stored)%Q /\
  ~ (avg_compliance st == mean Demo.py_sum [1%Q; 1%Q; 0%Q])%Q.
Proof.
  split; [|repeat split; try reflexivity].
  - apply reachable_process.
    apply (reachable_init _ _ _ _ (Some "sk-demo") "20250811_101500").
    reflexivity.
  - intros H. vm_compute in H. discriminate.
  - intros H. vm_compute in H. discriminate.
Qed.
